(** * EnergyGuard AI: the analytics core and the rule engine, verified

    A shallow embedding of [energyguard_ai.py].  Python's [float] is the
    IEEE 754 binary64 format, so usages, ratios and temperatures are Rocq's
    primitive [float]s and every arithmetic operation and comparison of the
    source is the primitive one.  Texts are [string]s in UTF-8 and the
    answers typed at the console are normalized as Python does it, on
    Unicode code points; lists are [list]s, the three accumulators of
    [KeenAIBrain.decide] are threaded as an explicit state, and an
    exception is a value of [result]. *)

From Stdlib Require Import ZArith NArith List String Ascii Bool Lia.
From Stdlib Require Import Floats.
Import ListNotations.

Set Warnings "-inexact-float".

(** ** Python values *)

(** The exceptions the modelled code can raise. *)
Inductive exn : Set :=
| ZeroDivisionError.

(** The outcome of a call: a returned value or a raised exception. *)
Inductive result (A : Type) : Type :=
| Return (a : A)
| Raise (e : exn).
Arguments Return {A} a.
Arguments Raise {A} e.

Definition bind {A B : Type} (r : result A) (k : A -> result B) : result B :=
  match r with
  | Return a => k a
  | Raise e => Raise e
  end.

Notation "x <- r ;; k" := (bind r (fun x => k))
  (at level 61, r at next level, right associativity).

(** A Python number: an [int] or a [float].  [efficiency_score] mixes the two
    (the literals [0] and [100] are ints, the score is a float). *)
Inductive pynum : Set :=
| PInt (z : Z)
| PFloat (f : float).

(** [float(z)] for an int that a float holds exactly (below 2^53 in
    magnitude), which is all the source ever compares with. *)
Definition float_of_Z (z : Z) : float :=
  match z with
  | Z0 => 0%float
  | Zpos _ => of_uint63 (Uint63.of_Z z)
  | Zneg p => (- of_uint63 (Uint63.of_Z (Zpos p)))%float
  end.

Definition to_float (a : pynum) : float :=
  match a with
  | PInt z => float_of_Z z
  | PFloat f => f
  end.

(** [a < b] on Python numbers. *)
Definition py_lt (a b : pynum) : bool :=
  match a, b with
  | PInt x, PInt y => (x <? y)%Z
  | _, _ => (to_float a <? to_float b)%float
  end.

Definition py_le (a b : pynum) : bool :=
  match a, b with
  | PInt x, PInt y => (x <=? y)%Z
  | _, _ => (to_float a <=? to_float b)%float
  end.

Definition py_eq (a b : pynum) : bool :=
  match a, b with
  | PInt x, PInt y => (x =? y)%Z
  | _, _ => (to_float a =? to_float b)%float
  end.

(** The builtin [min(a, b)]: the first argument, unless the second is
    strictly smaller.  [max(a, b)]: the first, unless the second is strictly
    larger.  With a NaN every comparison is false and the first argument
    stays. *)
Definition py_min (a b : pynum) : pynum := if py_lt b a then b else a.
Definition py_max (a b : pynum) : pynum := if py_lt a b then b else a.

(** ** Decimal rounding of a binary64 value

    [round(x, 1)] and the format [.2f] both round the exact binary value of
    [x] to a fixed number of decimals, ties to even. *)

(** [num / den] rounded to the nearest integer, ties to even ([den > 0],
    [num >= 0]). *)
Definition div_half_even (num den : Z) : Z :=
  let q := (num / den)%Z in
  let r := (num mod den)%Z in
  match (2 * r ?= den)%Z with
  | Lt => q
  | Gt => (q + 1)%Z
  | Eq => if Z.even q then q else (q + 1)%Z
  end.

(** The magnitude [m * 2^e] times [10^k], rounded to an integer. *)
Definition scaled_magnitude (k : Z) (m : positive) (e : Z) : Z :=
  if (0 <=? e)%Z then (Zpos m * 2 ^ e * 10 ^ k)%Z
  else div_half_even (Zpos m * 10 ^ k) (2 ^ (- e)).

(** The binary64 value nearest to [n / 10^k] for [n >= 0], with sign [s]. *)
Definition nearest_decimal (s : bool) (n : Z) (k : Z) : float :=
  match n with
  | Zpos p =>
      SF2Prim (SF64div (S754_finite s p 0)
                       (S754_finite false (Z.to_pos (10 ^ k)) 0))
  | _ => SF2Prim (S754_zero s)
  end.

(** [float.__round__(x, ndigits)] for [ndigits = k >= 0]: NaN and the
    infinities round to themselves, so does a value without fractional bits;
    any other value goes through its correctly rounded decimal. *)
Definition float_round (x : float) (k : Z) : float :=
  match Prim2SF x with
  | S754_finite s m e =>
      if (0 <=? e)%Z then x
      else nearest_decimal s (scaled_magnitude k m e) k
  | _ => x
  end.

(** The builtin [round(a, 1)]: an int rounds to itself. *)
Definition py_round1 (a : pynum) : pynum :=
  match a with
  | PInt z => PInt z
  | PFloat f => PFloat (float_round f 1)
  end.

(** The format [.2f]: the value rounded to two decimals, ties to even on
    the exact binary value, printed with its integer part (at least one
    digit), a point and two digits; a negative sign is kept even when the
    digits are all zero. *)
Definition digit (d : Z) : ascii := ascii_of_N (48 + Z.to_N d).

Fixpoint digits_fuel (fuel : nat) (n : Z) (acc : string) : string :=
  match fuel with
  | O => acc
  | S fuel' =>
      let acc' := String (digit (n mod 10)) acc in
      if (n <? 10)%Z then acc' else digits_fuel fuel' (n / 10)%Z acc'
  end.

(** The decimal digits of [n >= 0]; the number of digits of [n] never
    exceeds its size in bits plus one, which is the fuel. *)
Definition decimal (n : Z) : string :=
  digits_fuel (S (Z.to_nat (Z.log2 n))) n "".

Definition fixed2 (s : bool) (n : Z) : string :=
  ((if s then "-" else "")
   ++ decimal (n / 100)
   ++ "."
   ++ String (digit ((n / 10) mod 10)) (String (digit (n mod 10)) ""))%string.

Definition format_2f (x : float) : string :=
  match Prim2SF x with
  | S754_nan => "nan"%string
  | S754_infinity s => if s then "-inf"%string else "inf"%string
  | S754_zero s => fixed2 s 0
  | S754_finite s m e => fixed2 s (scaled_magnitude 2 m e)
  end.

(** ** Python strings

    A [str] is a sequence of Unicode code points.  The texts of this
    development, its literals and the lines typed at the console, are byte
    strings in UTF-8: [decode_utf8] gives the str a text stands for and
    [encode_utf8] the text of a str.  A byte that belongs to no well-formed
    sequence is carried as the single code point [0xDC00 + byte], the way
    Python's [surrogateescape] handler does, so that every text stands for
    a str and is read back from it unchanged.

    The methods [strip], [capitalize] and [lower] act on code points with
    the tables of Unicode 14.0.0, the version CPython 3.11 carries. *)

Definition str : Set := list N.

Definition between (lo hi c : N) : bool := (lo <=? c)%N && (c <=? hi)%N.

(** A byte that continues a UTF-8 sequence. *)
Definition trail (b : N) : bool := between 0x80 0xBF b.

(** The second byte a well-formed sequence admits after the lead byte
    [b0]: no overlong form, no surrogate, nothing above U+10FFFF. *)
Definition second (b0 b1 : N) : bool :=
  if (b0 =? 0xE0)%N then between 0xA0 0xBF b1
  else if (b0 =? 0xED)%N then between 0x80 0x9F b1
  else if (b0 =? 0xF0)%N then between 0x90 0xBF b1
  else if (b0 =? 0xF4)%N then between 0x80 0x8F b1
  else trail b1.

(** A byte outside every well-formed sequence, as one code point. *)
Definition escaped (b : N) : N := (0xDC00 + b)%N.

Fixpoint decode_utf8 (s : string) : str :=
  match s with
  | EmptyString => []
  | String a0 s1 =>
      let b0 := N_of_ascii a0 in
      if (b0 <? 0x80)%N then b0 :: decode_utf8 s1
      else
        match s1 with
        | EmptyString => [escaped b0]
        | String a1 s2 =>
            let b1 := N_of_ascii a1 in
            if between 0xC2 0xDF b0 && trail b1 then
              ((b0 - 0xC0) * 64 + (b1 - 0x80))%N :: decode_utf8 s2
            else
              match s2 with
              | EmptyString => escaped b0 :: decode_utf8 s1
              | String a2 s3 =>
                  let b2 := N_of_ascii a2 in
                  if between 0xE0 0xEF b0 && second b0 b1 && trail b2 then
                    ((b0 - 0xE0) * 4096 + (b1 - 0x80) * 64 + (b2 - 0x80))%N
                      :: decode_utf8 s3
                  else
                    match s3 with
                    | EmptyString => escaped b0 :: decode_utf8 s1
                    | String a3 s4 =>
                        let b3 := N_of_ascii a3 in
                        if between 0xF0 0xF4 b0 && second b0 b1 && trail b2
                           && trail b3 then
                          ((b0 - 0xF0) * 262144 + (b1 - 0x80) * 4096
                           + (b2 - 0x80) * 64 + (b3 - 0x80))%N
                            :: decode_utf8 s4
                        else escaped b0 :: decode_utf8 s1
                    end
              end
        end
  end.

(** The bytes of one code point. *)
Definition encode_char (c : N) : list N :=
  if (c <? 0x80)%N then [c]
  else if between 0xDC80 0xDCFF c then [(c - 0xDC00)%N]
  else if (c <? 0x800)%N then [0xC0 + c / 64; 0x80 + c mod 64]%N
  else if (c <? 0x10000)%N then
    [0xE0 + c / 4096; 0x80 + (c / 64) mod 64; 0x80 + c mod 64]%N
  else
    [0xF0 + (c / 262144) mod 8; 0x80 + (c / 4096) mod 64;
     0x80 + (c / 64) mod 64; 0x80 + c mod 64]%N.

Fixpoint string_of_bytes (l : list N) : string :=
  match l with
  | [] => EmptyString
  | b :: l' => String (ascii_of_N b) (string_of_bytes l')
  end.

Fixpoint encode_utf8 (l : str) : string :=
  match l with
  | [] => EmptyString
  | c :: l' => (string_of_bytes (encode_char c) ++ encode_utf8 l')%string
  end.

(** *** The character tables *)

(** Membership in a table of ranges [(first, last)]. *)
Definition in_ranges (c : N) (table : list (N * N)) : bool :=
  existsb (fun r => between (fst r) (snd r) c) table.

(** A run [(first, last, stride, image)] of a case table: the code points
    [first], [first + stride], ... up to [last] are mapped to [image],
    [image + stride], ... *)
Definition in_run (c : N) (r : N * N * N * N) : bool :=
  let '(first, last, stride, _) := r in
  if between first last c then ((c - first) mod stride =? 0)%N else false.

Definition run_image (c : N) (r : N * N * N * N) : N :=
  let '(first, _, _, image) := r in (image + (c - first))%N.

(** A full case mapping: the characters that map to several are listed
    one by one in [special], those that map to one other character by runs,
    and every other character maps to itself. *)
Definition full_case (special : list (N * list N))
    (runs : list (N * N * N * N)) (c : N) : list N :=
  match find (fun e => (fst e =? c)%N) special with
  | Some e => snd e
  | None =>
      match find (in_run c) runs with
      | Some r => [run_image c r]
      | None => [c]
      end
  end.

(** White space, as [str.isspace] and [str.strip] see it. *)
Definition whitespace : list (N * N) :=
  [(0x9, 0xD); (0x1C, 0x20); (0x85, 0x85); (0xA0, 0xA0); (0x1680, 0x1680);
   (0x2000, 0x200A); (0x2028, 0x2029); (0x202F, 0x202F); (0x205F, 0x205F);
   (0x3000, 0x3000)]%N.

(** Lower case. *)
Definition lower_runs : list (N * N * N * N) :=
  [(0x41, 0x5A, 1, 0x61); (0xC0, 0xD6, 1, 0xE0); (0xD8, 0xDE, 1, 0xF8);
   (0x100, 0x12E, 2, 0x101); (0x132, 0x136, 2, 0x133);
   (0x139, 0x147, 2, 0x13A); (0x14A, 0x176, 2, 0x14B);
   (0x178, 0x178, 1, 0xFF); (0x179, 0x17D, 2, 0x17A);
   (0x181, 0x181, 1, 0x253); (0x182, 0x184, 2, 0x183);
   (0x186, 0x186, 1, 0x254); (0x187, 0x187, 1, 0x188);
   (0x189, 0x18A, 1, 0x256); (0x18B, 0x18B, 1, 0x18C);
   (0x18E, 0x18E, 1, 0x1DD); (0x18F, 0x18F, 1, 0x259);
   (0x190, 0x190, 1, 0x25B); (0x191, 0x191, 1, 0x192);
   (0x193, 0x193, 1, 0x260); (0x194, 0x194, 1, 0x263);
   (0x196, 0x196, 1, 0x269); (0x197, 0x197, 1, 0x268);
   (0x198, 0x198, 1, 0x199); (0x19C, 0x19C, 1, 0x26F);
   (0x19D, 0x19D, 1, 0x272); (0x19F, 0x19F, 1, 0x275);
   (0x1A0, 0x1A4, 2, 0x1A1); (0x1A6, 0x1A6, 1, 0x280);
   (0x1A7, 0x1A7, 1, 0x1A8); (0x1A9, 0x1A9, 1, 0x283);
   (0x1AC, 0x1AC, 1, 0x1AD); (0x1AE, 0x1AE, 1, 0x288);
   (0x1AF, 0x1AF, 1, 0x1B0); (0x1B1, 0x1B2, 1, 0x28A);
   (0x1B3, 0x1B5, 2, 0x1B4); (0x1B7, 0x1B7, 1, 0x292);
   (0x1B8, 0x1B8, 1, 0x1B9); (0x1BC, 0x1BC, 1, 0x1BD);
   (0x1C4, 0x1C4, 1, 0x1C6); (0x1C5, 0x1C5, 1, 0x1C6);
   (0x1C7, 0x1C7, 1, 0x1C9); (0x1C8, 0x1C8, 1, 0x1C9);
   (0x1CA, 0x1CA, 1, 0x1CC); (0x1CB, 0x1DB, 2, 0x1CC);
   (0x1DE, 0x1EE, 2, 0x1DF); (0x1F1, 0x1F1, 1, 0x1F3);
   (0x1F2, 0x1F4, 2, 0x1F3); (0x1F6, 0x1F6, 1, 0x195);
   (0x1F7, 0x1F7, 1, 0x1BF); (0x1F8, 0x21E, 2, 0x1F9);
   (0x220, 0x220, 1, 0x19E); (0x222, 0x232, 2, 0x223);
   (0x23A, 0x23A, 1, 0x2C65); (0x23B, 0x23B, 1, 0x23C);
   (0x23D, 0x23D, 1, 0x19A); (0x23E, 0x23E, 1, 0x2C66);
   (0x241, 0x241, 1, 0x242); (0x243, 0x243, 1, 0x180);
   (0x244, 0x244, 1, 0x289); (0x245, 0x245, 1, 0x28C);
   (0x246, 0x24E, 2, 0x247); (0x370, 0x372, 2, 0x371);
   (0x376, 0x376, 1, 0x377); (0x37F, 0x37F, 1, 0x3F3);
   (0x386, 0x386, 1, 0x3AC); (0x388, 0x38A, 1, 0x3AD);
   (0x38C, 0x38C, 1, 0x3CC); (0x38E, 0x38F, 1, 0x3CD);
   (0x391, 0x3A1, 1, 0x3B1); (0x3A3, 0x3AB, 1, 0x3C3);
   (0x3CF, 0x3CF, 1, 0x3D7); (0x3D8, 0x3EE, 2, 0x3D9);
   (0x3F4, 0x3F4, 1, 0x3B8); (0x3F7, 0x3F7, 1, 0x3F8);
   (0x3F9, 0x3F9, 1, 0x3F2); (0x3FA, 0x3FA, 1, 0x3FB);
   (0x3FD, 0x3FF, 1, 0x37B); (0x400, 0x40F, 1, 0x450);
   (0x410, 0x42F, 1, 0x430); (0x460, 0x480, 2, 0x461);
   (0x48A, 0x4BE, 2, 0x48B); (0x4C0, 0x4C0, 1, 0x4CF);
   (0x4C1, 0x4CD, 2, 0x4C2); (0x4D0, 0x52E, 2, 0x4D1);
   (0x531, 0x556, 1, 0x561); (0x10A0, 0x10C5, 1, 0x2D00);
   (0x10C7, 0x10C7, 1, 0x2D27); (0x10CD, 0x10CD, 1, 0x2D2D);
   (0x13A0, 0x13EF, 1, 0xAB70); (0x13F0, 0x13F5, 1, 0x13F8);
   (0x1C90, 0x1CBA, 1, 0x10D0); (0x1CBD, 0x1CBF, 1, 0x10FD);
   (0x1E00, 0x1E94, 2, 0x1E01); (0x1E9E, 0x1E9E, 1, 0xDF);
   (0x1EA0, 0x1EFE, 2, 0x1EA1); (0x1F08, 0x1F0F, 1, 0x1F00);
   (0x1F18, 0x1F1D, 1, 0x1F10); (0x1F28, 0x1F2F, 1, 0x1F20);
   (0x1F38, 0x1F3F, 1, 0x1F30); (0x1F48, 0x1F4D, 1, 0x1F40);
   (0x1F59, 0x1F5F, 2, 0x1F51); (0x1F68, 0x1F6F, 1, 0x1F60);
   (0x1F88, 0x1F8F, 1, 0x1F80); (0x1F98, 0x1F9F, 1, 0x1F90);
   (0x1FA8, 0x1FAF, 1, 0x1FA0); (0x1FB8, 0x1FB9, 1, 0x1FB0);
   (0x1FBA, 0x1FBB, 1, 0x1F70); (0x1FBC, 0x1FBC, 1, 0x1FB3);
   (0x1FC8, 0x1FCB, 1, 0x1F72); (0x1FCC, 0x1FCC, 1, 0x1FC3);
   (0x1FD8, 0x1FD9, 1, 0x1FD0); (0x1FDA, 0x1FDB, 1, 0x1F76);
   (0x1FE8, 0x1FE9, 1, 0x1FE0); (0x1FEA, 0x1FEB, 1, 0x1F7A);
   (0x1FEC, 0x1FEC, 1, 0x1FE5); (0x1FF8, 0x1FF9, 1, 0x1F78);
   (0x1FFA, 0x1FFB, 1, 0x1F7C); (0x1FFC, 0x1FFC, 1, 0x1FF3);
   (0x2126, 0x2126, 1, 0x3C9); (0x212A, 0x212A, 1, 0x6B);
   (0x212B, 0x212B, 1, 0xE5); (0x2132, 0x2132, 1, 0x214E);
   (0x2160, 0x216F, 1, 0x2170); (0x2183, 0x2183, 1, 0x2184);
   (0x24B6, 0x24CF, 1, 0x24D0); (0x2C00, 0x2C2F, 1, 0x2C30);
   (0x2C60, 0x2C60, 1, 0x2C61); (0x2C62, 0x2C62, 1, 0x26B);
   (0x2C63, 0x2C63, 1, 0x1D7D); (0x2C64, 0x2C64, 1, 0x27D);
   (0x2C67, 0x2C6B, 2, 0x2C68); (0x2C6D, 0x2C6D, 1, 0x251);
   (0x2C6E, 0x2C6E, 1, 0x271); (0x2C6F, 0x2C6F, 1, 0x250);
   (0x2C70, 0x2C70, 1, 0x252); (0x2C72, 0x2C72, 1, 0x2C73);
   (0x2C75, 0x2C75, 1, 0x2C76); (0x2C7E, 0x2C7F, 1, 0x23F);
   (0x2C80, 0x2CE2, 2, 0x2C81); (0x2CEB, 0x2CED, 2, 0x2CEC);
   (0x2CF2, 0x2CF2, 1, 0x2CF3); (0xA640, 0xA66C, 2, 0xA641);
   (0xA680, 0xA69A, 2, 0xA681); (0xA722, 0xA72E, 2, 0xA723);
   (0xA732, 0xA76E, 2, 0xA733); (0xA779, 0xA77B, 2, 0xA77A);
   (0xA77D, 0xA77D, 1, 0x1D79); (0xA77E, 0xA786, 2, 0xA77F);
   (0xA78B, 0xA78B, 1, 0xA78C); (0xA78D, 0xA78D, 1, 0x265);
   (0xA790, 0xA792, 2, 0xA791); (0xA796, 0xA7A8, 2, 0xA797);
   (0xA7AA, 0xA7AA, 1, 0x266); (0xA7AB, 0xA7AB, 1, 0x25C);
   (0xA7AC, 0xA7AC, 1, 0x261); (0xA7AD, 0xA7AD, 1, 0x26C);
   (0xA7AE, 0xA7AE, 1, 0x26A); (0xA7B0, 0xA7B0, 1, 0x29E);
   (0xA7B1, 0xA7B1, 1, 0x287); (0xA7B2, 0xA7B2, 1, 0x29D);
   (0xA7B3, 0xA7B3, 1, 0xAB53); (0xA7B4, 0xA7C2, 2, 0xA7B5);
   (0xA7C4, 0xA7C4, 1, 0xA794); (0xA7C5, 0xA7C5, 1, 0x282);
   (0xA7C6, 0xA7C6, 1, 0x1D8E); (0xA7C7, 0xA7C9, 2, 0xA7C8);
   (0xA7D0, 0xA7D0, 1, 0xA7D1); (0xA7D6, 0xA7D8, 2, 0xA7D7);
   (0xA7F5, 0xA7F5, 1, 0xA7F6); (0xFF21, 0xFF3A, 1, 0xFF41);
   (0x10400, 0x10427, 1, 0x10428); (0x104B0, 0x104D3, 1, 0x104D8);
   (0x10570, 0x1057A, 1, 0x10597); (0x1057C, 0x1058A, 1, 0x105A3);
   (0x1058C, 0x10592, 1, 0x105B3); (0x10594, 0x10595, 1, 0x105BB);
   (0x10C80, 0x10CB2, 1, 0x10CC0); (0x118A0, 0x118BF, 1, 0x118C0);
   (0x16E40, 0x16E5F, 1, 0x16E60); (0x1E900, 0x1E921, 1, 0x1E922)]%N.

Definition lower_special : list (N * list N) :=
  [(0x130, [0x69; 0x307])]%N.

(** Title case. *)
Definition title_runs : list (N * N * N * N) :=
  [(0x61, 0x7A, 1, 0x41); (0xB5, 0xB5, 1, 0x39C); (0xE0, 0xF6, 1, 0xC0);
   (0xF8, 0xFE, 1, 0xD8); (0xFF, 0xFF, 1, 0x178); (0x101, 0x12F, 2, 0x100);
   (0x131, 0x131, 1, 0x49); (0x133, 0x137, 2, 0x132);
   (0x13A, 0x148, 2, 0x139); (0x14B, 0x177, 2, 0x14A);
   (0x17A, 0x17E, 2, 0x179); (0x17F, 0x17F, 1, 0x53);
   (0x180, 0x180, 1, 0x243); (0x183, 0x185, 2, 0x182);
   (0x188, 0x188, 1, 0x187); (0x18C, 0x18C, 1, 0x18B);
   (0x192, 0x192, 1, 0x191); (0x195, 0x195, 1, 0x1F6);
   (0x199, 0x199, 1, 0x198); (0x19A, 0x19A, 1, 0x23D);
   (0x19E, 0x19E, 1, 0x220); (0x1A1, 0x1A5, 2, 0x1A0);
   (0x1A8, 0x1A8, 1, 0x1A7); (0x1AD, 0x1AD, 1, 0x1AC);
   (0x1B0, 0x1B0, 1, 0x1AF); (0x1B4, 0x1B6, 2, 0x1B3);
   (0x1B9, 0x1B9, 1, 0x1B8); (0x1BD, 0x1BD, 1, 0x1BC);
   (0x1BF, 0x1BF, 1, 0x1F7); (0x1C4, 0x1C4, 1, 0x1C5);
   (0x1C6, 0x1C6, 1, 0x1C5); (0x1C7, 0x1C7, 1, 0x1C8);
   (0x1C9, 0x1C9, 1, 0x1C8); (0x1CA, 0x1CA, 1, 0x1CB);
   (0x1CC, 0x1DC, 2, 0x1CB); (0x1DD, 0x1DD, 1, 0x18E);
   (0x1DF, 0x1EF, 2, 0x1DE); (0x1F1, 0x1F1, 1, 0x1F2);
   (0x1F3, 0x1F5, 2, 0x1F2); (0x1F9, 0x21F, 2, 0x1F8);
   (0x223, 0x233, 2, 0x222); (0x23C, 0x23C, 1, 0x23B);
   (0x23F, 0x240, 1, 0x2C7E); (0x242, 0x242, 1, 0x241);
   (0x247, 0x24F, 2, 0x246); (0x250, 0x250, 1, 0x2C6F);
   (0x251, 0x251, 1, 0x2C6D); (0x252, 0x252, 1, 0x2C70);
   (0x253, 0x253, 1, 0x181); (0x254, 0x254, 1, 0x186);
   (0x256, 0x257, 1, 0x189); (0x259, 0x259, 1, 0x18F);
   (0x25B, 0x25B, 1, 0x190); (0x25C, 0x25C, 1, 0xA7AB);
   (0x260, 0x260, 1, 0x193); (0x261, 0x261, 1, 0xA7AC);
   (0x263, 0x263, 1, 0x194); (0x265, 0x265, 1, 0xA78D);
   (0x266, 0x266, 1, 0xA7AA); (0x268, 0x268, 1, 0x197);
   (0x269, 0x269, 1, 0x196); (0x26A, 0x26A, 1, 0xA7AE);
   (0x26B, 0x26B, 1, 0x2C62); (0x26C, 0x26C, 1, 0xA7AD);
   (0x26F, 0x26F, 1, 0x19C); (0x271, 0x271, 1, 0x2C6E);
   (0x272, 0x272, 1, 0x19D); (0x275, 0x275, 1, 0x19F);
   (0x27D, 0x27D, 1, 0x2C64); (0x280, 0x280, 1, 0x1A6);
   (0x282, 0x282, 1, 0xA7C5); (0x283, 0x283, 1, 0x1A9);
   (0x287, 0x287, 1, 0xA7B1); (0x288, 0x288, 1, 0x1AE);
   (0x289, 0x289, 1, 0x244); (0x28A, 0x28B, 1, 0x1B1);
   (0x28C, 0x28C, 1, 0x245); (0x292, 0x292, 1, 0x1B7);
   (0x29D, 0x29D, 1, 0xA7B2); (0x29E, 0x29E, 1, 0xA7B0);
   (0x345, 0x345, 1, 0x399); (0x371, 0x373, 2, 0x370);
   (0x377, 0x377, 1, 0x376); (0x37B, 0x37D, 1, 0x3FD);
   (0x3AC, 0x3AC, 1, 0x386); (0x3AD, 0x3AF, 1, 0x388);
   (0x3B1, 0x3C1, 1, 0x391); (0x3C2, 0x3C2, 1, 0x3A3);
   (0x3C3, 0x3CB, 1, 0x3A3); (0x3CC, 0x3CC, 1, 0x38C);
   (0x3CD, 0x3CE, 1, 0x38E); (0x3D0, 0x3D0, 1, 0x392);
   (0x3D1, 0x3D1, 1, 0x398); (0x3D5, 0x3D5, 1, 0x3A6);
   (0x3D6, 0x3D6, 1, 0x3A0); (0x3D7, 0x3D7, 1, 0x3CF);
   (0x3D9, 0x3EF, 2, 0x3D8); (0x3F0, 0x3F0, 1, 0x39A);
   (0x3F1, 0x3F1, 1, 0x3A1); (0x3F2, 0x3F2, 1, 0x3F9);
   (0x3F3, 0x3F3, 1, 0x37F); (0x3F5, 0x3F5, 1, 0x395);
   (0x3F8, 0x3F8, 1, 0x3F7); (0x3FB, 0x3FB, 1, 0x3FA);
   (0x430, 0x44F, 1, 0x410); (0x450, 0x45F, 1, 0x400);
   (0x461, 0x481, 2, 0x460); (0x48B, 0x4BF, 2, 0x48A);
   (0x4C2, 0x4CE, 2, 0x4C1); (0x4CF, 0x4CF, 1, 0x4C0);
   (0x4D1, 0x52F, 2, 0x4D0); (0x561, 0x586, 1, 0x531);
   (0x13F8, 0x13FD, 1, 0x13F0); (0x1C80, 0x1C80, 1, 0x412);
   (0x1C81, 0x1C81, 1, 0x414); (0x1C82, 0x1C82, 1, 0x41E);
   (0x1C83, 0x1C84, 1, 0x421); (0x1C85, 0x1C85, 1, 0x422);
   (0x1C86, 0x1C86, 1, 0x42A); (0x1C87, 0x1C87, 1, 0x462);
   (0x1C88, 0x1C88, 1, 0xA64A); (0x1D79, 0x1D79, 1, 0xA77D);
   (0x1D7D, 0x1D7D, 1, 0x2C63); (0x1D8E, 0x1D8E, 1, 0xA7C6);
   (0x1E01, 0x1E95, 2, 0x1E00); (0x1E9B, 0x1E9B, 1, 0x1E60);
   (0x1EA1, 0x1EFF, 2, 0x1EA0); (0x1F00, 0x1F07, 1, 0x1F08);
   (0x1F10, 0x1F15, 1, 0x1F18); (0x1F20, 0x1F27, 1, 0x1F28);
   (0x1F30, 0x1F37, 1, 0x1F38); (0x1F40, 0x1F45, 1, 0x1F48);
   (0x1F51, 0x1F57, 2, 0x1F59); (0x1F60, 0x1F67, 1, 0x1F68);
   (0x1F70, 0x1F71, 1, 0x1FBA); (0x1F72, 0x1F75, 1, 0x1FC8);
   (0x1F76, 0x1F77, 1, 0x1FDA); (0x1F78, 0x1F79, 1, 0x1FF8);
   (0x1F7A, 0x1F7B, 1, 0x1FEA); (0x1F7C, 0x1F7D, 1, 0x1FFA);
   (0x1F80, 0x1F87, 1, 0x1F88); (0x1F90, 0x1F97, 1, 0x1F98);
   (0x1FA0, 0x1FA7, 1, 0x1FA8); (0x1FB0, 0x1FB1, 1, 0x1FB8);
   (0x1FB3, 0x1FB3, 1, 0x1FBC); (0x1FBE, 0x1FBE, 1, 0x399);
   (0x1FC3, 0x1FC3, 1, 0x1FCC); (0x1FD0, 0x1FD1, 1, 0x1FD8);
   (0x1FE0, 0x1FE1, 1, 0x1FE8); (0x1FE5, 0x1FE5, 1, 0x1FEC);
   (0x1FF3, 0x1FF3, 1, 0x1FFC); (0x214E, 0x214E, 1, 0x2132);
   (0x2170, 0x217F, 1, 0x2160); (0x2184, 0x2184, 1, 0x2183);
   (0x24D0, 0x24E9, 1, 0x24B6); (0x2C30, 0x2C5F, 1, 0x2C00);
   (0x2C61, 0x2C61, 1, 0x2C60); (0x2C65, 0x2C65, 1, 0x23A);
   (0x2C66, 0x2C66, 1, 0x23E); (0x2C68, 0x2C6C, 2, 0x2C67);
   (0x2C73, 0x2C73, 1, 0x2C72); (0x2C76, 0x2C76, 1, 0x2C75);
   (0x2C81, 0x2CE3, 2, 0x2C80); (0x2CEC, 0x2CEE, 2, 0x2CEB);
   (0x2CF3, 0x2CF3, 1, 0x2CF2); (0x2D00, 0x2D25, 1, 0x10A0);
   (0x2D27, 0x2D27, 1, 0x10C7); (0x2D2D, 0x2D2D, 1, 0x10CD);
   (0xA641, 0xA66D, 2, 0xA640); (0xA681, 0xA69B, 2, 0xA680);
   (0xA723, 0xA72F, 2, 0xA722); (0xA733, 0xA76F, 2, 0xA732);
   (0xA77A, 0xA77C, 2, 0xA779); (0xA77F, 0xA787, 2, 0xA77E);
   (0xA78C, 0xA78C, 1, 0xA78B); (0xA791, 0xA793, 2, 0xA790);
   (0xA794, 0xA794, 1, 0xA7C4); (0xA797, 0xA7A9, 2, 0xA796);
   (0xA7B5, 0xA7C3, 2, 0xA7B4); (0xA7C8, 0xA7CA, 2, 0xA7C7);
   (0xA7D1, 0xA7D1, 1, 0xA7D0); (0xA7D7, 0xA7D9, 2, 0xA7D6);
   (0xA7F6, 0xA7F6, 1, 0xA7F5); (0xAB53, 0xAB53, 1, 0xA7B3);
   (0xAB70, 0xABBF, 1, 0x13A0); (0xFF41, 0xFF5A, 1, 0xFF21);
   (0x10428, 0x1044F, 1, 0x10400); (0x104D8, 0x104FB, 1, 0x104B0);
   (0x10597, 0x105A1, 1, 0x10570); (0x105A3, 0x105B1, 1, 0x1057C);
   (0x105B3, 0x105B9, 1, 0x1058C); (0x105BB, 0x105BC, 1, 0x10594);
   (0x10CC0, 0x10CF2, 1, 0x10C80); (0x118C0, 0x118DF, 1, 0x118A0);
   (0x16E60, 0x16E7F, 1, 0x16E40); (0x1E922, 0x1E943, 1, 0x1E900)]%N.

Definition title_special : list (N * list N) :=
  [(0xDF, [0x53; 0x73]); (0x149, [0x2BC; 0x4E]); (0x1F0, [0x4A; 0x30C]);
   (0x390, [0x399; 0x308; 0x301]); (0x3B0, [0x3A5; 0x308; 0x301]);
   (0x587, [0x535; 0x582]); (0x1E96, [0x48; 0x331]); (0x1E97, [0x54; 0x308]);
   (0x1E98, [0x57; 0x30A]); (0x1E99, [0x59; 0x30A]); (0x1E9A, [0x41; 0x2BE]);
   (0x1F50, [0x3A5; 0x313]); (0x1F52, [0x3A5; 0x313; 0x300]);
   (0x1F54, [0x3A5; 0x313; 0x301]); (0x1F56, [0x3A5; 0x313; 0x342]);
   (0x1FB2, [0x1FBA; 0x345]); (0x1FB4, [0x386; 0x345]);
   (0x1FB6, [0x391; 0x342]); (0x1FB7, [0x391; 0x342; 0x345]);
   (0x1FC2, [0x1FCA; 0x345]); (0x1FC4, [0x389; 0x345]);
   (0x1FC6, [0x397; 0x342]); (0x1FC7, [0x397; 0x342; 0x345]);
   (0x1FD2, [0x399; 0x308; 0x300]); (0x1FD3, [0x399; 0x308; 0x301]);
   (0x1FD6, [0x399; 0x342]); (0x1FD7, [0x399; 0x308; 0x342]);
   (0x1FE2, [0x3A5; 0x308; 0x300]); (0x1FE3, [0x3A5; 0x308; 0x301]);
   (0x1FE4, [0x3A1; 0x313]); (0x1FE6, [0x3A5; 0x342]);
   (0x1FE7, [0x3A5; 0x308; 0x342]); (0x1FF2, [0x1FFA; 0x345]);
   (0x1FF4, [0x38F; 0x345]); (0x1FF6, [0x3A9; 0x342]);
   (0x1FF7, [0x3A9; 0x342; 0x345]); (0xFB00, [0x46; 0x66]);
   (0xFB01, [0x46; 0x69]); (0xFB02, [0x46; 0x6C]);
   (0xFB03, [0x46; 0x66; 0x69]); (0xFB04, [0x46; 0x66; 0x6C]);
   (0xFB05, [0x53; 0x74]); (0xFB06, [0x53; 0x74]); (0xFB13, [0x544; 0x576]);
   (0xFB14, [0x544; 0x565]); (0xFB15, [0x544; 0x56B]);
   (0xFB16, [0x54E; 0x576]); (0xFB17, [0x544; 0x56D])]%N.

(** The characters that neither start nor end a word for the purpose of
    case ([Case_Ignorable]), and those that have a case ([Cased]). *)
Definition case_ignorable : list (N * N) :=
  [(0x27, 0x27); (0x2E, 0x2E); (0x3A, 0x3A); (0x5E, 0x5E); (0x60, 0x60);
   (0xA8, 0xA8); (0xAD, 0xAD); (0xAF, 0xAF); (0xB4, 0xB4); (0xB7, 0xB8);
   (0x2B0, 0x36F); (0x374, 0x375); (0x37A, 0x37A); (0x384, 0x385);
   (0x387, 0x387); (0x483, 0x489); (0x559, 0x559); (0x55F, 0x55F);
   (0x591, 0x5BD); (0x5BF, 0x5BF); (0x5C1, 0x5C2); (0x5C4, 0x5C5);
   (0x5C7, 0x5C7); (0x5F4, 0x5F4); (0x600, 0x605); (0x610, 0x61A);
   (0x61C, 0x61C); (0x640, 0x640); (0x64B, 0x65F); (0x670, 0x670);
   (0x6D6, 0x6DD); (0x6DF, 0x6E8); (0x6EA, 0x6ED); (0x70F, 0x70F);
   (0x711, 0x711); (0x730, 0x74A); (0x7A6, 0x7B0); (0x7EB, 0x7F5);
   (0x7FA, 0x7FA); (0x7FD, 0x7FD); (0x816, 0x82D); (0x859, 0x85B);
   (0x888, 0x888); (0x890, 0x891); (0x898, 0x89F); (0x8C9, 0x902);
   (0x93A, 0x93A); (0x93C, 0x93C); (0x941, 0x948); (0x94D, 0x94D);
   (0x951, 0x957); (0x962, 0x963); (0x971, 0x971); (0x981, 0x981);
   (0x9BC, 0x9BC); (0x9C1, 0x9C4); (0x9CD, 0x9CD); (0x9E2, 0x9E3);
   (0x9FE, 0x9FE); (0xA01, 0xA02); (0xA3C, 0xA3C); (0xA41, 0xA42);
   (0xA47, 0xA48); (0xA4B, 0xA4D); (0xA51, 0xA51); (0xA70, 0xA71);
   (0xA75, 0xA75); (0xA81, 0xA82); (0xABC, 0xABC); (0xAC1, 0xAC5);
   (0xAC7, 0xAC8); (0xACD, 0xACD); (0xAE2, 0xAE3); (0xAFA, 0xAFF);
   (0xB01, 0xB01); (0xB3C, 0xB3C); (0xB3F, 0xB3F); (0xB41, 0xB44);
   (0xB4D, 0xB4D); (0xB55, 0xB56); (0xB62, 0xB63); (0xB82, 0xB82);
   (0xBC0, 0xBC0); (0xBCD, 0xBCD); (0xC00, 0xC00); (0xC04, 0xC04);
   (0xC3C, 0xC3C); (0xC3E, 0xC40); (0xC46, 0xC48); (0xC4A, 0xC4D);
   (0xC55, 0xC56); (0xC62, 0xC63); (0xC81, 0xC81); (0xCBC, 0xCBC);
   (0xCBF, 0xCBF); (0xCC6, 0xCC6); (0xCCC, 0xCCD); (0xCE2, 0xCE3);
   (0xD00, 0xD01); (0xD3B, 0xD3C); (0xD41, 0xD44); (0xD4D, 0xD4D);
   (0xD62, 0xD63); (0xD81, 0xD81); (0xDCA, 0xDCA); (0xDD2, 0xDD4);
   (0xDD6, 0xDD6); (0xE31, 0xE31); (0xE34, 0xE3A); (0xE46, 0xE4E);
   (0xEB1, 0xEB1); (0xEB4, 0xEBC); (0xEC6, 0xEC6); (0xEC8, 0xECD);
   (0xF18, 0xF19); (0xF35, 0xF35); (0xF37, 0xF37); (0xF39, 0xF39);
   (0xF71, 0xF7E); (0xF80, 0xF84); (0xF86, 0xF87); (0xF8D, 0xF97);
   (0xF99, 0xFBC); (0xFC6, 0xFC6); (0x102D, 0x1030); (0x1032, 0x1037);
   (0x1039, 0x103A); (0x103D, 0x103E); (0x1058, 0x1059); (0x105E, 0x1060);
   (0x1071, 0x1074); (0x1082, 0x1082); (0x1085, 0x1086); (0x108D, 0x108D);
   (0x109D, 0x109D); (0x10FC, 0x10FC); (0x135D, 0x135F); (0x1712, 0x1714);
   (0x1732, 0x1733); (0x1752, 0x1753); (0x1772, 0x1773); (0x17B4, 0x17B5);
   (0x17B7, 0x17BD); (0x17C6, 0x17C6); (0x17C9, 0x17D3); (0x17D7, 0x17D7);
   (0x17DD, 0x17DD); (0x180B, 0x180F); (0x1843, 0x1843); (0x1885, 0x1886);
   (0x18A9, 0x18A9); (0x1920, 0x1922); (0x1927, 0x1928); (0x1932, 0x1932);
   (0x1939, 0x193B); (0x1A17, 0x1A18); (0x1A1B, 0x1A1B); (0x1A56, 0x1A56);
   (0x1A58, 0x1A5E); (0x1A60, 0x1A60); (0x1A62, 0x1A62); (0x1A65, 0x1A6C);
   (0x1A73, 0x1A7C); (0x1A7F, 0x1A7F); (0x1AA7, 0x1AA7); (0x1AB0, 0x1ACE);
   (0x1B00, 0x1B03); (0x1B34, 0x1B34); (0x1B36, 0x1B3A); (0x1B3C, 0x1B3C);
   (0x1B42, 0x1B42); (0x1B6B, 0x1B73); (0x1B80, 0x1B81); (0x1BA2, 0x1BA5);
   (0x1BA8, 0x1BA9); (0x1BAB, 0x1BAD); (0x1BE6, 0x1BE6); (0x1BE8, 0x1BE9);
   (0x1BED, 0x1BED); (0x1BEF, 0x1BF1); (0x1C2C, 0x1C33); (0x1C36, 0x1C37);
   (0x1C78, 0x1C7D); (0x1CD0, 0x1CD2); (0x1CD4, 0x1CE0); (0x1CE2, 0x1CE8);
   (0x1CED, 0x1CED); (0x1CF4, 0x1CF4); (0x1CF8, 0x1CF9); (0x1D2C, 0x1D6A);
   (0x1D78, 0x1D78); (0x1D9B, 0x1DFF); (0x1FBD, 0x1FBD); (0x1FBF, 0x1FC1);
   (0x1FCD, 0x1FCF); (0x1FDD, 0x1FDF); (0x1FED, 0x1FEF); (0x1FFD, 0x1FFE);
   (0x200B, 0x200F); (0x2018, 0x2019); (0x2024, 0x2024); (0x2027, 0x2027);
   (0x202A, 0x202E); (0x2060, 0x2064); (0x2066, 0x206F); (0x2071, 0x2071);
   (0x207F, 0x207F); (0x2090, 0x209C); (0x20D0, 0x20F0); (0x2C7C, 0x2C7D);
   (0x2CEF, 0x2CF1); (0x2D6F, 0x2D6F); (0x2D7F, 0x2D7F); (0x2DE0, 0x2DFF);
   (0x2E2F, 0x2E2F); (0x3005, 0x3005); (0x302A, 0x302D); (0x3031, 0x3035);
   (0x303B, 0x303B); (0x3099, 0x309E); (0x30FC, 0x30FE); (0xA015, 0xA015);
   (0xA4F8, 0xA4FD); (0xA60C, 0xA60C); (0xA66F, 0xA672); (0xA674, 0xA67D);
   (0xA67F, 0xA67F); (0xA69C, 0xA69F); (0xA6F0, 0xA6F1); (0xA700, 0xA721);
   (0xA770, 0xA770); (0xA788, 0xA78A); (0xA7F2, 0xA7F4); (0xA7F8, 0xA7F9);
   (0xA802, 0xA802); (0xA806, 0xA806); (0xA80B, 0xA80B); (0xA825, 0xA826);
   (0xA82C, 0xA82C); (0xA8C4, 0xA8C5); (0xA8E0, 0xA8F1); (0xA8FF, 0xA8FF);
   (0xA926, 0xA92D); (0xA947, 0xA951); (0xA980, 0xA982); (0xA9B3, 0xA9B3);
   (0xA9B6, 0xA9B9); (0xA9BC, 0xA9BD); (0xA9CF, 0xA9CF); (0xA9E5, 0xA9E6);
   (0xAA29, 0xAA2E); (0xAA31, 0xAA32); (0xAA35, 0xAA36); (0xAA43, 0xAA43);
   (0xAA4C, 0xAA4C); (0xAA70, 0xAA70); (0xAA7C, 0xAA7C); (0xAAB0, 0xAAB0);
   (0xAAB2, 0xAAB4); (0xAAB7, 0xAAB8); (0xAABE, 0xAABF); (0xAAC1, 0xAAC1);
   (0xAADD, 0xAADD); (0xAAEC, 0xAAED); (0xAAF3, 0xAAF4); (0xAAF6, 0xAAF6);
   (0xAB5B, 0xAB5F); (0xAB69, 0xAB6B); (0xABE5, 0xABE5); (0xABE8, 0xABE8);
   (0xABED, 0xABED); (0xFB1E, 0xFB1E); (0xFBB2, 0xFBC2); (0xFE00, 0xFE0F);
   (0xFE13, 0xFE13); (0xFE20, 0xFE2F); (0xFE52, 0xFE52); (0xFE55, 0xFE55);
   (0xFEFF, 0xFEFF); (0xFF07, 0xFF07); (0xFF0E, 0xFF0E); (0xFF1A, 0xFF1A);
   (0xFF3E, 0xFF3E); (0xFF40, 0xFF40); (0xFF70, 0xFF70); (0xFF9E, 0xFF9F);
   (0xFFE3, 0xFFE3); (0xFFF9, 0xFFFB); (0x101FD, 0x101FD); (0x102E0, 0x102E0);
   (0x10376, 0x1037A); (0x10780, 0x10785); (0x10787, 0x107B0);
   (0x107B2, 0x107BA); (0x10A01, 0x10A03); (0x10A05, 0x10A06);
   (0x10A0C, 0x10A0F); (0x10A38, 0x10A3A); (0x10A3F, 0x10A3F);
   (0x10AE5, 0x10AE6); (0x10D24, 0x10D27); (0x10EAB, 0x10EAC);
   (0x10F46, 0x10F50); (0x10F82, 0x10F85); (0x11001, 0x11001);
   (0x11038, 0x11046); (0x11070, 0x11070); (0x11073, 0x11074);
   (0x1107F, 0x11081); (0x110B3, 0x110B6); (0x110B9, 0x110BA);
   (0x110BD, 0x110BD); (0x110C2, 0x110C2); (0x110CD, 0x110CD);
   (0x11100, 0x11102); (0x11127, 0x1112B); (0x1112D, 0x11134);
   (0x11173, 0x11173); (0x11180, 0x11181); (0x111B6, 0x111BE);
   (0x111C9, 0x111CC); (0x111CF, 0x111CF); (0x1122F, 0x11231);
   (0x11234, 0x11234); (0x11236, 0x11237); (0x1123E, 0x1123E);
   (0x112DF, 0x112DF); (0x112E3, 0x112EA); (0x11300, 0x11301);
   (0x1133B, 0x1133C); (0x11340, 0x11340); (0x11366, 0x1136C);
   (0x11370, 0x11374); (0x11438, 0x1143F); (0x11442, 0x11444);
   (0x11446, 0x11446); (0x1145E, 0x1145E); (0x114B3, 0x114B8);
   (0x114BA, 0x114BA); (0x114BF, 0x114C0); (0x114C2, 0x114C3);
   (0x115B2, 0x115B5); (0x115BC, 0x115BD); (0x115BF, 0x115C0);
   (0x115DC, 0x115DD); (0x11633, 0x1163A); (0x1163D, 0x1163D);
   (0x1163F, 0x11640); (0x116AB, 0x116AB); (0x116AD, 0x116AD);
   (0x116B0, 0x116B5); (0x116B7, 0x116B7); (0x1171D, 0x1171F);
   (0x11722, 0x11725); (0x11727, 0x1172B); (0x1182F, 0x11837);
   (0x11839, 0x1183A); (0x1193B, 0x1193C); (0x1193E, 0x1193E);
   (0x11943, 0x11943); (0x119D4, 0x119D7); (0x119DA, 0x119DB);
   (0x119E0, 0x119E0); (0x11A01, 0x11A0A); (0x11A33, 0x11A38);
   (0x11A3B, 0x11A3E); (0x11A47, 0x11A47); (0x11A51, 0x11A56);
   (0x11A59, 0x11A5B); (0x11A8A, 0x11A96); (0x11A98, 0x11A99);
   (0x11C30, 0x11C36); (0x11C38, 0x11C3D); (0x11C3F, 0x11C3F);
   (0x11C92, 0x11CA7); (0x11CAA, 0x11CB0); (0x11CB2, 0x11CB3);
   (0x11CB5, 0x11CB6); (0x11D31, 0x11D36); (0x11D3A, 0x11D3A);
   (0x11D3C, 0x11D3D); (0x11D3F, 0x11D45); (0x11D47, 0x11D47);
   (0x11D90, 0x11D91); (0x11D95, 0x11D95); (0x11D97, 0x11D97);
   (0x11EF3, 0x11EF4); (0x13430, 0x13438); (0x16AF0, 0x16AF4);
   (0x16B30, 0x16B36); (0x16B40, 0x16B43); (0x16F4F, 0x16F4F);
   (0x16F8F, 0x16F9F); (0x16FE0, 0x16FE1); (0x16FE3, 0x16FE4);
   (0x1AFF0, 0x1AFF3); (0x1AFF5, 0x1AFFB); (0x1AFFD, 0x1AFFE);
   (0x1BC9D, 0x1BC9E); (0x1BCA0, 0x1BCA3); (0x1CF00, 0x1CF2D);
   (0x1CF30, 0x1CF46); (0x1D167, 0x1D169); (0x1D173, 0x1D182);
   (0x1D185, 0x1D18B); (0x1D1AA, 0x1D1AD); (0x1D242, 0x1D244);
   (0x1DA00, 0x1DA36); (0x1DA3B, 0x1DA6C); (0x1DA75, 0x1DA75);
   (0x1DA84, 0x1DA84); (0x1DA9B, 0x1DA9F); (0x1DAA1, 0x1DAAF);
   (0x1E000, 0x1E006); (0x1E008, 0x1E018); (0x1E01B, 0x1E021);
   (0x1E023, 0x1E024); (0x1E026, 0x1E02A); (0x1E130, 0x1E13D);
   (0x1E2AE, 0x1E2AE); (0x1E2EC, 0x1E2EF); (0x1E8D0, 0x1E8D6);
   (0x1E944, 0x1E94B); (0x1F3FB, 0x1F3FF); (0xE0001, 0xE0001);
   (0xE0020, 0xE007F); (0xE0100, 0xE01EF)]%N.

Definition cased : list (N * N) :=
  [(0x41, 0x5A); (0x61, 0x7A); (0xAA, 0xAA); (0xB5, 0xB5); (0xBA, 0xBA);
   (0xC0, 0xD6); (0xD8, 0xF6); (0xF8, 0x1BA); (0x1BC, 0x1BF); (0x1C4, 0x293);
   (0x295, 0x2B8); (0x2C0, 0x2C1); (0x2E0, 0x2E4); (0x345, 0x345);
   (0x370, 0x373); (0x376, 0x377); (0x37A, 0x37D); (0x37F, 0x37F);
   (0x386, 0x386); (0x388, 0x38A); (0x38C, 0x38C); (0x38E, 0x3A1);
   (0x3A3, 0x3F5); (0x3F7, 0x481); (0x48A, 0x52F); (0x531, 0x556);
   (0x560, 0x588); (0x10A0, 0x10C5); (0x10C7, 0x10C7); (0x10CD, 0x10CD);
   (0x10D0, 0x10FA); (0x10FD, 0x10FF); (0x13A0, 0x13F5); (0x13F8, 0x13FD);
   (0x1C80, 0x1C88); (0x1C90, 0x1CBA); (0x1CBD, 0x1CBF); (0x1D00, 0x1DBF);
   (0x1E00, 0x1F15); (0x1F18, 0x1F1D); (0x1F20, 0x1F45); (0x1F48, 0x1F4D);
   (0x1F50, 0x1F57); (0x1F59, 0x1F59); (0x1F5B, 0x1F5B); (0x1F5D, 0x1F5D);
   (0x1F5F, 0x1F7D); (0x1F80, 0x1FB4); (0x1FB6, 0x1FBC); (0x1FBE, 0x1FBE);
   (0x1FC2, 0x1FC4); (0x1FC6, 0x1FCC); (0x1FD0, 0x1FD3); (0x1FD6, 0x1FDB);
   (0x1FE0, 0x1FEC); (0x1FF2, 0x1FF4); (0x1FF6, 0x1FFC); (0x2071, 0x2071);
   (0x207F, 0x207F); (0x2090, 0x209C); (0x2102, 0x2102); (0x2107, 0x2107);
   (0x210A, 0x2113); (0x2115, 0x2115); (0x2119, 0x211D); (0x2124, 0x2124);
   (0x2126, 0x2126); (0x2128, 0x2128); (0x212A, 0x212D); (0x212F, 0x2134);
   (0x2139, 0x2139); (0x213C, 0x213F); (0x2145, 0x2149); (0x214E, 0x214E);
   (0x2160, 0x217F); (0x2183, 0x2184); (0x24B6, 0x24E9); (0x2C00, 0x2CE4);
   (0x2CEB, 0x2CEE); (0x2CF2, 0x2CF3); (0x2D00, 0x2D25); (0x2D27, 0x2D27);
   (0x2D2D, 0x2D2D); (0xA640, 0xA66D); (0xA680, 0xA69D); (0xA722, 0xA787);
   (0xA78B, 0xA78E); (0xA790, 0xA7CA); (0xA7D0, 0xA7D1); (0xA7D3, 0xA7D3);
   (0xA7D5, 0xA7D9); (0xA7F5, 0xA7F6); (0xA7F8, 0xA7FA); (0xAB30, 0xAB5A);
   (0xAB5C, 0xAB68); (0xAB70, 0xABBF); (0xFB00, 0xFB06); (0xFB13, 0xFB17);
   (0xFF21, 0xFF3A); (0xFF41, 0xFF5A); (0x10400, 0x1044F); (0x104B0, 0x104D3);
   (0x104D8, 0x104FB); (0x10570, 0x1057A); (0x1057C, 0x1058A);
   (0x1058C, 0x10592); (0x10594, 0x10595); (0x10597, 0x105A1);
   (0x105A3, 0x105B1); (0x105B3, 0x105B9); (0x105BB, 0x105BC);
   (0x10780, 0x10780); (0x10783, 0x10785); (0x10787, 0x107B0);
   (0x107B2, 0x107BA); (0x10C80, 0x10CB2); (0x10CC0, 0x10CF2);
   (0x118A0, 0x118DF); (0x16E40, 0x16E7F); (0x1D400, 0x1D454);
   (0x1D456, 0x1D49C); (0x1D49E, 0x1D49F); (0x1D4A2, 0x1D4A2);
   (0x1D4A5, 0x1D4A6); (0x1D4A9, 0x1D4AC); (0x1D4AE, 0x1D4B9);
   (0x1D4BB, 0x1D4BB); (0x1D4BD, 0x1D4C3); (0x1D4C5, 0x1D505);
   (0x1D507, 0x1D50A); (0x1D50D, 0x1D514); (0x1D516, 0x1D51C);
   (0x1D51E, 0x1D539); (0x1D53B, 0x1D53E); (0x1D540, 0x1D544);
   (0x1D546, 0x1D546); (0x1D54A, 0x1D550); (0x1D552, 0x1D6A5);
   (0x1D6A8, 0x1D6C0); (0x1D6C2, 0x1D6DA); (0x1D6DC, 0x1D6FA);
   (0x1D6FC, 0x1D714); (0x1D716, 0x1D734); (0x1D736, 0x1D74E);
   (0x1D750, 0x1D76E); (0x1D770, 0x1D788); (0x1D78A, 0x1D7A8);
   (0x1D7AA, 0x1D7C2); (0x1D7C4, 0x1D7CB); (0x1DF00, 0x1DF09);
   (0x1DF0B, 0x1DF1E); (0x1E900, 0x1E943); (0x1F130, 0x1F149);
   (0x1F150, 0x1F169); (0x1F170, 0x1F189)]%N.

Definition is_space (c : N) : bool := in_ranges c whitespace.

Definition to_lower_full (c : N) : list N :=
  full_case lower_special lower_runs c.

Definition to_title_full (c : N) : list N :=
  full_case title_special title_runs c.

Definition is_case_ignorable (c : N) : bool := in_ranges c case_ignorable.

Definition is_cased (c : N) : bool := in_ranges c cased.

(** *** The methods *)

Fixpoint skip_ignorable (l : str) : str :=
  match l with
  | [] => []
  | c :: l' => if is_case_ignorable c then skip_ignorable l' else l
  end.

(** The capital sigma U+03A3 is final when, case-ignorable characters
    apart, a cased character precedes it and none follows.  [before] holds
    the characters before the sigma, the nearest first, [after] those
    after it. *)
Definition final_sigma (before after : str) : bool :=
  match skip_ignorable before with
  | [] => false
  | c :: _ => is_cased c
  end
  && match skip_ignorable after with
     | [] => true
     | c :: _ => negb (is_cased c)
     end.

(** One character in lower case: a final capital sigma becomes U+03C2, any
    other one U+03C3, every other character its full lower-case mapping. *)
Definition lower_char (before : str) (c : N) (after : str) : list N :=
  if (c =? 0x3A3)%N then
    [if final_sigma before after then 0x3C2%N else 0x3C3%N]
  else to_lower_full c.

(** The characters of [l] in lower case, [before] being what precedes
    them in the whole str, the nearest first. *)
Fixpoint lower_from (before : str) (l : str) : str :=
  match l with
  | [] => []
  | c :: l' => lower_char before c l' ++ lower_from (c :: before) l'
  end.

(** [str.lower] *)
Definition lower (s : str) : str := lower_from [] s.

(** [str.capitalize]: the first character in title case, the others in
    lower case. *)
Definition capitalize (s : str) : str :=
  match s with
  | [] => []
  | c :: s' => to_title_full c ++ lower_from [c] s'
  end.

Fixpoint lstrip (s : str) : str :=
  match s with
  | [] => []
  | c :: s' => if is_space c then lstrip s' else s
  end.

Definition rstrip (s : str) : str := rev (lstrip (rev s)).

(** [str.strip] without argument: white space removed at both ends. *)
Definition strip (s : str) : str := rstrip (lstrip s).

(** ** ENERGY RECORD *)

Record EnergyRecord : Set := mkEnergyRecord {
  usage : float;
  expected_avg : float;
  sector : string;
  time : string;
  sunlight : bool;
  temperature : float
}.

(** ** HISTORY MODULE *)

Module EnergyHistory.

Record t : Set := mk { records : list EnergyRecord }.

(** [__init__] *)
Definition init : t := mk [].

Definition add (self : t) (record : EnergyRecord) : t :=
  mk (records self ++ [record]).

(** [sum(r.usage for r in self.records)]: the usages added one by one
    from the left, starting from the int [0], each addition rounded to
    binary64, as CPython does up to version 3.11.  (From version 3.12 on
    [sum] compensates the rounding errors of float additions, and its total
    can differ from this one.) *)
Definition sum_usage (rs : list EnergyRecord) : float :=
  fold_left (fun acc r => (acc + usage r)%float) rs 0%float.

(** Python's [None] is [None], a float [x] is [Some x].  [len] is turned
    into a float for the division. *)
Definition trend_average (self : t) : option float :=
  if (Z.of_nat (List.length (records self)) <? 2)%Z then None
  else Some (sum_usage (records self)
             / float_of_Z (Z.of_nat (List.length (records self))))%float.

End EnergyHistory.

(** ** ANALYTICS CORE *)

Module EnergyAnalytics.

(** Python's float division raises on a zero divisor of either sign. *)
Definition float_truediv (a b : float) : result float :=
  if (b =? 0)%float then Raise ZeroDivisionError else Return (a / b)%float.

Definition usage_ratio (record : EnergyRecord) : result float :=
  float_truediv (usage record) (expected_avg record).

Definition anomaly_detected (record : EnergyRecord) (history : EnergyHistory.t)
  : bool :=
  match rev (EnergyHistory.records history) with
  | [] => false
  | r :: _ =>
      let last := usage r in
      ((last * 1.25) <? usage record)%float
  end.

Definition alert_level (ratio : float) (anomaly : bool) : string :=
  if (1.35 <=? ratio)%float || anomaly then "CRITICAL"%string
  else if (1.15 <=? ratio)%float then "WARNING"%string
  else "NORMAL"%string.

Definition efficiency_score (ratio : float) : pynum :=
  let score := (100 - abs (ratio - 1) * 75)%float in
  py_round1 (py_max (PInt 0) (py_min (PInt 100) (PFloat score))).

End EnergyAnalytics.

(** ** AI DECISION ENGINE *)

Module KeenAIBrain.

(** The three local variables [decide] builds up. *)
Record locals : Set := mkLocals {
  reasons : list string;
  actions : list (string * string);
  confidence : Z
}.

(** [reasons.append(s)] *)
Definition reasons_append (s : string) (st : locals) : locals :=
  mkLocals (reasons st ++ [s]) (actions st) (confidence st).

(** [actions.append((level, act))] *)
Definition actions_append (a : string * string) (st : locals) : locals :=
  mkLocals (reasons st) (actions st ++ [a]) (confidence st).

(** [confidence += n] *)
Definition confidence_add (n : Z) (st : locals) : locals :=
  mkLocals (reasons st) (actions st) (confidence st + n).

(** [confidence = v] *)
Definition confidence_set (v : Z) (st : locals) : locals :=
  mkLocals (reasons st) (actions st) v.

(** [if b: body] *)
Definition when (b : bool) (body : locals -> locals) (st : locals) : locals :=
  if b then body st else st.

(** [x in xs] for a list of strings *)
Definition str_in (x : string) (xs : list string) : bool :=
  existsb (String.eqb x) xs.

Definition ratio_line (ratio : float) : string :=
  ("Usage is " ++ format_2f ratio ++ "× expected level")%string.

Definition decide (record : EnergyRecord) (ratio : float) (anomaly : bool)
    (alert : string) : list string * list (string * string) * Z :=
  let st := mkLocals [] [] 0 in
  (* ---- Cause Analysis ---- *)
  let st := reasons_append (ratio_line ratio) st in
  let st := when anomaly
              (reasons_append "Sudden energy spike detected") st in
  let st := when (30 <? temperature record)%float
              (fun st =>
                 confidence_add 15
                   (reasons_append
                      "High temperature → increased cooling demand" st)) st in
  let st := when (sunlight record && String.eqb (time record) "Day")
              (fun st =>
                 confidence_add 20
                   (reasons_append
                      "Available sunlight not optimally utilized" st)) st in
  let st := when (String.eqb (sector record) "Factory")
              (fun st =>
                 confidence_add 20
                   (reasons_append
                      "Industrial processes generate recoverable waste" st)) st in
  let st := when (String.eqb (sector record) "Power Plant")
              (fun st =>
                 confidence_add 20
                   (reasons_append
                      "Grid-level load balancing opportunity detected" st)) st in
  (* ---- Action Logic ---- *)
  let st :=
    if String.eqb alert "CRITICAL" then
      let st := actions_append
                  ("IMMEDIATE", "Reduce non-essential electrical load")%string st in
      let st := when (sunlight record)
                  (actions_append
                     ("IMMEDIATE",
                      "Activate Smart Daylight-Mirroring System")%string) st in
      let st := when (str_in (sector record) ["Factory"; "Power Plant"]%string)
                  (actions_append
                     ("IMMEDIATE",
                      "Enable ORC Waste Energy Recovery Line")%string) st in
      actions_append ("HIGH", "Shift base load to geothermal supply")%string st
    else if String.eqb alert "WARNING" then
      let st := actions_append
                  ("MEDIUM", "Optimize operational schedule")%string st in
      when (sunlight record)
        (actions_append
           ("MEDIUM", "Increase daylight-based lighting usage")%string) st
    else
      actions_append ("LOW", "No corrective action required")%string st in
  let st := confidence_set (Z.min 100 (confidence st + 30)) st in
  (reasons st, actions st, confidence st).

End KeenAIBrain.

(** ** MAIN SYSTEM *)

(** What one run reads from the console.  [float(input(...))] either raises,
    which ends the run before any analysis, or yields a float: the three
    numeric answers are given as the floats they were parsed to, the three
    textual answers as the lines typed. *)
Record console_input : Set := mkInput {
  usage_in : float;
  expected_in : float;
  sector_in : string;
  time_in : string;
  sunlight_in : string;
  temperature_in : float
}.

(** The local variables of [main] once the decision is taken. *)
Record outcome : Set := mkOutcome {
  out_anomaly : bool;
  out_ratio : float;
  out_alert : string;
  out_score : pynum;
  out_reasons : list string;
  out_actions : list (string * string);
  out_confidence : Z
}.

(** [input(prompt)]: the line typed, as a str.  On bytes that are not
    well-formed UTF-8 the interpreter either raises, which ends the run
    before any record is built, or, where its console uses the
    [surrogateescape] handler, returns the str given here. *)
Definition input (typed : string) : str := decode_utf8 typed.

(** Lines 137 to 146: the answers turned into a record.  The sector and
    the time are kept in the record as texts, and the lowered sunlight answer
    is compared as a text: every str the program compares them with is plain
    ASCII, and a str whose text is plain ASCII is that very str. *)
Definition read_record (inp : console_input) : EnergyRecord :=
  let usage := usage_in inp in
  let expected := expected_in inp in
  let sector := capitalize (strip (input (sector_in inp))) in
  let time := capitalize (strip (input (time_in inp))) in
  let sunlight :=
    String.eqb (encode_utf8 (lower (input (sunlight_in inp)))) "yes" in
  let temperature := temperature_in inp in
  mkEnergyRecord usage expected (encode_utf8 sector) (encode_utf8 time)
    sunlight temperature.

(** Lines 148 to 157: one evaluation of a record against the history.  The
    history is returned as the call leaves it, whether or not the ratio could
    be computed. *)
Definition evaluate (history : EnergyHistory.t) (record : EnergyRecord)
  : EnergyHistory.t * result outcome :=
  let anomaly := EnergyAnalytics.anomaly_detected record history in
  let history := EnergyHistory.add history record in
  (history,
   ratio <- EnergyAnalytics.usage_ratio record ;;
   let alert := EnergyAnalytics.alert_level ratio anomaly in
   let score := EnergyAnalytics.efficiency_score ratio in
   let '(reasons, actions, confidence) :=
     KeenAIBrain.decide record ratio anomaly alert in
   Return (mkOutcome anomaly ratio alert score reasons actions confidence)).

Definition main (inp : console_input) : EnergyHistory.t * result outcome :=
  let history := EnergyHistory.init in
  evaluate history (read_record inp).

(** ** The console *)

(** The line feed, [\n]. *)
Definition nl : string := String (ascii_of_N 10) EmptyString.

(** [str(z)] for an int. *)
Definition str_int (z : Z) : string :=
  match z with
  | Zneg p => ("-" ++ decimal (Zpos p))%string
  | _ => decimal z
  end.

(** [str(a)], which is what an f-string field without format puts in.  The
    text of a float is its [repr], the shortest decimal that reads back as
    the same float; it is taken as given. *)
Definition py_str (repr_float : float -> string) (a : pynum) : string :=
  match a with
  | PInt z => str_int z
  | PFloat f => repr_float f
  end.

(** ** ALERT DISPLAY *)

Module AlertDisplay.

Section Show.

Variable repr_float : float -> string.

(** The texts handed to [print], call by call. *)
Definition show (alert : string) (score : pynum) : list string :=
  let out := [(nl ++ "========== ENERGY STATUS ==========")%string] in
  let out :=
    if String.eqb alert "CRITICAL" then
      out ++ ["🔴 CRITICAL – Grid stress detected"%string]
    else if String.eqb alert "WARNING" then
      out ++ ["🟡 WARNING – Inefficiency rising"%string]
    else
      out ++ ["🟢 NORMAL – System balanced"%string] in
  out ++ [("⚡ Efficiency Score: " ++ py_str repr_float score ++ "/100")%string].

End Show.

End AlertDisplay.

(** ** What [main] prints *)

Section Report.

Variable repr_float : float -> string.

(** [print("•", r)] *)
Definition bullet (r : string) : string := ("• " ++ r)%string.

(** [print(f"[{level}] {act}")] *)
Definition action_line (a : string * string) : string :=
  let '(level, act) := a in ("[" ++ level ++ "] " ++ act)%string.

(** Lines 155 to 168: the texts printed once the analysis has returned. *)
Definition report (o : outcome) : list string :=
  AlertDisplay.show repr_float (out_alert o) (out_score o)
    ++ [(nl ++ "--- AI DIAGNOSIS (CAUSE → IMPACT) ---")%string]
    ++ map bullet (out_reasons o)
    ++ [(nl ++ "--- AI ACTION PLAN (PRIORITIZED) ---")%string]
    ++ map action_line (out_actions o)
    ++ [(nl ++ "AI Decision Confidence: "
            ++ str_int (out_confidence o) ++ "%")%string;
        (nl ++ "--- SYSTEM READY FOR NEXT CYCLE ---")%string].

(** The texts [main] prints, from the title on, and how the run ends.  The
    prompts of [input] are not [print] calls and are left out. *)
Definition main_printed (inp : console_input) : list string * result outcome :=
  let out := [(nl ++ "=== EnergyGuard AI – Keen Edition ===" ++ nl)%string] in
  match snd (main inp) with
  | Return o => (out ++ report o, Return o)
  | Raise e => (out, Raise e)
  end.

End Report.

(** * Vocabulary of the properties *)

Local Open Scope float_scope.

(** Records and inputs the examples run on. *)
Definition negative_baseline : EnergyRecord :=
  mkEnergyRecord 10 (-2) "Home" "Day" false 20.

Definition zero_baseline : EnergyRecord :=
  mkEnergyRecord 10 0 "Home" "Day" false 20.

(** A record of a home by day, with usage [u] and baseline 100. *)
Definition reading (u : float) : EnergyRecord :=
  mkEnergyRecord u 100 "Home" "Day" false 20.

(** The three components of what [decide] returns. *)
Definition reasons_of (d : list string * list (string * string) * Z)
  : list string := fst (fst d).
Definition actions_of (d : list string * list (string * string) * Z)
  : list (string * string) := snd (fst d).
Definition confidence_of (d : list string * list (string * string) * Z)
  : Z := snd d.

(** What a rule contributes: its line when it fires, nothing otherwise. *)
Definition fired {A : Type} (b : bool) (x : A) : list A :=
  if b then [x] else [].

(** What a rule adds to the confidence. *)
Definition weight (b : bool) (n : Z) : Z := if b then n else 0%Z.

(** The lines and actions of the source, by name. *)
Definition spike_line : string := "Sudden energy spike detected".
Definition cooling_line : string :=
  "High temperature → increased cooling demand".
Definition sunlight_line : string :=
  "Available sunlight not optimally utilized".
Definition waste_line : string :=
  "Industrial processes generate recoverable waste".
Definition grid_line : string :=
  "Grid-level load balancing opportunity detected".

Definition reduce_load : string * string :=
  ("IMMEDIATE", "Reduce non-essential electrical load")%string.
Definition daylight_mirroring : string * string :=
  ("IMMEDIATE", "Activate Smart Daylight-Mirroring System")%string.
Definition waste_recovery : string * string :=
  ("IMMEDIATE", "Enable ORC Waste Energy Recovery Line")%string.
Definition geothermal_shift : string * string :=
  ("HIGH", "Shift base load to geothermal supply")%string.
Definition optimize_schedule : string * string :=
  ("MEDIUM", "Optimize operational schedule")%string.
Definition daylight_lighting : string * string :=
  ("MEDIUM", "Increase daylight-based lighting usage")%string.
Definition no_action : string * string :=
  ("LOW", "No corrective action required")%string.

(** The rule conditions of [decide], as the source tests them. *)
Definition hot (record : EnergyRecord) : bool := 30 <? temperature record.
Definition sunny_day (record : EnergyRecord) : bool :=
  sunlight record && String.eqb (time record) "Day".
Definition is_factory (record : EnergyRecord) : bool :=
  String.eqb (sector record) "Factory".
Definition is_power_plant (record : EnergyRecord) : bool :=
  String.eqb (sector record) "Power Plant".

Definition hot_factory_day : EnergyRecord :=
  mkEnergyRecord 130 100 "Factory" "Day" true 35.

Definition sunny_power_plant : EnergyRecord :=
  mkEnergyRecord 150 100 "Power Plant" "Night" true 10.

Definition typed_power_plant : console_input :=
  mkInput 150 100 " Power Plant" "day" "yes" 35.

(** The same sector behind a no-break space and with the letter U+0149,
    whose title case is two characters, the second a capital. *)
Definition typed_apostrophe_n : console_input :=
  mkInput 150 100 " ŉower Plant" "day" "yes" 35.

(** The code points of a text, byte by byte, which is what the text stands
    for when it is plain ASCII. *)
Definition code_points (s : string) : str :=
  map N_of_ascii (list_ascii_of_string s).

Definition is_ascii (s : string) : bool :=
  forallb (fun a => (N_of_ascii a <? 0x80)%N) (list_ascii_of_string s).

(** The code points a table lists: those of a range, those of a run, and
    all the characters that are white space or have a lower-case or a
    title-case mapping of their own. *)
Definition range_points (r : N * N) : list N :=
  map (fun i => (fst r + N.of_nat i)%N)
      (seq 0 (S (N.to_nat (snd r - fst r)))).

Definition run_points (r : N * N * N * N) : list N :=
  let '(first, last, stride, _) := r in
  map (fun i => (first + N.of_nat i * stride)%N)
      (seq 0 (S (N.to_nat ((last - first) / stride)))).

Definition case_points : list N :=
  map fst lower_special ++ flat_map run_points lower_runs
    ++ map fst title_special ++ flat_map run_points title_runs
    ++ flat_map range_points whitespace.

(** Equality of strs, as a boolean. *)
Definition str_eqb (a b : str) : bool :=
  if list_eq_dec N.eq_dec a b then true else false.

(** The character [c] treats the capital [U] and the small [u] as one
    letter before an [a]: its title case is [U] alone exactly when its lower
    case is [u] alone, and when either starts with the letter and goes on,
    it does not go on with [a]. *)
Definition same_letter (U u a c : N) : bool :=
  match to_title_full c with
  | [] => false
  | x :: r =>
      if (x =? U)%N then
        match r with
        | [] => str_eqb (to_lower_full c) [u] && negb (c =? 0x3A3)%N
        | y :: _ => negb (y =? a)%N
        end
      else true
  end
  && match to_lower_full c with
     | [] => false
     | x :: r =>
         if (x =? u)%N then
           match r with
           | [] => str_eqb (to_title_full c) [U]
           | y :: _ => negb (y =? a)%N
           end
         else true
     end.

(** A white space character does not begin with [y] in lower case. *)
Definition space_not_y (c : N) : bool :=
  negb (is_space c
        && match to_lower_full c with
           | [] => true
           | x :: _ => (x =? 0x79)%N
           end).

(** Clamping as the specification words it: below the interval the lower
    end, above it the upper end, inside it the value itself. *)
Definition clamp (lo hi x : float) : float :=
  if x <? lo then lo else if hi <? x then hi else x.

(** The score as the specification words it: the formula, clamped to
    [0, 100], rounded to one decimal. *)
Definition efficiency_score_spec (ratio : float) : float :=
  float_round (clamp 0 100 (100 - abs (ratio - 1) * 75)) 1.

(** The last three steps of [efficiency_score], on the raw score. *)
Definition clamp_round (score : float) : pynum :=
  py_round1 (py_max (PInt 0) (py_min (PInt 100) (PFloat score))).

(** The mantissa of 100, whose exponent is -46. *)
Definition m100 : positive := 7036874417766400.

(** The value nearest to [n / 10] lies between 0 and 100. *)
Definition tenth_in_range (n : Z) : bool :=
  let y := nearest_decimal false n 1 in
  (0 <=? y) && (y <=? 100).

(** Decoded values that are numbers, and those that are finite. *)
Definition not_nan (p : spec_float) : bool :=
  match p with
  | S754_nan => false
  | _ => true
  end.

Definition finite_or_zero (p : spec_float) : bool :=
  match p with
  | S754_finite _ _ _ | S754_zero _ => true
  | _ => false
  end.

(** Membership of a line in a list of lines, as [in] computes it. *)
Definition mentions (lines : list string) (line : string) : bool :=
  existsb (String.eqb line) lines.

(** The rank of a priority level: the higher, the more urgent. *)
Definition priority_rank (level : string) : nat :=
  if String.eqb level "IMMEDIATE" then 3
  else if String.eqb level "HIGH" then 2
  else if String.eqb level "MEDIUM" then 1
  else 0.

Fixpoint non_increasing (l : list nat) : bool :=
  match l with
  | a :: (b :: _) as rest => (b <=? a)%nat && non_increasing rest
  | _ => true
  end.

(** How severe an alert is. *)
Definition severity (alert : string) : nat :=
  if String.eqb alert "CRITICAL" then 2
  else if String.eqb alert "WARNING" then 1
  else 0.

(** The comparison of two magnitudes [m * 2^e], exponent first. *)
Definition magnitude_compare (m1 : positive) (e1 : Z) (m2 : positive) (e2 : Z)
  : comparison :=
  match (e1 ?= e2)%Z with
  | Lt => Lt
  | Gt => Gt
  | Eq => Pos.compare_cont Eq m1 m2
  end.

Definition critical_banner : string := "🔴 CRITICAL – Grid stress detected".
Definition warning_banner : string := "🟡 WARNING – Inefficiency rising".
Definition normal_banner : string := "🟢 NORMAL – System balanced".
Definition title_text : string :=
  (nl ++ "=== EnergyGuard AI – Keen Edition ===" ++ nl)%string.
Definition ready_text : string :=
  (nl ++ "--- SYSTEM READY FOR NEXT CYCLE ---")%string.

Definition tenth_stable (n : Z) : bool :=
  let y := nearest_decimal false n 1 in
  Leibniz.eqb (float_round y 1) y.

(** [strip] followed by [capitalize], as [main] applies them. *)
Definition normalize (s : str) : str := capitalize (strip s).

(** A str with no white space at either end. *)
Definition trimmed (s : str) : Prop := lstrip s = s /\ rstrip s = s.

(** A character that lowering leaves as it is, wherever it stands. *)
Definition lowered (x : N) : bool :=
  negb (x =? 0x3A3)%N && str_eqb (to_lower_full x) [x].

(** What the case mappings of the character [c] keep: no white space comes
    out of a character that is none; the lower case is not empty and made of
    lowered characters; the title case begins with a character that is its
    own title case and, except for U+0149, goes on with lowered ones. *)
Definition settled (c : N) : bool :=
  (is_space c
   || forallb (fun x => negb (is_space x))
        (to_lower_full c ++ to_title_full c))
  && forallb lowered (to_lower_full c)
  && match to_lower_full c with
     | [] => false
     | _ :: _ => true
     end
  && match to_title_full c with
     | [] => false
     | x :: r =>
         str_eqb (to_title_full x) [x]
         && ((c =? 0x149)%N || forallb lowered r)
     end.

(** The value of a decimal digit, and [int(s)] for a string of digits. *)
Definition digit_value (c : ascii) : Z := Z.of_N (N_of_ascii c) - 48.

Fixpoint number_from (a : Z) (s : string) : Z :=
  match s with
  | EmptyString => a
  | String c s' => number_from (a * 10 + digit_value c) s'
  end.

Definition number_of (s : string) : Z := number_from 0 s.

Fixpoint all_digits (s : string) : bool :=
  match s with
  | EmptyString => true
  | String c s' =>
      (48 <=? N_of_ascii c)%N && (N_of_ascii c <=? 57)%N && all_digits s'
  end.

(** [n] is an integer nearest to [num / den]. *)
Definition nearest_to (n num den : Z) : Prop :=
  (2 * Z.abs (num - n * den) <= den)%Z.

(** [n] is the integer nearest to [num / den], and the even one of the two
    nearest when [num / den] lies halfway between them. *)
Definition nearest_even_to (n num den : Z) : Prop :=
  nearest_to n num den
  /\ ((2 * Z.abs (num - n * den))%Z = den -> Z.even n = true).

(** The float [n / 10]: the division is correctly rounded, so this is the
    binary64 value nearest to [n / 10]. *)
Definition tenths (n : Z) : float := of_uint63 (Uint63.of_Z n) / 10.

Definition tenth_is_quotient (n : Z) : bool :=
  Leibniz.eqb (nearest_decimal false n 1) (tenths n).

(** The sign bit of a decoded value. *)
Definition negative (p : spec_float) : bool :=
  match p with
  | S754_zero s | S754_infinity s | S754_finite s _ _ => s
  | S754_nan => false
  end.

(** Digits that begin with a zero only when they are the single digit 0. *)
Definition no_leading_zero (whole : string) : Prop :=
  whole = "0"%string
  \/ exists (c : ascii) (rest : string),
       whole = String c rest /\ c <> "0"%char.

(** What it is for [text] to be [x] written with two decimals: a minus
    sign when the sign bit is set, the digits of the integer part without
    leading zero, a point and two digits, all the digits together being the
    integer nearest to a hundred times the magnitude of [x], the even one on
    a tie; [nan], [inf] and [-inf] for the values that are not finite. *)
Definition two_decimals (x : float) (text : string) : Prop :=
  match Prim2SF x with
  | S754_nan => text = "nan"%string
  | S754_infinity s => text = (if s then "-inf" else "inf")%string
  | S754_zero s => text = ((if s then "-" else "") ++ "0.00")%string
  | S754_finite s m e =>
      exists (n : Z) (whole : string) (d1 d2 : ascii),
        text = ((if s then "-" else "") ++ whole ++ "."
                  ++ String d1 (String d2 ""))%string
        /\ all_digits (whole ++ String d1 (String d2 "")) = true
        /\ no_leading_zero whole
        /\ number_of (whole ++ String d1 (String d2 "")) = n
        /\ if (0 <=? e)%Z then n = (Zpos m * 2 ^ e * 100)%Z
           else nearest_even_to n (Zpos m * 100) (2 ^ (- e))
  end.

(** * Properties *)

(** ** Analytics: the usage ratio *)

(** A negative baseline is divided by like any other number: the call
    returns the quotient, here [-5].  A zero baseline makes the division
    itself raise, and the exception is Python's [ZeroDivisionError]. *)
Lemma usage_ratio_negative_returns_zero_raises :
  (expected_avg negative_baseline <? 0) = true
  /\ EnergyAnalytics.usage_ratio negative_baseline = Return (-5)
  /\ (expected_avg zero_baseline =? 0) = true
  /\ EnergyAnalytics.usage_ratio zero_baseline = Raise ZeroDivisionError.
Proof. repeat split; reflexivity. Qed.

(** C1, as the code has it: when [expected_avg] is zero (of either sign)
    [usage_ratio] raises [ZeroDivisionError], and [evaluate] hands that
    exception on after the record has been added to the history; for any other
    [expected_avg], negative ones included, [usage_ratio] returns the float
    quotient [usage / expected_avg] and raises nothing. *)
Theorem usage_ratio_raises_only_on_zero :
  forall record : EnergyRecord,
    ((expected_avg record =? 0) = true ->
       EnergyAnalytics.usage_ratio record = Raise ZeroDivisionError
       /\ forall history,
            evaluate history record
            = (EnergyHistory.add history record, Raise ZeroDivisionError))
    /\ ((expected_avg record =? 0) = false ->
          EnergyAnalytics.usage_ratio record
          = Return (usage record / expected_avg record)).
Proof.
  intros record.
  unfold evaluate, EnergyAnalytics.usage_ratio, EnergyAnalytics.float_truediv.
  split; intros E; rewrite E; [split|]; reflexivity.
Qed.

Lemma usage_ratio_raises_only_on_zero_witness :
  EnergyAnalytics.usage_ratio zero_baseline = Raise ZeroDivisionError
  /\ snd (main (mkInput 10 (-0) "Home" "Day" "no" 20)) = Raise ZeroDivisionError
  /\ EnergyAnalytics.usage_ratio negative_baseline = Return (10 / -2).
Proof.
  split; [|split].
  - destruct (usage_ratio_raises_only_on_zero zero_baseline) as (Hz & _).
    apply Hz. reflexivity.
  - unfold main.
    rewrite (proj2 (proj1 (usage_ratio_raises_only_on_zero
                             (read_record (mkInput 10 (-0) "Home" "Day" "no" 20)))
                          eq_refl)).
    reflexivity.
  - destruct (usage_ratio_raises_only_on_zero negative_baseline) as (_ & Hq).
    apply Hq. reflexivity.
Defined.

(** ** Analytics: the alert level *)

(** C2: [alert_level] is CRITICAL when [ratio >= 1.35] or [anomaly] holds,
    whatever the ratio; failing that it is WARNING when [ratio >= 1.15];
    failing that it is NORMAL.  The thresholds themselves belong to the upper
    class. *)
Theorem alert_level_thresholds :
  forall (ratio : float) (anomaly : bool),
    ((1.35 <=? ratio) = true \/ anomaly = true ->
       EnergyAnalytics.alert_level ratio anomaly = "CRITICAL"%string)
    /\ ((1.35 <=? ratio) = false -> anomaly = false -> (1.15 <=? ratio) = true ->
          EnergyAnalytics.alert_level ratio anomaly = "WARNING"%string)
    /\ ((1.35 <=? ratio) = false -> anomaly = false -> (1.15 <=? ratio) = false ->
          EnergyAnalytics.alert_level ratio anomaly = "NORMAL"%string)
    /\ EnergyAnalytics.alert_level 0.5 true = "CRITICAL"%string
    /\ EnergyAnalytics.alert_level 1.35 false = "CRITICAL"%string
    /\ EnergyAnalytics.alert_level 1.349999 false = "WARNING"%string
    /\ EnergyAnalytics.alert_level 1.15 false = "WARNING"%string
    /\ EnergyAnalytics.alert_level 1.0 false = "NORMAL"%string.
Proof.
  intros ratio anomaly. unfold EnergyAnalytics.alert_level.
  repeat split; try reflexivity.
  - intros [H | H]; rewrite H; [reflexivity | now rewrite orb_true_r].
  - intros H1 H2 H3. now rewrite H1, H2, H3.
  - intros H1 H2 H3. now rewrite H1, H2, H3.
Qed.

Lemma alert_level_thresholds_witness :
  EnergyAnalytics.alert_level 2 false = "CRITICAL"%string
  /\ EnergyAnalytics.alert_level 0.1 true = "CRITICAL"%string
  /\ EnergyAnalytics.alert_level 1.2 false = "WARNING"%string
  /\ EnergyAnalytics.alert_level 1.1499 false = "NORMAL"%string.
Proof.
  split; [|split; [|split]].
  - destruct (alert_level_thresholds 2 false) as (Hc & _).
    apply Hc. left. reflexivity.
  - destruct (alert_level_thresholds 0.1 true) as (Hc & _).
    apply Hc. right. reflexivity.
  - destruct (alert_level_thresholds 1.2 false) as (_ & Hw & _).
    apply Hw; reflexivity.
  - destruct (alert_level_thresholds 1.1499 false) as (_ & _ & Hn & _).
    apply Hn; reflexivity.
Defined.

(** ** Analytics: anomaly detection *)

Lemma rev_nonempty_last :
  forall (A : Type) (l : list A) (d : A),
    l <> [] -> exists l', rev l = last l d :: l'.
Proof.
  intros A l d Hl.
  destruct (exists_last Hl) as (l' & a & ->).
  rewrite rev_app_distr, last_last. simpl. now exists (rev l').
Qed.

Lemma anomaly_detected_add :
  forall (record : EnergyRecord) (history : EnergyHistory.t)
         (previous : EnergyRecord),
    EnergyAnalytics.anomaly_detected record (EnergyHistory.add history previous)
    = (usage previous * 1.25 <? usage record).
Proof.
  intros record history previous. unfold EnergyAnalytics.anomaly_detected.
  simpl. rewrite rev_app_distr. reflexivity.
Qed.

(** C3: [anomaly_detected] is false on an empty history; on any other
    history it is the strict comparison of the reading's usage with 1.25
    times the usage of the last record, which is the record added most
    recently.  After a usage of 100, 126 is an anomaly and 125 is not. *)
Theorem anomaly_detected_against_last :
  forall record : EnergyRecord,
    (forall history,
        EnergyHistory.records history = [] ->
        EnergyAnalytics.anomaly_detected record history = false)
    /\ (forall history,
          EnergyHistory.records history <> [] ->
          EnergyAnalytics.anomaly_detected record history
          = (usage (last (EnergyHistory.records history) record) * 1.25
             <? usage record))
    /\ (forall history previous,
          EnergyAnalytics.anomaly_detected record
            (EnergyHistory.add history previous)
          = (usage previous * 1.25 <? usage record))
    /\ EnergyAnalytics.anomaly_detected (reading 126)
         (EnergyHistory.add EnergyHistory.init (reading 100)) = true
    /\ EnergyAnalytics.anomaly_detected (reading 125)
         (EnergyHistory.add EnergyHistory.init (reading 100)) = false.
Proof.
  intros record.
  split; [|split; [|split; [|split]]].
  - intros history E. unfold EnergyAnalytics.anomaly_detected.
    rewrite E. reflexivity.
  - intros history Hne. unfold EnergyAnalytics.anomaly_detected.
    destruct (rev_nonempty_last _ _ record Hne) as (l' & ->). reflexivity.
  - apply anomaly_detected_add.
  - reflexivity.
  - reflexivity.
Qed.

Lemma anomaly_detected_against_last_witness :
  EnergyAnalytics.anomaly_detected (reading 50) EnergyHistory.init = false
  /\ EnergyAnalytics.anomaly_detected (reading 300)
       (EnergyHistory.mk [reading 10; reading 200])
     = (200 * 1.25 <? 300).
Proof.
  split.
  - destruct (anomaly_detected_against_last (reading 50)) as (He & _).
    apply He. reflexivity.
  - destruct (anomaly_detected_against_last (reading 300)) as (_ & Hl & _).
    apply (Hl (EnergyHistory.mk [reading 10; reading 200])). discriminate.
Defined.

(** ** The evaluation cycle *)

Lemma evaluate_outcome_anomaly :
  forall (h : EnergyHistory.t) (record : EnergyRecord),
    match snd (evaluate h record) with
    | Return o => out_anomaly o = EnergyAnalytics.anomaly_detected record h
    | Raise _ => (expected_avg record =? 0) = true
    end.
Proof.
  intros h record. unfold evaluate, EnergyAnalytics.usage_ratio,
    EnergyAnalytics.float_truediv. cbn [snd].
  destruct (expected_avg record =? 0); cbn [bind]; [reflexivity|].
  destruct (KeenAIBrain.decide record _ _ _) as [[rs acts] c]. reflexivity.
Qed.

(** C4: one evaluation leaves the history with the record appended, and the
    anomaly flag it works with is the one computed on the history as it was
    before: after [previous] has been evaluated, the next record is compared
    with [previous], not with itself.  The only way for an evaluation not to
    return is a zero [expected_avg]. *)
Theorem anomaly_checked_before_append :
  forall (history : EnergyHistory.t) (record : EnergyRecord),
    fst (evaluate history record) = EnergyHistory.add history record
    /\ match snd (evaluate history record) with
       | Return o =>
           out_anomaly o = EnergyAnalytics.anomaly_detected record history
       | Raise _ => (expected_avg record =? 0) = true
       end
    /\ (forall previous : EnergyRecord,
          match snd (evaluate (fst (evaluate history previous)) record) with
          | Return o => out_anomaly o = (usage previous * 1.25 <? usage record)
          | Raise _ => (expected_avg record =? 0) = true
          end)
    /\ ((expected_avg record =? 0) = false ->
        exists o, snd (evaluate history record) = Return o).
Proof.
  intros history record.
  split; [reflexivity|]. split; [apply evaluate_outcome_anomaly|]. split.
  - intros previous.
    pose proof (evaluate_outcome_anomaly
                  (fst (evaluate history previous)) record) as step.
    destruct (snd (evaluate (fst (evaluate history previous)) record));
      [|exact step].
    rewrite step. cbn [evaluate fst].
    apply anomaly_detected_add.
  - intros E. unfold evaluate, EnergyAnalytics.usage_ratio,
      EnergyAnalytics.float_truediv. cbn [snd]. rewrite E. cbn [bind].
    destruct (KeenAIBrain.decide record _ _ _) as [[rs acts] c].
    eexists. reflexivity.
Qed.

(** With 100 in the history, a usage of 130 is an anomaly (130 > 125); had the
    record been appended first it would have been compared with itself
    (130 > 162.5) and found normal. *)
Lemma anomaly_checked_before_append_witness :
  (exists o, snd (evaluate (EnergyHistory.mk [reading 100]) (reading 130))
             = Return o)
  /\ EnergyAnalytics.anomaly_detected (reading 130)
       (EnergyHistory.mk [reading 100]) = true
  /\ EnergyAnalytics.anomaly_detected (reading 130)
       (EnergyHistory.add (EnergyHistory.mk [reading 100]) (reading 130))
     = false.
Proof.
  split; [|split; reflexivity].
  destruct (anomaly_checked_before_append
              (EnergyHistory.mk [reading 100]) (reading 130))
    as (_ & _ & _ & Hret).
  apply Hret. reflexivity.
Defined.

(** [main] starts from an empty history, so its one evaluation never sees an
    anomaly. *)
Lemma main_never_anomalous :
  forall inp : console_input,
    match snd (main inp) with
    | Return o => out_anomaly o = false
    | Raise _ => (expected_in inp =? 0) = true
    end.
Proof.
  intros inp. unfold main.
  pose proof (evaluate_outcome_anomaly EnergyHistory.init (read_record inp))
    as H.
  destruct (snd (evaluate EnergyHistory.init (read_record inp)));
    [rewrite H; reflexivity | exact H].
Qed.

(** ** History: the trend average *)

Lemma sum_usage_map :
  forall (rs : list EnergyRecord),
    EnergyHistory.sum_usage rs = fold_left add (map usage rs) 0.
Proof.
  intros rs. unfold EnergyHistory.sum_usage. generalize 0.
  induction rs as [|r rs IH]; intros acc; simpl; [reflexivity | apply IH].
Qed.

(** C9: [trend_average] answers [None] exactly when fewer than two readings
    are stored; otherwise it answers the sum of all stored usages divided by
    their number.  The answer depends on nothing but the stored usages. *)
Theorem trend_average_mean_or_none :
  forall history : EnergyHistory.t,
    let n := List.length (EnergyHistory.records history) in
    (EnergyHistory.trend_average history = None <-> (n < 2)%nat)
    /\ ((2 <= n)%nat ->
        EnergyHistory.trend_average history
        = Some (fold_left add (map usage (EnergyHistory.records history)) 0
                / float_of_Z (Z.of_nat n)))
    /\ (forall other : EnergyHistory.t,
          map usage (EnergyHistory.records history)
          = map usage (EnergyHistory.records other) ->
          EnergyHistory.trend_average history
          = EnergyHistory.trend_average other).
Proof.
  intros history n. unfold EnergyHistory.trend_average. fold n.
  split; [|split].
  - destruct (Z.ltb_spec (Z.of_nat n) 2); split; intros H'; try lia;
      try reflexivity; discriminate.
  - intros Hn. destruct (Z.ltb_spec (Z.of_nat n) 2); [lia|].
    now rewrite sum_usage_map.
  - intros other Heq.
    assert (Hlen : List.length (EnergyHistory.records other) = n).
    { unfold n. rewrite <- (length_map usage), <- Heq. apply length_map. }
    rewrite Hlen, !sum_usage_map, Heq. reflexivity.
Qed.

Lemma trend_average_mean_or_none_witness :
  EnergyHistory.trend_average (EnergyHistory.mk [reading 100; reading 200])
  = Some 150
  /\ EnergyHistory.trend_average (EnergyHistory.mk [reading 7]) = None
  /\ EnergyHistory.trend_average (EnergyHistory.mk [reading 0; reading 0])
     = Some 0.
Proof.
  split; [|split].
  - destruct (trend_average_mean_or_none
                (EnergyHistory.mk [reading 100; reading 200])) as (_ & Hm & _).
    rewrite Hm; [reflexivity | simpl; lia].
  - destruct (trend_average_mean_or_none (EnergyHistory.mk [reading 7]))
      as (Hn & _).
    apply Hn. simpl. lia.
  - reflexivity.
Defined.

(** ** Rounding to decimals goes to a nearest decimal *)

Lemma div_half_even_nearest :
  forall num den : Z,
    (0 <= num)%Z -> (0 < den)%Z ->
    nearest_to (div_half_even num den) num den.
Proof.
  intros num den Hn Hd. unfold nearest_to, div_half_even.
  pose proof (Z.div_mod num den) as Hdm.
  pose proof (Z.mod_pos_bound num den Hd) as Hr.
  destruct (Z.compare_spec (2 * (num mod den)) den);
    [destruct (Z.even (num / den))| |]; nia.
Qed.

Lemma scaled_magnitude_nearest :
  forall (k : Z) (m : positive) (e : Z),
    (0 <= k)%Z ->
    if (0 <=? e)%Z
    then scaled_magnitude k m e = (Zpos m * 2 ^ e * 10 ^ k)%Z
    else nearest_to (scaled_magnitude k m e) (Zpos m * 10 ^ k) (2 ^ (- e)).
Proof.
  intros k m e Hk. unfold scaled_magnitude.
  destruct (Z.leb_spec 0 e); [reflexivity|].
  apply div_half_even_nearest.
  - apply Z.mul_nonneg_nonneg; [lia | apply Z.pow_nonneg; lia].
  - apply Z.pow_pos_nonneg; lia.
Qed.

(** The rounding takes the even neighbour on a tie. *)
Lemma div_half_even_nearest_even :
  forall num den : Z,
    (0 <= num)%Z -> (0 < den)%Z ->
    nearest_even_to (div_half_even num den) num den.
Proof.
  intros num den Hn Hd. split; [now apply div_half_even_nearest|].
  unfold div_half_even.
  pose proof (Z.div_mod num den) as Hdm.
  pose proof (Z.mod_pos_bound num den Hd) as Hr.
  destruct (Z.compare_spec (2 * (num mod den)) den) as [E | L | G].
  - destruct (Z.even (num / den)) eqn:Ev; [intros _; exact Ev|].
    intros _. rewrite Z.add_1_r, Z.even_succ, <- Z.negb_even, Ev.
    reflexivity.
  - intros T. exfalso. nia.
  - intros T. exfalso. nia.
Qed.

Lemma scaled_magnitude_nearest_even :
  forall (k : Z) (m : positive) (e : Z),
    (0 <= k)%Z ->
    if (0 <=? e)%Z
    then scaled_magnitude k m e = (Zpos m * 2 ^ e * 10 ^ k)%Z
    else nearest_even_to (scaled_magnitude k m e) (Zpos m * 10 ^ k)
           (2 ^ (- e)).
Proof.
  intros k m e Hk. unfold scaled_magnitude.
  destruct (Z.leb_spec 0 e); [reflexivity|].
  apply div_half_even_nearest_even.
  - apply Z.mul_nonneg_nonneg; [lia | apply Z.pow_nonneg; lia].
  - apply Z.pow_pos_nonneg; lia.
Qed.

Lemma scaled_magnitude_nonneg :
  forall (k : Z) (m : positive) (e : Z),
    (0 <= k)%Z -> (0 <= scaled_magnitude k m e)%Z.
Proof.
  intros k m e Hk. unfold scaled_magnitude.
  assert (Hp : (0 < 10 ^ k)%Z) by (apply Z.pow_pos_nonneg; lia).
  destruct (Z.leb_spec 0 e) as [He | He].
  - assert (0 < 2 ^ e)%Z by (apply Z.pow_pos_nonneg; lia). nia.
  - unfold div_half_even.
    assert (0 <= Zpos m * 10 ^ k / 2 ^ (- e))%Z.
    { apply Z.div_pos; [nia|]. apply Z.pow_pos_nonneg; lia. }
    destruct (_ ?= _)%Z; [destruct (Z.even _)| |]; lia.
Qed.

(** ** Decimal digits read back *)

Lemma digit_value_digit :
  forall d : Z, (0 <= d < 10)%Z -> digit_value (digit d) = d.
Proof.
  intros d Hd. unfold digit_value, digit.
  rewrite N_ascii_embedding by lia. lia.
Qed.

Lemma digit_is_digit :
  forall d : Z, (0 <= d < 10)%Z ->
    (48 <=? N_of_ascii (digit d))%N && (N_of_ascii (digit d) <=? 57)%N = true.
Proof.
  intros d Hd. unfold digit. rewrite N_ascii_embedding by lia.
  apply andb_true_iff. split; apply N.leb_le; lia.
Qed.

Lemma string_app_assoc :
  forall s t u : string, ((s ++ t) ++ u = s ++ (t ++ u))%string.
Proof.
  induction s as [|c s IH]; intros t u; cbn; [reflexivity | now rewrite IH].
Qed.

Lemma digits_fuel_app :
  forall (fuel : nat) (n : Z) (acc : string),
    digits_fuel fuel n acc = (digits_fuel fuel n "" ++ acc)%string.
Proof.
  induction fuel as [|fuel IH]; intros n acc; cbn [digits_fuel];
    [reflexivity|].
  destruct (n <? 10)%Z; [reflexivity|].
  rewrite (IH _ (String _ acc)), (IH _ (String _ EmptyString)).
  now rewrite string_app_assoc.
Qed.

Lemma number_from_app :
  forall (s t : string) (a : Z),
    number_from a (s ++ t) = number_from (number_from a s) t.
Proof.
  induction s as [|c s IH]; intros t a; cbn; [reflexivity | apply IH].
Qed.

Lemma all_digits_app :
  forall s t : string,
    all_digits (s ++ t) = all_digits s && all_digits t.
Proof.
  induction s as [|c s IH]; intros t; cbn; [reflexivity|].
  now rewrite IH, andb_assoc.
Qed.

Lemma digits_fuel_reads_back :
  forall (fuel : nat) (n : Z),
    (0 <= n < 2 ^ Z.of_nat fuel)%Z ->
    number_of (digits_fuel fuel n "") = n
    /\ all_digits (digits_fuel fuel n "") = true.
Proof.
  induction fuel as [|fuel IH]; intros n Hn.
  - cbn in *. split; [lia | reflexivity].
  - cbn [digits_fuel].
    assert (Hd : (0 <= n mod 10 < 10)%Z) by (apply Z.mod_pos_bound; lia).
    destruct (Z.ltb_spec n 10) as [Hlt | Hge].
    + unfold number_of. cbn [number_from all_digits].
      rewrite digit_value_digit, digit_is_digit by exact Hd.
      rewrite Z.mod_small by lia. split; [lia | reflexivity].
    + rewrite digits_fuel_app.
      assert (Hq : (0 <= n / 10 < 2 ^ Z.of_nat fuel)%Z).
      { split; [apply Z.div_pos; lia|].
        apply Z.div_lt_upper_bound; [lia|].
        rewrite Nat2Z.inj_succ, Z.pow_succ_r in Hn by lia. lia. }
      destruct (IH _ Hq) as [Hv Ha].
      unfold number_of in *. rewrite number_from_app, Hv, all_digits_app, Ha.
      cbn [number_from all_digits].
      rewrite digit_value_digit, digit_is_digit by exact Hd.
      split; [|reflexivity].
      pose proof (Z.div_mod n 10). lia.
Qed.

Lemma decimal_reads_back :
  forall n : Z,
    (0 <= n)%Z ->
    number_of (decimal n) = n /\ all_digits (decimal n) = true.
Proof.
  intros n Hn. unfold decimal. apply digits_fuel_reads_back.
  split; [exact Hn|].
  rewrite Nat2Z.inj_succ, Z2Nat.id by apply Z.log2_nonneg.
  destruct (Z.eq_dec n 0) as [-> | Hnz]; [reflexivity|].
  apply Z.log2_spec. lia.
Qed.

Lemma decimal_nonempty : forall n : Z, decimal n <> EmptyString.
Proof.
  intros n. unfold decimal. cbn [digits_fuel].
  destruct (n <? 10)%Z; [discriminate|].
  rewrite digits_fuel_app. destruct (digits_fuel _ _ ""); discriminate.
Qed.

(** *** Decimal digits without leading zero *)
Lemma digit_not_zero :
  forall d : Z, (0 < d < 10)%Z -> digit d <> "0"%char.
Proof.
  intros d Hd E. pose proof (digit_value_digit d) as H.
  rewrite E in H. cbn in H. lia.
Qed.

Lemma digits_fuel_leading :
  forall (fuel : nat) (n : Z),
    (0 < n < 2 ^ Z.of_nat fuel)%Z ->
    exists (c : ascii) (rest : string),
      digits_fuel fuel n "" = String c rest /\ c <> "0"%char.
Proof.
  induction fuel as [|fuel IH]; intros n Hn.
  - cbn in Hn. lia.
  - cbn [digits_fuel].
    destruct (Z.ltb_spec n 10) as [Hlt | Hge].
    + eexists _, _. split; [reflexivity|].
      apply digit_not_zero. rewrite Z.mod_small; lia.
    + rewrite digits_fuel_app.
      assert (Hq : (0 < n / 10 < 2 ^ Z.of_nat fuel)%Z).
      { split; [apply Z.div_str_pos; lia|].
        apply Z.div_lt_upper_bound; [lia|].
        rewrite Nat2Z.inj_succ, Z.pow_succ_r in Hn by lia. lia. }
      destruct (IH _ Hq) as (c & rest & -> & Hc).
      eexists _, _. split; [reflexivity | exact Hc].
Qed.

Lemma decimal_no_leading_zero :
  forall n : Z, (0 <= n)%Z -> no_leading_zero (decimal n).
Proof.
  intros n Hn. destruct (Z.eq_dec n 0) as [-> | Hnz]; [now left|].
  right. unfold decimal. apply digits_fuel_leading.
  split; [lia|].
  rewrite Nat2Z.inj_succ, Z2Nat.id by apply Z.log2_nonneg.
  apply Z.log2_spec. lia.
Qed.

(** *** The format with two decimals *)
Lemma fixed2_shape :
  forall (s : bool) (n : Z),
    (0 <= n)%Z ->
    exists (whole : string) (d1 d2 : ascii),
      fixed2 s n
      = ((if s then "-" else "") ++ whole ++ "."
           ++ String d1 (String d2 ""))%string
      /\ whole <> EmptyString
      /\ all_digits (whole ++ String d1 (String d2 "")) = true
      /\ no_leading_zero whole
      /\ number_of (whole ++ String d1 (String d2 "")) = n.
Proof.
  intros s n Hn.
  assert (Hq : (0 <= n / 100)%Z) by (apply Z.div_pos; lia).
  assert (H1 : (0 <= (n / 10) mod 10 < 10)%Z) by (apply Z.mod_pos_bound; lia).
  assert (H2 : (0 <= n mod 10 < 10)%Z) by (apply Z.mod_pos_bound; lia).
  exists (decimal (n / 100)), (digit ((n / 10) mod 10)), (digit (n mod 10)).
  destruct (decimal_reads_back (n / 100) Hq) as [Hv Ha].
  split; [reflexivity|]. split; [apply decimal_nonempty|].
  split; [|split; [now apply decimal_no_leading_zero|]].
  - rewrite all_digits_app, Ha. cbn [all_digits].
    now rewrite !digit_is_digit.
  - unfold number_of in *. rewrite number_from_app, Hv. cbn [number_from].
    rewrite !digit_value_digit by assumption.
    pose proof (Z.div_mod n 10). pose proof (Z.div_mod (n / 10) 10).
    rewrite Z.div_div in * by lia. change (10 * 10)%Z with 100%Z in *. lia.
Qed.

(** [format_2f] writes its argument with two decimals. *)
Lemma format_2f_two_decimals :
  forall x : float, two_decimals x (format_2f x).
Proof.
  intros x. unfold two_decimals, format_2f.
  destruct (Prim2SF x) as [s | s | | s m e];
    [destruct s; reflexivity | reflexivity | reflexivity |].
  destruct (fixed2_shape s (scaled_magnitude 2 m e))
    as (whole & d1 & d2 & E & _ & Ha & Hz & Hv);
    [apply scaled_magnitude_nonneg; lia|].
  exists (scaled_magnitude 2 m e), whole, d1, d2.
  split; [exact E|]. split; [exact Ha|]. split; [exact Hz|].
  split; [exact Hv|].
  pose proof (scaled_magnitude_nearest_even 2 m e) as H.
  change (10 ^ 2)%Z with 100%Z in H.
  destruct (0 <=? e)%Z; apply H; lia.
Qed.

(** ** The decision engine *)

(** The three results of [decide] in closed form.  Every condition is
    settled before the body is run, so that each case is a closed
    computation. *)
Lemma decide_closed_form :
  forall (record : EnergyRecord) (ratio : float) (anomaly : bool)
         (alert : string),
    KeenAIBrain.decide record ratio anomaly alert
    = ([KeenAIBrain.ratio_line ratio]
         ++ fired anomaly spike_line
         ++ fired (hot record) cooling_line
         ++ fired (sunny_day record) sunlight_line
         ++ fired (is_factory record) waste_line
         ++ fired (is_power_plant record) grid_line,
       (if String.eqb alert "CRITICAL" then
          [reduce_load]
            ++ fired (sunlight record) daylight_mirroring
            ++ fired (is_factory record || is_power_plant record)
                 waste_recovery
            ++ [geothermal_shift]
        else if String.eqb alert "WARNING" then
          [optimize_schedule] ++ fired (sunlight record) daylight_lighting
        else [no_action]),
       Z.min 100 (0 + weight (hot record) 15
                    + weight (sunny_day record) 20
                    + weight (is_factory record) 20
                    + weight (is_power_plant record) 20
                    + 30)).
Proof.
  intros record ratio anomaly alert.
  unfold KeenAIBrain.decide, KeenAIBrain.str_in, hot, sunny_day, is_factory,
    is_power_plant.
  cbn [existsb].
  generalize (KeenAIBrain.ratio_line ratio), (30 <? temperature record),
    (sunlight record), (String.eqb (time record) "Day"),
    (String.eqb (sector record) "Factory"),
    (String.eqb (sector record) "Power Plant"),
    (String.eqb alert "CRITICAL"), (String.eqb alert "WARNING").
  intros line b_hot b_sun b_day b_fac b_pp b_crit b_warn.
  destruct anomaly, b_hot, b_sun, b_day, b_fac, b_pp, b_crit, b_warn;
    reflexivity.
Qed.

Lemma decide_reasons :
  forall (record : EnergyRecord) (ratio : float) (anomaly : bool)
         (alert : string),
    reasons_of (KeenAIBrain.decide record ratio anomaly alert)
    = [KeenAIBrain.ratio_line ratio]
        ++ fired anomaly spike_line
        ++ fired (hot record) cooling_line
        ++ fired (sunny_day record) sunlight_line
        ++ fired (is_factory record) waste_line
        ++ fired (is_power_plant record) grid_line.
Proof. intros. now rewrite decide_closed_form. Qed.

Lemma decide_confidence :
  forall (record : EnergyRecord) (ratio : float) (anomaly : bool)
         (alert : string),
    confidence_of (KeenAIBrain.decide record ratio anomaly alert)
    = Z.min 100 (0 + weight (hot record) 15
                   + weight (sunny_day record) 20
                   + weight (is_factory record) 20
                   + weight (is_power_plant record) 20
                   + 30).
Proof. intros. now rewrite decide_closed_form. Qed.

Lemma decide_actions :
  forall (record : EnergyRecord) (ratio : float) (anomaly : bool)
         (alert : string),
    actions_of (KeenAIBrain.decide record ratio anomaly alert)
    = if String.eqb alert "CRITICAL" then
        [reduce_load]
          ++ fired (sunlight record) daylight_mirroring
          ++ fired (is_factory record || is_power_plant record) waste_recovery
          ++ [geothermal_shift]
      else if String.eqb alert "WARNING" then
        [optimize_schedule] ++ fired (sunlight record) daylight_lighting
      else [no_action].
Proof. intros. now rewrite decide_closed_form. Qed.

Lemma factory_not_power_plant :
  forall record : EnergyRecord,
    is_factory record && is_power_plant record = false.
Proof.
  intros record. unfold is_factory, is_power_plant.
  destruct (String.eqb_spec (sector record) "Factory") as [-> | _];
    reflexivity.
Qed.

(** C6: the reasons come out in one fixed order: the ratio line with the
    ratio printed to two decimals, always; then the spike line exactly when
    [anomaly]; the cooling line exactly when [temperature > 30]; the sunlight
    line exactly when [sunlight] and [time == "Day"]; the waste line exactly
    when the sector is "Factory"; the grid line exactly when it is
    "Power Plant", each sector test standing on its own.  A hot sunny day in a
    factory gives the ratio line, the spike line if there is an anomaly, then
    the cooling, sunlight and waste lines, with confidence 85.  The ratio
    printed to two decimals is, for a finite ratio, its sign, the digits of
    the integer nearest to a hundred times its magnitude (the even one on a
    tie) with a point before the last two, and no leading zero; it is
    [nan], [inf] or [-inf] otherwise. *)
Theorem decide_reasons_in_fixed_order :
  forall (record : EnergyRecord) (ratio : float) (anomaly : bool)
         (alert : string),
    reasons_of (KeenAIBrain.decide record ratio anomaly alert)
    = [("Usage is " ++ format_2f ratio ++ "× expected level")%string]
        ++ fired anomaly spike_line
        ++ fired (30 <? temperature record) cooling_line
        ++ fired (sunlight record && String.eqb (time record) "Day")
             sunlight_line
        ++ fired (String.eqb (sector record) "Factory") waste_line
        ++ fired (String.eqb (sector record) "Power Plant") grid_line
    /\ ((30 <? temperature record) = true ->
        sunlight record = true ->
        time record = "Day"%string ->
        sector record = "Factory"%string ->
        reasons_of (KeenAIBrain.decide record ratio anomaly alert)
        = KeenAIBrain.ratio_line ratio
            :: fired anomaly spike_line
            ++ [cooling_line; sunlight_line; waste_line]
        /\ confidence_of (KeenAIBrain.decide record ratio anomaly alert)
           = 85%Z)
    /\ (exists text : string,
          hd_error (reasons_of (KeenAIBrain.decide record ratio anomaly alert))
          = Some ("Usage is " ++ text ++ "× expected level")%string
          /\ two_decimals ratio text).
Proof.
  intros record ratio anomaly alert. split; [|split].
  - apply decide_reasons.
  - intros Hhot Hsun Hday Hfac.
    rewrite decide_reasons, decide_confidence.
    unfold hot, sunny_day, is_factory, is_power_plant.
    rewrite Hhot, Hsun, Hday, Hfac. destruct anomaly; split; reflexivity.
  - exists (format_2f ratio). rewrite decide_reasons.
    split; [reflexivity | apply format_2f_two_decimals].
Qed.

(** The ratio line at 1.3, at 0.125 and 0.375, which lie halfway between
    two printed values, at 1.005 and 2.675, whose binary values lie just
    below the half, and at 1234.5, -0.001, 0 and NaN. *)
Lemma decide_reasons_in_fixed_order_witness :
  reasons_of (KeenAIBrain.decide hot_factory_day 1.3 true "CRITICAL")
  = ["Usage is 1.30× expected level"%string;
     spike_line; cooling_line; sunlight_line; waste_line]
  /\ confidence_of (KeenAIBrain.decide hot_factory_day 1.3 true "CRITICAL")
     = 85%Z
  /\ map (fun ratio =>
            hd_error
              (reasons_of
                 (KeenAIBrain.decide hot_factory_day ratio false "NORMAL")))
         [0.125; 0.375; 1.005; 2.675; 1234.5; -0.001; 0; nan]
     = map Some
         ["Usage is 0.12× expected level"; "Usage is 0.38× expected level";
          "Usage is 1.00× expected level"; "Usage is 2.67× expected level";
          "Usage is 1234.50× expected level";
          "Usage is -0.00× expected level"; "Usage is 0.00× expected level";
          "Usage is nan× expected level"]%string.
Proof.
  destruct (decide_reasons_in_fixed_order hot_factory_day 1.3 true "CRITICAL")
    as (_ & H & _).
  destruct H as [H1 H2]; [reflexivity..|].
  split; [exact H1|]. split; [exact H2|].
  cbn [map].
  rewrite !(proj1 (decide_reasons_in_fixed_order hot_factory_day _ false
                     "NORMAL")).
  reflexivity.
Defined.

(** C7: with a CRITICAL alert, sunlight and the sector "Power Plant" the
    plan has exactly four actions: reduce the load, mirror the daylight,
    recover waste energy (all IMMEDIATE), then shift to geothermal supply
    (HIGH).  The alert alone picks the branch: the CRITICAL plan for
    "CRITICAL", the WARNING plan for "WARNING", the single LOW action for any
    other alert; ratio and anomaly play no part. *)
Theorem decide_actions_by_alert :
  forall (record : EnergyRecord) (ratio : float) (anomaly : bool)
         (alert : string),
    let plan := actions_of (KeenAIBrain.decide record ratio anomaly alert) in
    (alert = "CRITICAL"%string ->
     sunlight record = true ->
     sector record = "Power Plant"%string ->
     plan = [reduce_load; daylight_mirroring; waste_recovery;
             geothermal_shift])
    /\ (alert = "CRITICAL"%string ->
        plan = [reduce_load]
                 ++ fired (sunlight record) daylight_mirroring
                 ++ fired (String.eqb (sector record) "Factory"
                           || String.eqb (sector record) "Power Plant")
                      waste_recovery
                 ++ [geothermal_shift])
    /\ (alert = "WARNING"%string ->
        plan = [optimize_schedule]
                 ++ fired (sunlight record) daylight_lighting)
    /\ (alert <> "CRITICAL"%string -> alert <> "WARNING"%string ->
        plan = [no_action])
    /\ (forall (ratio' : float) (anomaly' : bool),
          actions_of (KeenAIBrain.decide record ratio' anomaly' alert) = plan).
Proof.
  intros record ratio anomaly alert plan. subst plan.
  split; [|split; [|split; [|split]]].
  - intros -> Hsun Hsec. rewrite decide_actions.
    unfold is_factory, is_power_plant. rewrite Hsun, Hsec. reflexivity.
  - intros ->. rewrite decide_actions. reflexivity.
  - intros ->. rewrite decide_actions. reflexivity.
  - intros Hc Hw. rewrite decide_actions.
    destruct (String.eqb_spec alert "CRITICAL"); [contradiction|].
    destruct (String.eqb_spec alert "WARNING"); [contradiction|].
    reflexivity.
  - intros ratio' anomaly'. now rewrite !decide_actions.
Qed.

Lemma decide_actions_by_alert_witness :
  actions_of (KeenAIBrain.decide sunny_power_plant 1.5 false "CRITICAL")
  = [("IMMEDIATE", "Reduce non-essential electrical load");
     ("IMMEDIATE", "Activate Smart Daylight-Mirroring System");
     ("IMMEDIATE", "Enable ORC Waste Energy Recovery Line");
     ("HIGH", "Shift base load to geothermal supply")]%string
  /\ actions_of (KeenAIBrain.decide sunny_power_plant 1.2 false "WARNING")
     = [optimize_schedule; daylight_lighting]
  /\ actions_of (KeenAIBrain.decide sunny_power_plant 1 false "NORMAL")
     = [no_action]
  /\ actions_of (KeenAIBrain.decide sunny_power_plant 1 false "critical")
     = [no_action].
Proof.
  split; [|split; [|split]].
  - destruct (decide_actions_by_alert sunny_power_plant 1.5 false "CRITICAL")
      as (H & _).
    apply H; reflexivity.
  - destruct (decide_actions_by_alert sunny_power_plant 1.2 false "WARNING")
      as (_ & _ & H & _).
    apply H; reflexivity.
  - destruct (decide_actions_by_alert sunny_power_plant 1 false "NORMAL")
      as (_ & _ & _ & H & _).
    apply H; discriminate.
  - destruct (decide_actions_by_alert sunny_power_plant 1 false "critical")
      as (_ & _ & _ & H & _).
    apply H; discriminate.
Defined.

(** C8: the confidence starts from 0, takes 15 from the temperature rule
    and 20 from each of the sunlight, Factory and Power Plant rules that fire,
    and is closed once with [min(100, accumulated + 30)], whichever rules
    fired and whatever the ratio, the anomaly flag and the alert are.  It is
    an integer between 0 and 100; as no sector is both "Factory" and
    "Power Plant" it is in fact between 30 and 85. *)
Theorem decide_confidence_accumulates :
  forall (record : EnergyRecord) (ratio : float) (anomaly : bool)
         (alert : string),
    let accumulated :=
      Z.add (Z.add (Z.add (Z.add 0
        (weight (30 <? temperature record) 15))
        (weight (sunlight record && String.eqb (time record) "Day") 20))
        (weight (String.eqb (sector record) "Factory") 20))
        (weight (String.eqb (sector record) "Power Plant") 20) in
    let confidence :=
      confidence_of (KeenAIBrain.decide record ratio anomaly alert) in
    confidence = Z.min 100 (Z.add accumulated 30)
    /\ (0 <= confidence <= 100)%Z
    /\ (30 <= confidence <= 85)%Z
    /\ (forall (ratio' : float) (anomaly' : bool) (alert' : string),
          confidence_of (KeenAIBrain.decide record ratio' anomaly' alert')
          = confidence).
Proof.
  intros record ratio anomaly alert accumulated confidence.
  subst accumulated confidence. rewrite decide_confidence.
  pose proof (factory_not_power_plant record) as Hx.
  unfold hot, sunny_day, is_factory, is_power_plant, weight in *.
  split; [reflexivity|].
  split; [|split].
  - destruct (30 <? temperature record),
      (sunlight record && String.eqb (time record) "Day"),
      (String.eqb (sector record) "Factory"),
      (String.eqb (sector record) "Power Plant"); simpl; lia.
  - destruct (30 <? temperature record),
      (sunlight record && String.eqb (time record) "Day"),
      (String.eqb (sector record) "Factory"),
      (String.eqb (sector record) "Power Plant"); simpl in *;
      try discriminate; lia.
  - intros ratio' anomaly' alert'. rewrite decide_confidence. reflexivity.
Qed.

(** ** The character tables, point by point *)

Lemma between_spec :
  forall lo hi c : N, between lo hi c = true <-> (lo <= c <= hi)%N.
Proof.
  intros lo hi c. unfold between.
  rewrite andb_true_iff, !N.leb_le. reflexivity.
Qed.

Lemma range_points_spec :
  forall (r : N * N) (c : N),
    between (fst r) (snd r) c = true -> In c (range_points r).
Proof.
  intros [lo hi] c H. apply between_spec in H. cbn [fst snd] in *.
  unfold range_points. cbn [fst snd].
  apply in_map_iff. exists (N.to_nat (c - lo)). split.
  - rewrite N2Nat.id. lia.
  - apply in_seq. lia.
Qed.

Lemma in_ranges_points :
  forall (table : list (N * N)) (c : N),
    in_ranges c table = true -> In c (flat_map range_points table).
Proof.
  intros table c H. unfold in_ranges in H.
  apply existsb_exists in H. destruct H as (r & Hr & Hc).
  apply in_flat_map. exists r. split; [exact Hr|].
  now apply range_points_spec.
Qed.

Lemma run_points_spec :
  forall (r : N * N * N * N) (c : N),
    in_run c r = true -> In c (run_points r).
Proof.
  intros [[[first last] stride] image] c H. unfold in_run in H.
  destruct (between first last c) eqn:Hb; [|discriminate H].
  apply between_spec in Hb. apply N.eqb_eq in H. rename H into Hm.
  unfold run_points.
  apply in_map_iff. exists (N.to_nat ((c - first) / stride)). split.
  - rewrite N2Nat.id.
    pose proof (N.div_mod' (c - first) stride) as Hd.
    rewrite Hm in Hd. lia.
  - apply in_seq.
    assert (Hle : ((c - first) / stride <= (last - first) / stride)%N)
      by (apply N.Div0.div_le_mono; lia).
    set (a := ((c - first) / stride)%N) in *.
    set (b := ((last - first) / stride)%N) in *.
    clearbody a b. lia.
Qed.

Lemma full_case_points :
  forall (special : list (N * list N)) (runs : list (N * N * N * N)) (c : N),
    ~ In c (map fst special ++ flat_map run_points runs) ->
    full_case special runs c = [c].
Proof.
  intros special runs c H. unfold full_case.
  destruct (find _ special) as [e|] eqn:E.
  - apply find_some in E. destruct E as [He Hc]. apply N.eqb_eq in Hc.
    exfalso. apply H. apply in_or_app. left.
    rewrite <- Hc. now apply in_map.
  - destruct (find _ runs) as [r|] eqn:R; [|reflexivity].
    apply find_some in R. destruct R as [Hr Hc].
    exfalso. apply H. apply in_or_app. right.
    apply in_flat_map. exists r. split; [exact Hr|].
    now apply run_points_spec.
Qed.

(** A character outside the tables is not white space and is its own lower
    case and title case. *)
Lemma plain_character :
  forall c : N,
    ~ In c case_points ->
    to_lower_full c = [c] /\ to_title_full c = [c] /\ is_space c = false.
Proof.
  intros c H. unfold case_points in H. rewrite !in_app_iff in H.
  split; [|split].
  - apply full_case_points. rewrite in_app_iff. tauto.
  - apply full_case_points. rewrite in_app_iff. tauto.
  - destruct (is_space c) eqn:E; [|reflexivity].
    apply in_ranges_points in E. tauto.
Qed.

(** A property of characters holds of all of them once it holds of those
    the tables list and of the plain ones. *)
Lemma by_case_points :
  forall P : N -> bool,
    forallb P case_points = true ->
    (forall c : N,
        to_lower_full c = [c] -> to_title_full c = [c] ->
        is_space c = false -> ~ In c case_points -> P c = true) ->
    forall c : N, P c = true.
Proof.
  intros P Htab Hplain c.
  destruct (in_dec N.eq_dec c case_points) as [Hin | Hout].
  - rewrite forallb_forall in Htab. now apply Htab.
  - destruct (plain_character c Hout) as (Hl & Ht & Hs).
    now apply Hplain.
Qed.

(** ** Texts and strs *)

(** The text of a str starts with the character itself when it is ASCII,
    and with a byte above 127 otherwise. *)
Lemma encode_char_head :
  forall c : N,
    ((c < 0x80)%N /\ encode_char c = [c])
    \/ exists (b : N) (rest : list N),
         encode_char c = b :: rest /\ (0x80 <= b < 0x100)%N.
Proof.
  intros c. unfold encode_char, between.
  destruct (N.ltb_spec c 0x80) as [H0 | H0]; [left; now split|].
  right.
  destruct (N.leb_spec 0xDC80 c) as [H1 | H1];
    [destruct (N.leb_spec c 0xDCFF) as [H2 | H2]|]; cbn [andb].
  - eexists _, _. split; [reflexivity|]. lia.
  - destruct (N.ltb_spec c 0x800) as [H3 | H3]; [exfalso; lia|].
    destruct (N.ltb_spec c 0x10000) as [H4 | H4];
      (eexists _, _; split; [reflexivity|]); [|].
    + assert (c / 4096 < 16)%N by (apply N.Div0.div_lt_upper_bound; lia).
      set (q := (c / 4096)%N) in *. clearbody q. lia.
    + pose proof (N.mod_upper_bound (c / 262144) 8) as Hq.
      set (q := ((c / 262144) mod 8)%N) in *. clearbody q. lia.
  - destruct (N.ltb_spec c 0x800) as [H3 | H3];
      [|destruct (N.ltb_spec c 0x10000) as [H4 | H4]];
      (eexists _, _; split; [reflexivity|]).
    + assert (c / 64 < 32)%N by (apply N.Div0.div_lt_upper_bound; lia).
      set (q := (c / 64)%N) in *. clearbody q. lia.
    + assert (c / 4096 < 16)%N by (apply N.Div0.div_lt_upper_bound; lia).
      set (q := (c / 4096)%N) in *. clearbody q. lia.
    + pose proof (N.mod_upper_bound (c / 262144) 8) as Hq.
      set (q := ((c / 262144) mod 8)%N) in *. clearbody q. lia.
Qed.

(** A str whose text is plain ASCII is the str of the characters of that
    text: comparing the texts with an ASCII literal is comparing the strs. *)
Lemma encode_utf8_ascii :
  forall (l : str) (s : string),
    is_ascii s = true -> encode_utf8 l = s -> l = code_points s.
Proof.
  induction l as [|c l IH]; intros s Hs E; cbn [encode_utf8] in E.
  - now subst s.
  - destruct (encode_char_head c) as [[Hc Hb] | (b & rest & Hb & Hr)];
      rewrite Hb in E; cbn [string_of_bytes append] in E; subst s;
      unfold is_ascii in Hs; cbn [list_ascii_of_string forallb] in Hs;
      apply andb_true_iff in Hs; destruct Hs as [Ha Hs];
      rewrite N_ascii_embedding in Ha by lia; apply N.ltb_lt in Ha.
    + unfold code_points. cbn [list_ascii_of_string map].
      rewrite N_ascii_embedding by lia. f_equal. now apply IH.
    + lia.
Qed.

Lemma code_points_encode :
  forall s : string,
    is_ascii s = true -> encode_utf8 (code_points s) = s.
Proof.
  induction s as [|a s IH]; intros H; [reflexivity|].
  unfold is_ascii in H. cbn [list_ascii_of_string forallb] in H.
  apply andb_true_iff in H. destruct H as [Ha Hs].
  unfold code_points. cbn [list_ascii_of_string map encode_utf8].
  unfold encode_char. rewrite Ha. cbn [string_of_bytes append].
  rewrite ascii_N_embedding. f_equal. now apply IH.
Qed.

(** *** Every text reads back from the str it stands for *)

Lemma encode_char_escaped :
  forall b : N, (0x80 <= b < 0x100)%N -> encode_char (escaped b) = [b].
Proof.
  intros b Hb. unfold encode_char, escaped, between.
  destruct (N.ltb_spec (0xDC00 + b) 0x80); [lia|].
  destruct (N.leb_spec 0xDC80 (0xDC00 + b)); [|lia].
  destruct (N.leb_spec (0xDC00 + b) 0xDCFF); [|lia].
  cbn [andb]. f_equal. lia.
Qed.

Lemma encode_char_2 :
  forall x y : N,
    (2 <= x < 32)%N -> (y < 64)%N ->
    encode_char (x * 64 + y) = [0xC0 + x; 0x80 + y]%N.
Proof.
  intros x y Hx Hy. unfold encode_char, between.
  assert (Hq : ((x * 64 + y) / 64 = x)%N)
    by (symmetry; apply (N.div_unique _ _ _ y); lia).
  assert (Hr : ((x * 64 + y) mod 64 = y)%N)
    by (symmetry; apply (N.mod_unique _ _ x); lia).
  rewrite Hq, Hr. set (c := (x * 64 + y)%N) in *.
  assert (Hc : (0x80 <= c < 0x800)%N) by (subst c; lia). clearbody c.
  destruct (N.ltb_spec c 0x80); [lia|].
  destruct (N.leb_spec 0xDC80 c); [lia|]. cbn [andb].
  destruct (N.ltb_spec c 0x800); [reflexivity | lia].
Qed.

Lemma encode_char_3 :
  forall x y z : N,
    (x < 16)%N -> (y < 64)%N -> (z < 64)%N ->
    (x = 0 -> 32 <= y)%N -> (x = 13 -> y < 32)%N ->
    encode_char (x * 4096 + y * 64 + z)
    = [0xE0 + x; 0x80 + y; 0x80 + z]%N.
Proof.
  intros x y z Hx Hy Hz H0 H13. unfold encode_char, between.
  assert (Hq : ((x * 4096 + y * 64 + z) / 4096 = x)%N)
    by (symmetry; apply (N.div_unique _ _ _ (y * 64 + z)); lia).
  assert (Hm : ((x * 4096 + y * 64 + z) / 64 = x * 64 + y)%N)
    by (symmetry; apply (N.div_unique _ _ _ z); lia).
  assert (Hr : ((x * 4096 + y * 64 + z) mod 64 = z)%N)
    by (symmetry; apply (N.mod_unique _ _ (x * 64 + y)); lia).
  assert (Hs : ((x * 64 + y) mod 64 = y)%N)
    by (symmetry; apply (N.mod_unique _ _ x); lia).
  rewrite Hq, Hm, Hr, Hs. set (c := (x * 4096 + y * 64 + z)%N) in *.
  assert (Hc : (0x800 <= c < 0x10000)%N) by (subst c; lia).
  assert (Hd : (c < 0xD800 \/ 0xE000 <= c)%N) by (subst c; lia).
  clearbody c.
  destruct (N.ltb_spec c 0x80); [lia|].
  destruct (N.ltb_spec c 0x800); [lia|].
  destruct (N.ltb_spec c 0x10000); [|lia].
  destruct (N.leb_spec 0xDC80 c); destruct (N.leb_spec c 0xDCFF);
    cbn [andb]; try reflexivity. lia.
Qed.

Lemma encode_char_4 :
  forall x y z t : N,
    (x < 5)%N -> (y < 64)%N -> (z < 64)%N -> (t < 64)%N ->
    (x = 0 -> 16 <= y)%N ->
    encode_char (x * 262144 + y * 4096 + z * 64 + t)
    = [0xF0 + x; 0x80 + y; 0x80 + z; 0x80 + t]%N.
Proof.
  intros x y z t Hx Hy Hz Ht H0. unfold encode_char, between.
  set (c := (x * 262144 + y * 4096 + z * 64 + t)%N).
  assert (H1 : (c / 262144 = x)%N)
    by (symmetry; apply (N.div_unique _ _ _ (y * 4096 + z * 64 + t));
        subst c; lia).
  assert (H2 : (c / 4096 = x * 64 + y)%N)
    by (symmetry; apply (N.div_unique _ _ _ (z * 64 + t)); subst c; lia).
  assert (H3 : (c / 64 = (x * 64 + y) * 64 + z)%N)
    by (symmetry; apply (N.div_unique _ _ _ t); subst c; lia).
  assert (H4 : (c mod 64 = t)%N)
    by (symmetry; apply (N.mod_unique _ _ ((x * 64 + y) * 64 + z));
        subst c; lia).
  assert (H5 : (((x * 64 + y) * 64 + z) mod 64 = z)%N)
    by (symmetry; apply (N.mod_unique _ _ (x * 64 + y)); lia).
  assert (H6 : ((x * 64 + y) mod 64 = y)%N)
    by (symmetry; apply (N.mod_unique _ _ x); lia).
  assert (H7 : (x mod 8 = x)%N) by (apply N.mod_small; lia).
  rewrite H1, H2, H3, H4, H5, H6, H7.
  assert (Hc : (0x10000 <= c)%N) by (subst c; lia). clearbody c.
  destruct (N.ltb_spec c 0x80); [lia|].
  destruct (N.ltb_spec c 0x800); [lia|].
  destruct (N.ltb_spec c 0x10000); [lia|].
  destruct (N.leb_spec 0xDC80 c); destruct (N.leb_spec c 0xDCFF);
    cbn [andb]; try reflexivity. lia.
Qed.

Ltac bytes_in_range :=
  repeat match goal with
         | H : _ && _ = true |- _ =>
             apply andb_true_iff in H; destruct H
         | H : between _ _ _ = true |- _ => apply between_spec in H
         | H : trail _ = true |- _ => unfold trail in H
         end.

Lemma second_spec :
  forall b0 b1 : N,
    second b0 b1 = true ->
    (0x80 <= b1 <= 0xBF)%N
    /\ (b0 = 0xE0 -> 0xA0 <= b1)%N /\ (b0 = 0xED -> b1 <= 0x9F)%N
    /\ (b0 = 0xF0 -> 0x90 <= b1)%N /\ (b0 = 0xF4 -> b1 <= 0x8F)%N.
Proof.
  intros b0 b1 H. unfold second in H.
  destruct (N.eqb_spec b0 0xE0); [bytes_in_range; lia|].
  destruct (N.eqb_spec b0 0xED); [bytes_in_range; lia|].
  destruct (N.eqb_spec b0 0xF0); [bytes_in_range; lia|].
  destruct (N.eqb_spec b0 0xF4); bytes_in_range; lia.
Qed.

Lemma encode_seq_2 :
  forall b0 b1 : N,
    between 0xC2 0xDF b0 && trail b1 = true ->
    encode_char ((b0 - 0xC0) * 64 + (b1 - 0x80)) = [b0; b1].
Proof.
  intros b0 b1 H. bytes_in_range.
  rewrite encode_char_2 by lia. repeat f_equal; lia.
Qed.

Lemma encode_seq_3 :
  forall b0 b1 b2 : N,
    between 0xE0 0xEF b0 && second b0 b1 && trail b2 = true ->
    encode_char ((b0 - 0xE0) * 4096 + (b1 - 0x80) * 64 + (b2 - 0x80))
    = [b0; b1; b2].
Proof.
  intros b0 b1 b2 H. bytes_in_range.
  match goal with H : second _ _ = true |- _ =>
    apply second_spec in H; destruct H as (? & ? & ? & _) end.
  rewrite encode_char_3 by lia. repeat f_equal; lia.
Qed.

Lemma encode_seq_4 :
  forall b0 b1 b2 b3 : N,
    between 0xF0 0xF4 b0 && second b0 b1 && trail b2 && trail b3 = true ->
    encode_char ((b0 - 0xF0) * 262144 + (b1 - 0x80) * 4096
                 + (b2 - 0x80) * 64 + (b3 - 0x80))
    = [b0; b1; b2; b3].
Proof.
  intros b0 b1 b2 b3 H. bytes_in_range.
  match goal with H : second _ _ = true |- _ =>
    apply second_spec in H; destruct H as (? & _ & _ & ? & ?) end.
  rewrite encode_char_4 by lia. repeat f_equal; lia.
Qed.

Lemma encode_utf8_escaped :
  forall (a : ascii) (l : str),
    (N_of_ascii a <? 0x80)%N = false ->
    encode_utf8 (escaped (N_of_ascii a) :: l) = String a (encode_utf8 l).
Proof.
  intros a l H. apply N.ltb_ge in H. pose proof (N_ascii_bounded a).
  cbn [encode_utf8]. rewrite encode_char_escaped by lia.
  cbn [string_of_bytes append]. now rewrite ascii_N_embedding.
Qed.

(** The text of the str a text stands for is that text. *)
Lemma encode_decode_utf8 :
  forall s : string, encode_utf8 (decode_utf8 s) = s.
Proof.
  assert (H : forall (n : nat) (s : string),
             (String.length s <= n)%nat -> encode_utf8 (decode_utf8 s) = s).
  { induction n as [|n IH]; intros s Hn.
    - destruct s; [reflexivity | cbn in Hn; lia].
    - destruct s as [|a0 s1]; [reflexivity|].
      cbn [String.length] in Hn.
      assert (I1 : encode_utf8 (decode_utf8 s1) = s1) by (apply IH; lia).
      cbn [decode_utf8].
      destruct (N_of_ascii a0 <? 0x80)%N eqn:L0.
      { cbn [encode_utf8]. unfold encode_char. rewrite L0.
        cbn [string_of_bytes append]. now rewrite ascii_N_embedding, I1. }
      destruct s1 as [|a1 s2];
        [now rewrite (encode_utf8_escaped a0 [] L0)|].
      cbn [String.length] in Hn.
      assert (I2 : encode_utf8 (decode_utf8 s2) = s2) by (apply IH; lia).
      destruct (between 0xC2 0xDF (N_of_ascii a0) && trail (N_of_ascii a1))
        eqn:C2.
      { cbn [encode_utf8]. rewrite (encode_seq_2 _ _ C2), I2.
        cbn [string_of_bytes append]. now rewrite !ascii_N_embedding. }
      destruct s2 as [|a2 s3];
        [now rewrite (encode_utf8_escaped a0 _ L0), I1|].
      cbn [String.length] in Hn.
      assert (I3 : encode_utf8 (decode_utf8 s3) = s3) by (apply IH; lia).
      destruct (between 0xE0 0xEF (N_of_ascii a0)
                && second (N_of_ascii a0) (N_of_ascii a1)
                && trail (N_of_ascii a2)) eqn:C3.
      { cbn [encode_utf8]. rewrite (encode_seq_3 _ _ _ C3), I3.
        cbn [string_of_bytes append]. now rewrite !ascii_N_embedding. }
      destruct s3 as [|a3 s4];
        [now rewrite (encode_utf8_escaped a0 _ L0), I1|].
      cbn [String.length] in Hn.
      assert (I4 : encode_utf8 (decode_utf8 s4) = s4) by (apply IH; lia).
      destruct (between 0xF0 0xF4 (N_of_ascii a0)
                && second (N_of_ascii a0) (N_of_ascii a1)
                && trail (N_of_ascii a2) && trail (N_of_ascii a3)) eqn:C4.
      { cbn [encode_utf8]. rewrite (encode_seq_4 _ _ _ _ C4), I4.
        cbn [string_of_bytes append]. now rewrite !ascii_N_embedding. }
      now rewrite (encode_utf8_escaped a0 _ L0), I1. }
  intros s. now apply (H (String.length s)).
Qed.

(** ** The sector typed at the console *)

(** No character has a capital P in its lower case. *)
Lemma to_lower_full_no_P :
  forall c : N, forallb (fun x => negb (x =? 0x50)%N) (to_lower_full c) = true.
Proof.
  apply by_case_points; [vm_compute; reflexivity|].
  intros c Hl _ _ _. rewrite Hl. cbn [forallb].
  destruct (N.eqb_spec c 0x50) as [-> | _]; [|reflexivity].
  vm_compute in Hl. discriminate Hl.
Qed.

Lemma lower_char_no_P :
  forall (before : str) (c : N) (after : str),
    ~ In 0x50%N (lower_char before c after).
Proof.
  intros before c after H. unfold lower_char in H.
  destruct (c =? 0x3A3)%N.
  - destruct (final_sigma before after); cbn in H;
      destruct H as [H | []]; discriminate H.
  - pose proof (to_lower_full_no_P c) as Hc.
    rewrite forallb_forall in Hc. apply Hc in H. discriminate H.
Qed.

(** Lowering never leaves or brings in a capital P. *)
Lemma lower_from_no_P :
  forall (l before : str), ~ In 0x50%N (lower_from before l).
Proof.
  induction l as [|c l IH]; intros before H; cbn [lower_from] in H;
    [exact H|].
  apply in_app_or in H. destruct H as [H | H].
  - exact (lower_char_no_P _ _ _ H).
  - exact (IH _ H).
Qed.

(** The title case of a character has one to three characters. *)
Lemma to_title_full_length :
  forall c : N,
    (1 <=? List.length (to_title_full c))%nat
    && (List.length (to_title_full c) <=? 3)%nat = true.
Proof.
  apply by_case_points; [vm_compute; reflexivity|].
  intros c _ Ht _ _. now rewrite Ht.
Qed.

(** [capitalize] never yields "Power Plant": its second capital P would
    have to come out of the lowered part. *)
Lemma capitalize_not_power_plant :
  forall s : str, capitalize s <> code_points "Power Plant".
Proof.
  intros [|c s] E; [discriminate E|].
  cbn [capitalize] in E.
  pose proof (to_title_full_length c) as Hlen.
  pose proof (lower_from_no_P s [c]) as Hno.
  change (code_points "Power Plant")
    with [80; 111; 119; 101; 114; 32; 80; 108; 97; 110; 116]%N in E.
  destruct (to_title_full c) as [|t1 [|t2 [|t3 [|t4 t]]]];
    try discriminate Hlen; cbn [app] in E;
    injection E; intros; apply Hno;
    match goal with H : lower_from _ _ = _ |- _ => rewrite H end;
    cbn; tauto.
Qed.

Lemma typed_sector_not_power_plant :
  forall typed : string,
    encode_utf8 (capitalize (strip (input typed))) <> "Power Plant"%string.
Proof.
  intros typed E. apply encode_utf8_ascii in E; [|reflexivity].
  exact (capitalize_not_power_plant _ E).
Qed.

(** What an evaluation that returns has computed. *)
Lemma evaluate_returns :
  forall (history : EnergyHistory.t) (record : EnergyRecord) (o : outcome),
    snd (evaluate history record) = Return o ->
    let anomaly := EnergyAnalytics.anomaly_detected record history in
    let ratio := usage record / expected_avg record in
    let alert := EnergyAnalytics.alert_level ratio anomaly in
    let d := KeenAIBrain.decide record ratio anomaly alert in
    (expected_avg record =? 0) = false
    /\ o = mkOutcome anomaly ratio alert
             (EnergyAnalytics.efficiency_score ratio)
             (reasons_of d) (actions_of d) (confidence_of d).
Proof.
  intros history record o. unfold evaluate, EnergyAnalytics.usage_ratio,
    EnergyAnalytics.float_truediv. cbn [snd].
  destruct (expected_avg record =? 0); cbn [bind]; [discriminate|].
  unfold reasons_of, actions_of, confidence_of.
  destruct (KeenAIBrain.decide record _ _ _) as [[rs acts] c].
  intros [= <-]. split; reflexivity.
Qed.

(** C10: however the sector is typed, [strip] followed by [capitalize]
    never yields "Power Plant".  Every character of the answer after the first
    comes out in lower case, and the first one in title case, which is one to
    three characters long: the second capital P of "Power Plant", the seventh
    character, would have to come out of the lowered part, and no lower case
    holds a capital P.  So for a record read by [main] the grid line is never
    among the reasons, the confidence never holds the Power Plant increment,
    and the waste-energy recovery action is taken for a factory only. *)
Theorem typed_sector_never_power_plant :
  forall inp : console_input,
    let record := read_record inp in
    sector record
    = encode_utf8 (capitalize (strip (input (sector_in inp))))
    /\ (forall s : str, capitalize (strip s) <> code_points "Power Plant")
    /\ sector record <> "Power Plant"%string
    /\ (forall (ratio : float) (anomaly : bool) (alert : string),
          let d := KeenAIBrain.decide record ratio anomaly alert in
          ~ In grid_line (reasons_of d)
          /\ confidence_of d
             = Z.min 100
                 (0 + weight (30 <? temperature record) 15
                    + weight (sunlight record
                              && String.eqb (time record) "Day") 20
                    + weight (String.eqb (sector record) "Factory") 20
                    + 30)
          /\ (In waste_recovery (actions_of d) ->
              sector record = "Factory"%string))
    /\ (forall o : outcome,
          snd (main inp) = Return o ->
          ~ In grid_line (out_reasons o)
          /\ (In waste_recovery (out_actions o) ->
              sector record = "Factory"%string)).
Proof.
  intros inp record.
  assert (Hsec : sector record <> "Power Plant"%string)
    by apply typed_sector_not_power_plant.
  assert (Hpp : is_power_plant record = false).
  { unfold is_power_plant. now apply String.eqb_neq. }
  assert (Hd : forall ratio anomaly alert,
             let d := KeenAIBrain.decide record ratio anomaly alert in
             ~ In grid_line (reasons_of d)
             /\ confidence_of d
                = Z.min 100
                    (0 + weight (30 <? temperature record) 15
                       + weight (sunlight record
                                 && String.eqb (time record) "Day") 20
                       + weight (String.eqb (sector record) "Factory") 20
                       + 30)
             /\ (In waste_recovery (actions_of d) ->
                 sector record = "Factory"%string)).
  { intros ratio anomaly alert d. subst d.
    rewrite decide_reasons, decide_confidence, decide_actions, Hpp.
    split; [|split].
    - unfold fired. simpl.
      destruct anomaly, (hot record), (sunny_day record), (is_factory record);
        simpl; intuition discriminate.
    - unfold weight, hot, sunny_day, is_factory. f_equal. lia.
    - rewrite orb_false_r. unfold is_factory.
      destruct (String.eqb_spec (sector record) "Factory") as [E | _];
        [intros _; exact E|].
      unfold fired.
      destruct (String.eqb alert "CRITICAL"), (String.eqb alert "WARNING"),
        (sunlight record); simpl; intuition discriminate. }
  split; [reflexivity|].
  split; [intros s; apply capitalize_not_power_plant|].
  split; [exact Hsec|]. split; [exact Hd|].
  intros o Ho. unfold main in Ho.
  destruct (evaluate_returns _ _ _ Ho) as (_ & ->). cbn [out_reasons out_actions].
  split; apply Hd.
Qed.

Lemma typed_sector_never_power_plant_witness :
  sector (read_record typed_power_plant) = "Power plant"%string
  /\ sector (read_record typed_apostrophe_n) = "ʼNower plant"%string
  /\ confidence_of
       (KeenAIBrain.decide (read_record typed_power_plant) 1.5 false "CRITICAL")
     = 65%Z
  /\ confidence_of
       (KeenAIBrain.decide (read_record typed_apostrophe_n) 1.5 false
          "CRITICAL")
     = 65%Z.
Proof.
  split; [vm_compute; reflexivity|]. split; [vm_compute; reflexivity|].
  split.
  - destruct (typed_sector_never_power_plant typed_power_plant)
      as (_ & _ & _ & H & _).
    destruct (H 1.5 false "CRITICAL"%string) as (_ & Hc & _).
    rewrite Hc. vm_compute. reflexivity.
  - destruct (typed_sector_never_power_plant typed_apostrophe_n)
      as (_ & _ & _ & H & _).
    destruct (H 1.5 false "CRITICAL"%string) as (_ & Hc & _).
    rewrite Hc. vm_compute. reflexivity.
Defined.

(** ** Analytics: the efficiency score *)

Lemma clamp_round_cases :
  forall score : float,
    clamp_round score
    = if score <? 100 then
        if 0 <? score then PFloat (float_round score 1) else PInt 0
      else PInt 100.
Proof.
  intros score. unfold clamp_round, py_min, py_max, py_lt.
  change (to_float (PInt 100)) with 100.
  change (to_float (PFloat score)) with score.
  destruct (score <? 100); [|reflexivity].
  change (to_float (PInt 0)) with 0.
  change (to_float (PFloat score)) with score.
  destruct (0 <? score); reflexivity.
Qed.

(** *** The order of binary64 values, read on their decoded form *)

Lemma digits2_pos_size : forall p, digits2_pos p = Pos.size p.
Proof. induction p; simpl; congruence. Qed.

Lemma valid_mantissa_bound :
  forall (s : bool) (m : positive) (e : Z),
    valid_binary (S754_finite s m e) = true -> (Zpos m < 2 ^ 53)%Z.
Proof.
  intros s m e H.
  unfold SpecFloat.valid_binary, bounded, canonical_mantissa, fexp in H.
  apply andb_true_iff in H. destruct H as [H _]. apply Z.eqb_eq in H.
  rewrite digits2_pos_size in H.
  pose proof (Pos.size_gt m) as Hs.
  assert (Hd : (Zpos (Pos.size m) <= 53)%Z) by (unfold prec in H; lia).
  apply Pos2Z.pos_lt_pos in Hs. rewrite Pos2Z.inj_pow in Hs.
  eapply Z.lt_le_trans; [exact Hs|].
  apply Z.pow_le_mono_r; lia.
Qed.

Lemma Prim2SF_100 : Prim2SF 100 = S754_finite false m100 (-46).
Proof. reflexivity. Qed.

Lemma Prim2SF_0 : Prim2SF 0 = S754_zero false.
Proof. reflexivity. Qed.

(** A value strictly between 0 and 100 is a positive finite number whose
    magnitude [m * 2^e] has [e < 0] and [m < 100 * 2^(-e)]. *)
Lemma between_0_100 :
  forall x : float,
    (0 <? x) = true -> (x <? 100) = true ->
    exists m e,
      Prim2SF x = S754_finite false m e
      /\ (e < 0)%Z /\ (Zpos m < 100 * 2 ^ (- e))%Z.
Proof.
  intros x H0 H100.
  rewrite ltb_spec, Prim2SF_0 in H0. rewrite ltb_spec, Prim2SF_100 in H100.
  pose proof (Prim2SF_valid x) as Hv.
  destruct (Prim2SF x) as [s | s | | s m e]; try discriminate.
  - destruct s; discriminate.
  - destruct s; [discriminate|].
    exists m, e. split; [reflexivity|].
    apply valid_mantissa_bound in Hv.
    change (2 ^ 53)%Z with 9007199254740992%Z in Hv.
    unfold SFltb, SFcompare in H100.
    destruct (Z.compare_spec e (-46)) as [-> | Hlt | Hgt]; try discriminate.
    + split; [lia|].
      rewrite Pos.compare_cont_spec in H100. simpl in H100.
      destruct (Pos.compare_spec m m100) as [? | Hm | ?]; try discriminate.
      change (100 * 2 ^ (- -46))%Z with (Zpos m100).
      apply Pos2Z.pos_lt_pos. exact Hm.
    + split; [lia|].
      eapply Z.lt_le_trans; [exact Hv|].
      replace (- e)%Z with (47 + (- e - 47))%Z by lia.
      rewrite Z.pow_add_r by lia.
      assert (Hp : (0 < 2 ^ (- e - 47))%Z) by (apply Z.pow_pos_nonneg; lia).
      change (2 ^ 47)%Z with 140737488355328%Z.
      set (p := (2 ^ (- e - 47))%Z) in *. clearbody p. lia.
Qed.

Lemma div_half_even_bounds :
  forall num den bound : Z,
    (0 <= num)%Z -> (0 < den)%Z -> (num < bound * den)%Z ->
    (0 <= div_half_even num den <= bound)%Z.
Proof.
  intros num den bound Hn Hd Hb. unfold div_half_even.
  assert (Hq0 : (0 <= num / den)%Z) by (apply Z.div_pos; lia).
  assert (Hq1 : (num / den < bound)%Z)
    by (apply Z.div_lt_upper_bound; lia).
  destruct (2 * (num mod den) ?= den)%Z;
    [destruct (Z.even (num / den))| |]; lia.
Qed.

(** Rounding a value strictly between 0 and 100 to one decimal gives the
    binary64 value nearest to [n / 10] for some [n] from 0 to 1000. *)
Lemma float_round_between_0_100 :
  forall x : float,
    (0 <? x) = true -> (x <? 100) = true ->
    exists n : Z,
      (0 <= n <= 1000)%Z /\ float_round x 1 = nearest_decimal false n 1.
Proof.
  intros x H0 H100.
  destruct (between_0_100 x H0 H100) as (m & e & E & He & Hm).
  unfold float_round, scaled_magnitude. rewrite E.
  destruct (Z.leb_spec 0 e) as [? | _]; [lia|].
  eexists. split; [|reflexivity].
  apply div_half_even_bounds.
  - lia.
  - apply Z.pow_pos_nonneg; lia.
  - change (10 ^ 1)%Z with 10%Z. lia.
Qed.

Lemma tenths_in_range :
  forallb (fun i => tenth_in_range (Z.of_nat i)) (seq 0 1001) = true.
Proof. vm_compute. reflexivity. Qed.

Lemma tenth_in_range_upto_1000 :
  forall n : Z, (0 <= n <= 1000)%Z -> tenth_in_range n = true.
Proof.
  intros n Hn. pose proof tenths_in_range as H.
  rewrite forallb_forall in H.
  specialize (H (Z.to_nat n)). rewrite Z2Nat.id in H by lia.
  apply H. apply in_seq. lia.
Qed.

Lemma float_round_range :
  forall x : float,
    (0 <? x) = true -> (x <? 100) = true ->
    (0 <=? float_round x 1) = true /\ (float_round x 1 <=? 100) = true.
Proof.
  intros x H0 H100.
  destruct (float_round_between_0_100 x H0 H100) as (n & Hn & ->).
  apply andb_true_iff. apply (tenth_in_range_upto_1000 n Hn).
Qed.

Lemma efficiency_score_range :
  forall ratio : float,
    py_le (PInt 0) (EnergyAnalytics.efficiency_score ratio) = true
    /\ py_le (EnergyAnalytics.efficiency_score ratio) (PInt 100) = true.
Proof.
  intros ratio. unfold EnergyAnalytics.efficiency_score.
  fold (clamp_round (100 - abs (ratio - 1) * 75)).
  rewrite clamp_round_cases.
  destruct (_ <? 100) eqn:H100; [|split; reflexivity].
  destruct (0 <? _) eqn:H0; [|split; reflexivity].
  exact (float_round_range _ H0 H100).
Qed.

(** *** NaN is not produced by the arithmetic of the score *)

Lemma SFeqb_refl :
  forall p : spec_float, SFeqb p p = not_nan p.
Proof.
  intros [s | s | | s m e]; try (destruct s; reflexivity); try reflexivity.
  unfold SFeqb, SFcompare.
  rewrite Z.compare_refl, Pos.compare_cont_refl. destruct s; reflexivity.
Qed.

Lemma is_nan_spec :
  forall x : float, is_nan x = negb (not_nan (Prim2SF x)).
Proof.
  intros x. unfold is_nan. now rewrite eqb_spec, SFeqb_refl.
Qed.

Lemma shr_1_nonneg :
  forall mrs, (0 <= shr_m mrs)%Z -> (0 <= shr_m (shr_1 mrs))%Z.
Proof.
  intros [m r s] H. simpl in H.
  destruct m as [|p|p]; [| destruct p | lia]; simpl; lia.
Qed.

Lemma iter_shr_1_nonneg :
  forall p mrs,
    (0 <= shr_m mrs)%Z -> (0 <= shr_m (iter_pos shr_1 p mrs))%Z.
Proof.
  induction p as [p IH | p IH |]; intros mrs H; simpl.
  - apply IH, IH, shr_1_nonneg, H.
  - apply IH, IH, H.
  - apply shr_1_nonneg, H.
Qed.

Lemma shr_fexp_nonneg :
  forall m e l,
    (0 <= m)%Z -> (0 <= shr_m (fst (shr_fexp prec emax m e l)))%Z.
Proof.
  intros m e l H. unfold shr_fexp, shr.
  assert (H0 : (0 <= shr_m (shr_record_of_loc m l))%Z)
    by (destruct l as [|[]]; exact H).
  destruct (fexp prec emax (Zdigits2 m + e) - e)%Z; simpl; try exact H0.
  apply iter_shr_1_nonneg, H0.
Qed.

Lemma round_nearest_even_nonneg :
  forall m l, (0 <= m)%Z -> (0 <= round_nearest_even m l)%Z.
Proof.
  intros m l H. unfold round_nearest_even.
  destruct l as [|[]]; try destruct (Z.even m); lia.
Qed.

Lemma binary_round_aux_not_nan :
  forall sx mx ex lx,
    (0 <= mx)%Z -> not_nan (binary_round_aux prec emax sx mx ex lx) = true.
Proof.
  intros sx mx ex lx H. unfold binary_round_aux.
  pose proof (shr_fexp_nonneg mx ex lx H) as H1.
  destruct (shr_fexp prec emax mx ex lx) as [mrs' e']. simpl in H1.
  pose proof (shr_fexp_nonneg _ e' loc_Exact
                (round_nearest_even_nonneg _ (loc_of_shr_record mrs') H1)) as H2.
  destruct (shr_fexp prec emax _ e' loc_Exact) as [mrs'' e'']. simpl in H2.
  destruct (shr_m mrs''); [reflexivity | | lia].
  destruct (e'' <=? emax - prec)%Z; reflexivity.
Qed.

Lemma binary_normalize_not_nan :
  forall m e sz, not_nan (binary_normalize prec emax m e sz) = true.
Proof.
  intros m e sz. unfold binary_normalize, binary_round.
  destruct m as [|p|p]; [reflexivity | |];
    destruct (shl_align p e _) as [mz ez];
    apply binary_round_aux_not_nan; lia.
Qed.

Lemma SF64sub_not_nan :
  forall p q,
    not_nan p = true -> not_nan q = true ->
    finite_or_zero p || finite_or_zero q = true ->
    not_nan (SF64sub p q) = true.
Proof.
  intros p q Hp Hq Hf. unfold SF64sub, SFsub.
  destruct p as [sp | sp | | sp mp ep], q as [sq | sq | | sq mq eq];
    try discriminate; try reflexivity;
      try (destruct sp, sq; reflexivity).
  apply binary_normalize_not_nan.
Qed.

Lemma SF64mul_not_nan :
  forall p s m e,
    not_nan p = true -> not_nan (SF64mul p (S754_finite s m e)) = true.
Proof.
  intros p s m e Hp. unfold SF64mul, SFmul.
  destruct p as [sp | sp | | sp mp ep]; try discriminate; try reflexivity.
  apply binary_round_aux_not_nan. lia.
Qed.

Lemma SFabs_not_nan :
  forall p, not_nan (SFabs p) = not_nan p.
Proof. intros [| | |]; reflexivity. Qed.

Lemma score_not_nan :
  forall ratio : float,
    is_nan ratio = false -> is_nan (100 - abs (ratio - 1) * 75) = false.
Proof.
  intros ratio H. rewrite is_nan_spec in *.
  apply negb_false_iff in H. apply negb_false_iff.
  rewrite sub_spec. apply SF64sub_not_nan; [reflexivity | | reflexivity].
  rewrite mul_spec.
  change (Prim2SF 75) with (S754_finite false 5277655813324800 (-46)).
  apply SF64mul_not_nan.
  rewrite abs_spec, SFabs_not_nan, sub_spec.
  apply SF64sub_not_nan; [exact H | reflexivity |].
  apply orb_true_r.
Qed.

(** *** The clamp of the source against the clamp of the specification *)

Lemma float_round_fixed :
  float_round 0 1 = 0 /\ float_round 100 1 = 100.
Proof. split; reflexivity. Qed.

Lemma leb_0_eqb_refl :
  forall y : float, (0 <=? y) = true -> (y =? y) = true.
Proof.
  intros y H. rewrite leb_spec in H. rewrite eqb_spec, SFeqb_refl.
  destruct (Prim2SF y); try reflexivity. discriminate H.
Qed.

(** Comparisons read in the other direction. *)
Lemma compare_cont_swap :
  forall m q : positive,
    Pos.compare_cont Eq q m = CompOpp (Pos.compare_cont Eq m q).
Proof. intros m q. symmetry. apply (Pos.compare_cont_antisym m q Eq). Qed.

Lemma equal_to_100 : forall m e,
  SFltb (S754_finite false m e) (S754_finite false m100 (-46)) = false ->
  SFltb (S754_finite false m100 (-46)) (S754_finite false m e) = false ->
  S754_finite false m e = S754_finite false m100 (-46).
Proof.
  intros m e Ha Hd.
  unfold SFltb, SFcompare in Ha, Hd.
  rewrite (Z.compare_antisym e), (compare_cont_swap m) in Hd.
  destruct (e ?= -46)%Z eqn:Ce.
  - apply Z.compare_eq in Ce.
    destruct (Pos.compare_cont Eq m m100) eqn:Cm.
    + rewrite Pos.compare_cont_spec in Cm.
      destruct (m ?= m100)%positive eqn:Cmp; try discriminate Cm.
      apply Pos.compare_eq in Cmp.
      rewrite Ce, Cmp. reflexivity.
    + discriminate Ha.
    + discriminate Hd.
  - discriminate Ha.
  - discriminate Hd.
Qed.

Lemma clamp_round_refines_clamp :
  forall score : float,
    is_nan score = false ->
    (to_float (clamp_round score) =? float_round (clamp 0 100 score) 1) = true.
Proof.
  intros score Hnan. rewrite clamp_round_cases. unfold clamp.
  destruct (score <? 100) eqn:Ha; [destruct (0 <? score) eqn:Hb|].
  - (* strictly inside: the score itself is rounded *)
    destruct (float_round_range score Hb Ha) as [Hy _].
    destruct (between_0_100 score Hb Ha) as (m & e & E & He & Hm).
    assert (Hc : (score <? 0) = false).
    { rewrite ltb_spec, E. reflexivity. }
    assert (Hd : (100 <? score) = false).
    { pose proof Ha as Ha'. rewrite ltb_spec, E, Prim2SF_100 in Ha'.
      rewrite ltb_spec, E, Prim2SF_100.
      unfold SFltb, SFcompare in Ha' |- *.
      rewrite (Z.compare_antisym e), (compare_cont_swap m).
      destruct (e ?= -46)%Z; cbn [CompOpp] in Ha' |- *;
        try discriminate; try reflexivity.
      destruct (Pos.compare_cont Eq m m100); cbn [CompOpp] in Ha' |- *;
        try discriminate; reflexivity. }
    rewrite Hc, Hd. cbn [to_float]. apply leb_0_eqb_refl, Hy.
  - (* at or below zero *)
    cbn [to_float float_of_Z].
    destruct (score <? 0) eqn:Hc; [reflexivity|].
    rewrite ltb_spec in Ha, Hb, Hc. rewrite Prim2SF_0 in Hb, Hc.
    rewrite Prim2SF_100 in Ha.
    assert (Hd : (100 <? score) = false).
    { rewrite ltb_spec, Prim2SF_100.
      destruct (Prim2SF score) as [s | [] | | [] m e]; try discriminate;
        reflexivity. }
    rewrite Hd. unfold float_round. rewrite eqb_spec.
    destruct (Prim2SF score) as [s | [] | | [] m e] eqn:E; try discriminate.
    rewrite E. reflexivity.
  - (* at or above 100 *)
    change (to_float (PInt 100)) with 100.
    rewrite is_nan_spec in Hnan. apply negb_false_iff in Hnan.
    assert (Hc : (score <? 0) = false).
    { rewrite ltb_spec in *. rewrite Prim2SF_100 in Ha.
      destruct (Prim2SF score) as [s | [] | | [] m e]; try discriminate;
        reflexivity. }
    rewrite Hc.
    destruct (100 <? score) eqn:Hd; [reflexivity|].
    assert (E : score = 100).
    { apply Prim2SF_inj. rewrite Prim2SF_100.
      rewrite ltb_spec in Ha, Hd. rewrite Prim2SF_100 in Ha, Hd.
      destruct (Prim2SF score) as [s | [] | | [] m e]; try discriminate.
      apply equal_to_100; assumption. }
    rewrite E. reflexivity.
Qed.

(** *** Rounding to one decimal *)

Lemma tenths_are_quotients :
  forallb (fun i => tenth_is_quotient (Z.of_nat i)) (seq 0 1001) = true.
Proof. vm_compute. reflexivity. Qed.

(** The value a rounding to one decimal ends on is the float quotient
    [n / 10]. *)
Lemma nearest_decimal_tenths :
  forall n : Z, (0 <= n <= 1000)%Z -> nearest_decimal false n 1 = tenths n.
Proof.
  intros n Hn. pose proof tenths_are_quotients as H.
  rewrite forallb_forall in H.
  specialize (H (Z.to_nat n)). rewrite Z2Nat.id in H by lia.
  apply Leibniz.eqb_spec. apply H. apply in_seq. lia.
Qed.

(** Rounding a value strictly between 0 and 100 to one decimal gives
    [n / 10] for the integer [n] nearest to ten times the value, the even one
    on a tie. *)
Lemma float_round_half_even_tenth :
  forall x : float,
    (0 <? x) = true -> (x <? 100) = true ->
    exists (n : Z) (m : positive) (e : Z),
      Prim2SF x = S754_finite false m e
      /\ (e < 0)%Z
      /\ (0 <= n <= 1000)%Z
      /\ nearest_even_to n (Zpos m * 10) (2 ^ (- e))
      /\ float_round x 1 = tenths n.
Proof.
  intros x H0 H100.
  destruct (between_0_100 x H0 H100) as (m & e & E & He & Hm).
  exists (div_half_even (Zpos m * 10) (2 ^ (- e))), m, e.
  assert (Hp : (0 < 2 ^ (- e))%Z) by (apply Z.pow_pos_nonneg; lia).
  assert (Hb : (0 <= div_half_even (Zpos m * 10) (2 ^ (- e)) <= 1000)%Z)
    by (apply div_half_even_bounds; lia).
  split; [exact E|]. split; [exact He|]. split; [exact Hb|]. split.
  - apply div_half_even_nearest_even; lia.
  - rewrite <- nearest_decimal_tenths by exact Hb.
    unfold float_round, scaled_magnitude. rewrite E.
    destruct (Z.leb_spec 0 e) as [? | _]; [lia | reflexivity].
Qed.

(** C5: for every ratio the score lies between 0 and 100; for every ratio
    that is a number it is the formula [100 - |ratio - 1| * 75] clamped to
    [0, 100] and rounded to one decimal; at ratio 1.0 it is 100.  Clamped and
    rounded means: the int 100 when the formula gives 100 or more (or is not
    a number), the int 0 when it gives 0 or less, and otherwise the float
    [n / 10] where [n] is the integer nearest to ten times what the formula
    gives, the even one on a tie. *)
Theorem efficiency_score_clamped_and_rounded :
  forall ratio : float,
    (py_le (PInt 0) (EnergyAnalytics.efficiency_score ratio) = true
     /\ py_le (EnergyAnalytics.efficiency_score ratio) (PInt 100) = true)
    /\ (is_nan ratio = false ->
        py_eq (EnergyAnalytics.efficiency_score ratio)
              (PFloat (efficiency_score_spec ratio)) = true)
    /\ EnergyAnalytics.efficiency_score 1.0 = PInt 100
    /\ py_eq (EnergyAnalytics.efficiency_score 1.0) (PFloat 100.0) = true
    /\ (let raw := 100 - abs (ratio - 1) * 75 in
        ((raw <? 100) = false ->
         EnergyAnalytics.efficiency_score ratio = PInt 100)
        /\ ((raw <? 100) = true -> (0 <? raw) = false ->
            EnergyAnalytics.efficiency_score ratio = PInt 0)
        /\ ((0 <? raw) = true -> (raw <? 100) = true ->
            exists (n : Z) (m : positive) (e : Z),
              Prim2SF raw = S754_finite false m e
              /\ (e < 0)%Z
              /\ (0 <= n <= 1000)%Z
              /\ nearest_even_to n (Zpos m * 10) (2 ^ (- e))
              /\ EnergyAnalytics.efficiency_score ratio
                 = PFloat (tenths n))).
Proof.
  intros ratio. split; [apply efficiency_score_range|].
  split; [|split; [reflexivity|split; [reflexivity|]]].
  - intros Hnan. unfold efficiency_score_spec.
    pose proof (clamp_round_refines_clamp _ (score_not_nan ratio Hnan)) as H.
    unfold EnergyAnalytics.efficiency_score.
    fold (clamp_round (100 - abs (ratio - 1) * 75)).
    destruct (clamp_round _); exact H.
  - intros raw. unfold EnergyAnalytics.efficiency_score.
    fold raw. fold (clamp_round raw). rewrite clamp_round_cases.
    split; [|split].
    + intros ->. reflexivity.
    + intros -> ->. reflexivity.
    + intros H0 H100. rewrite H0, H100.
      destruct (float_round_half_even_tenth raw H0 H100)
        as (n & m & e & E & He & Hn & Hnear & ->).
      exists n, m, e. repeat split; assumption || apply Hn || apply Hnear.
Qed.

(** The score at 1.1, where the formula gives 92.5; at 1.25, where it gives
    81.25, halfway between 81.2 and 81.3; out of range at 3 and at NaN. *)
Lemma efficiency_score_clamped_and_rounded_witness :
  py_eq (EnergyAnalytics.efficiency_score 1.1)
        (PFloat (efficiency_score_spec 1.1)) = true
  /\ efficiency_score_spec 1.1 = 92.5
  /\ EnergyAnalytics.efficiency_score 3 = PInt 0
  /\ EnergyAnalytics.efficiency_score nan = PInt 100
  /\ EnergyAnalytics.efficiency_score 1.25 = PFloat 81.2.
Proof.
  destruct (efficiency_score_clamped_and_rounded 1.1) as (_ & H & _).
  destruct (efficiency_score_clamped_and_rounded 3)
    as (_ & _ & _ & _ & _ & H3 & _).
  destruct (efficiency_score_clamped_and_rounded nan)
    as (_ & _ & _ & _ & Hn & _).
  destruct (efficiency_score_clamped_and_rounded 1.25)
    as (_ & _ & _ & _ & _ & _ & Hq).
  split; [apply H; reflexivity|]. split; [reflexivity|].
  split; [apply H3; reflexivity|]. split; [apply Hn; reflexivity|].
  destruct (Hq eq_refl eq_refl)
    as (n & m & e & E & _ & Hb & [Hnear Htie] & ->).
  change (Prim2SF (100 - abs (1.25 - 1) * 75))
    with (S754_finite false 5717460464435200 (-46)) in E.
  injection E as Em Ee. rewrite <- Em, <- Ee in Hnear, Htie.
  unfold nearest_to in Hnear.
  change (2 ^ (- -46))%Z with 70368744177664%Z in Hnear, Htie.
  assert (Hc : n = 812%Z \/ n = 813%Z) by lia.
  destruct Hc as [Hc | Hc]; rewrite Hc in *.
  - reflexivity.
  - discriminate (Htie eq_refl).
Defined.

(** * Further properties *)

(** ** The order of binary64 values is transitive *)

Lemma compare_cont_Eq :
  forall p q : positive, Pos.compare_cont Eq p q = (p ?= q)%positive.
Proof. intros p q. rewrite Pos.compare_cont_spec. now destruct (p ?= q)%positive. Qed.

Lemma magnitude_compare_spec :
  forall m1 e1 m2 e2,
    CompareSpec (e1 = e2 /\ m1 = m2)
                ((e1 < e2)%Z \/ (e1 = e2 /\ (m1 < m2)%positive))
                ((e2 < e1)%Z \/ (e1 = e2 /\ (m2 < m1)%positive))
                (magnitude_compare m1 e1 m2 e2).
Proof.
  intros m1 e1 m2 e2. unfold magnitude_compare. rewrite compare_cont_Eq.
  destruct (Z.compare_spec e1 e2); [|constructor; lia|constructor; lia].
  destruct (Pos.compare_spec m1 m2); constructor; lia.
Qed.

Lemma SFcompare_finite :
  forall s1 m1 e1 s2 m2 e2,
    SFcompare (S754_finite s1 m1 e1) (S754_finite s2 m2 e2)
    = Some (match s1, s2 with
            | true, false => Lt
            | false, true => Gt
            | false, false => magnitude_compare m1 e1 m2 e2
            | true, true => CompOpp (magnitude_compare m1 e1 m2 e2)
            end).
Proof.
  intros s1 m1 e1 s2 m2 e2. unfold SFcompare, magnitude_compare.
  destruct s1, s2; try reflexivity; destruct (e1 ?= e2)%Z; reflexivity.
Qed.

Lemma SFleb_trans :
  forall a b c : spec_float,
    SFleb a b = true -> SFleb b c = true -> SFleb a c = true.
Proof.
  intros a b c. unfold SFleb.
  destruct a as [sa | sa | | sa ma ea], b as [sb | sb | | sb mb eb],
    c as [sc | sc | | sc mc ec];
    try (cbn; discriminate); try (cbn; reflexivity);
    try (destruct sa, sb, sc; cbn; (discriminate || reflexivity)).
  rewrite !SFcompare_finite.
  destruct sa, sb, sc; try discriminate; try reflexivity;
    destruct (magnitude_compare_spec ma ea mb eb);
    destruct (magnitude_compare_spec mb eb mc ec);
    destruct (magnitude_compare_spec ma ea mc ec);
    cbn; try discriminate; try reflexivity; intros _ _; exfalso; lia.
Qed.

Lemma leb_trans :
  forall x y z : float,
    (x <=? y) = true -> (y <=? z) = true -> (x <=? z) = true.
Proof. intros x y z. rewrite !leb_spec. apply SFleb_trans. Qed.

(** ** Not a number *)

Lemma is_nan_eq : forall x : float, is_nan x = true -> x = nan.
Proof.
  intros x H. rewrite is_nan_spec in H. apply negb_true_iff in H.
  rewrite <- (SF2Prim_Prim2SF x).
  destruct (Prim2SF x); try discriminate H. reflexivity.
Qed.

Lemma ltb_nan_r : forall x : float, (x <? nan) = false.
Proof.
  intros x. rewrite ltb_spec. change (Prim2SF nan) with S754_nan.
  unfold SFltb. now destruct (Prim2SF x) as [[]|[]| |[] ? ?].
Qed.

Lemma ltb_nan_l : forall x : float, (nan <? x) = false.
Proof. intros x. rewrite ltb_spec. reflexivity. Qed.

Lemma leb_nan_r : forall x : float, (x <=? nan) = false.
Proof.
  intros x. rewrite leb_spec. change (Prim2SF nan) with S754_nan.
  unfold SFleb. now destruct (Prim2SF x) as [[]|[]| |[] ? ?].
Qed.

Lemma div_nan_l : forall y : float, nan / y = nan.
Proof.
  intros y. apply Prim2SF_inj. rewrite div_spec. reflexivity.
Qed.

(** ** Analytics: the alert never eases as the ratio grows *)

(** X1: the alert never eases when the ratio grows or an anomaly appears:
    for [r1 <= r2], and [a2] holding whenever [a1] does, the alert for
    [(r2, a2)] is at least as severe as the alert for [(r1, a1)]. *)
Theorem alert_level_monotone :
  forall (r1 r2 : float) (a1 a2 : bool),
    (r1 <=? r2) = true ->
    implb a1 a2 = true ->
    (severity (EnergyAnalytics.alert_level r1 a1)
     <= severity (EnergyAnalytics.alert_level r2 a2))%nat.
Proof.
  intros r1 r2 a1 a2 Hr Ha. unfold EnergyAnalytics.alert_level.
  pose proof (fun c H => leb_trans c r1 r2 H Hr) as Hup.
  destruct (1.35 <=? r1) eqn:H1.
  - rewrite (Hup _ H1). cbn. lia.
  - destruct a1; cbn [orb implb] in *.
    + subst a2. rewrite orb_true_r. cbn. lia.
    + destruct (1.15 <=? r1) eqn:H2.
      * rewrite (Hup _ H2).
        destruct ((1.35 <=? r2) || a2); cbn; lia.
      * cbn. lia.
Qed.

Lemma alert_level_monotone_witness :
  (severity (EnergyAnalytics.alert_level 1.2 false)
   <= severity (EnergyAnalytics.alert_level 1.4 false))%nat.
Proof.
  apply alert_level_monotone; reflexivity.
Defined.

(** ** Analytics: anomalies and NaN *)

Lemma anomaly_detected_nan_usage :
  forall (record : EnergyRecord) (history : EnergyHistory.t),
    is_nan (usage record) = true ->
    EnergyAnalytics.anomaly_detected record history = false.
Proof.
  intros record history H. apply is_nan_eq in H.
  unfold EnergyAnalytics.anomaly_detected. rewrite H.
  destruct (rev _); [reflexivity | apply ltb_nan_r].
Qed.

(** X2: a reading whose usage is NaN is never an anomaly, and no reading
    is an anomaly against a last record whose usage is NaN. *)
Theorem anomaly_detected_blind_to_nan :
  forall (record previous : EnergyRecord) (history : EnergyHistory.t),
    (is_nan (usage record) = true ->
     EnergyAnalytics.anomaly_detected record history = false)
    /\ (is_nan (usage previous) = true ->
        EnergyAnalytics.anomaly_detected record
          (EnergyHistory.add history previous) = false).
Proof.
  intros record previous history. split; intros H.
  - now apply anomaly_detected_nan_usage.
  - apply is_nan_eq in H. rewrite anomaly_detected_add, H. apply ltb_nan_l.
Qed.

Lemma anomaly_detected_blind_to_nan_witness :
  EnergyAnalytics.anomaly_detected (reading nan)
    (EnergyHistory.mk [reading 1]) = false
  /\ EnergyAnalytics.anomaly_detected (reading 1000000)
       (EnergyHistory.add EnergyHistory.init (reading nan)) = false.
Proof.
  destruct (anomaly_detected_blind_to_nan (reading nan) (reading nan)
              (EnergyHistory.mk [reading 1])) as (H1 & _).
  destruct (anomaly_detected_blind_to_nan (reading 1000000) (reading nan)
              EnergyHistory.init) as (_ & H2).
  split; [apply H1 | apply H2]; reflexivity.
Defined.

(** ** Analytics: the score is a number of tenths *)

Lemma tenths_stable :
  forallb (fun i => tenth_stable (Z.of_nat i)) (seq 0 1001) = true.
Proof. vm_compute. reflexivity. Qed.

Lemma tenth_stable_upto_1000 :
  forall n : Z,
    (0 <= n <= 1000)%Z ->
    float_round (nearest_decimal false n 1) 1 = nearest_decimal false n 1.
Proof.
  intros n Hn. pose proof tenths_stable as H.
  rewrite forallb_forall in H.
  specialize (H (Z.to_nat n)). rewrite Z2Nat.id in H by lia.
  apply Leibniz.eqb_spec. apply H. apply in_seq. lia.
Qed.

Lemma float_round_nearest_tenth :
  forall x : float,
    (0 <? x) = true -> (x <? 100) = true ->
    exists (n : Z) (m : positive) (e : Z),
      Prim2SF x = S754_finite false m e
      /\ (e < 0)%Z
      /\ (0 <= n <= 1000)%Z
      /\ nearest_to n (Zpos m * 10) (2 ^ (- e))
      /\ float_round x 1 = nearest_decimal false n 1.
Proof.
  intros x H0 H100.
  destruct (between_0_100 x H0 H100) as (m & e & E & He & Hm).
  exists (div_half_even (Zpos m * 10) (2 ^ (- e))), m, e.
  assert (Hp : (0 < 2 ^ (- e))%Z) by (apply Z.pow_pos_nonneg; lia).
  split; [exact E|]. split; [exact He|]. split; [|split].
  - apply div_half_even_bounds; lia.
  - apply div_half_even_nearest; lia.
  - unfold float_round, scaled_magnitude. rewrite E.
    destruct (Z.leb_spec 0 e) as [? | _]; [lia | reflexivity].
Qed.

(** X3: the score is the int 0, the int 100, or the binary64 value nearest
    to [n / 10] where [n], from 0 to 1000, is an integer nearest to ten times
    the raw score; rounding it once more changes nothing. *)
Theorem efficiency_score_in_tenths :
  forall ratio : float,
    let score := 100 - abs (ratio - 1) * 75 in
    (EnergyAnalytics.efficiency_score ratio = PInt 0
     \/ EnergyAnalytics.efficiency_score ratio = PInt 100
     \/ exists (n : Z) (m : positive) (e : Z),
          Prim2SF score = S754_finite false m e
          /\ (e < 0)%Z
          /\ (0 <= n <= 1000)%Z
          /\ nearest_to n (Zpos m * 10) (2 ^ (- e))
          /\ EnergyAnalytics.efficiency_score ratio
             = PFloat (nearest_decimal false n 1))
    /\ py_round1 (EnergyAnalytics.efficiency_score ratio)
       = EnergyAnalytics.efficiency_score ratio.
Proof.
  intros ratio score. unfold EnergyAnalytics.efficiency_score.
  fold score. fold (clamp_round score).
  rewrite clamp_round_cases.
  destruct (score <? 100) eqn:H100; [|split; [right; left|]; reflexivity].
  destruct (0 <? score) eqn:H0; [|split; [left|]; reflexivity].
  destruct (float_round_nearest_tenth _ H0 H100)
    as (n & m & e & E & He & Hn & Hnear & ->).
  split.
  - right. right. exists n, m, e. repeat split; assumption || apply Hn.
  - cbn [py_round1]. now rewrite tenth_stable_upto_1000.
Qed.

(** ** History: adding and averaging *)

Lemma sum_usage_add :
  forall (rs : list EnergyRecord) (r : EnergyRecord),
    EnergyHistory.sum_usage (rs ++ [r])
    = EnergyHistory.sum_usage rs + usage r.
Proof.
  intros rs r. unfold EnergyHistory.sum_usage.
  now rewrite fold_left_app.
Qed.

(** X4: adding a record puts it after the stored ones and nothing else;
    the trend average of the result is unavailable exactly when the history
    was empty, and otherwise is the float sum so far plus the new usage,
    divided by the new count. *)
Theorem trend_average_after_add :
  forall (history : EnergyHistory.t) (record : EnergyRecord),
    let n := List.length (EnergyHistory.records history) in
    EnergyHistory.records (EnergyHistory.add history record)
    = EnergyHistory.records history ++ [record]
    /\ (EnergyHistory.trend_average (EnergyHistory.add history record) = None
        <-> EnergyHistory.records history = [])
    /\ (EnergyHistory.records history <> [] ->
        EnergyHistory.trend_average (EnergyHistory.add history record)
        = Some ((EnergyHistory.sum_usage (EnergyHistory.records history)
                 + usage record)
                / float_of_Z (Z.of_nat (S n)))).
Proof.
  intros history record n. split; [reflexivity|].
  unfold EnergyHistory.trend_average, EnergyHistory.add.
  cbn [EnergyHistory.records].
  rewrite length_app, sum_usage_add. cbn [List.length]. fold n.
  rewrite Nat.add_1_r.
  assert (Hn : n = O <-> EnergyHistory.records history = [])
    by apply length_zero_iff_nil.
  split.
  - destruct (Z.ltb_spec (Z.of_nat (S n)) 2); split; intros H';
      try discriminate; try reflexivity.
    + apply Hn. lia.
    + apply Hn in H'. lia.
  - intros Hne. destruct (Z.ltb_spec (Z.of_nat (S n)) 2); [|reflexivity].
    exfalso. apply Hne, Hn. lia.
Qed.

Lemma trend_average_after_add_witness :
  EnergyHistory.trend_average
    (EnergyHistory.add (EnergyHistory.mk [reading 100; reading 110])
       (reading 120))
  = Some 110.
Proof.
  destruct (trend_average_after_add
              (EnergyHistory.mk [reading 100; reading 110]) (reading 120))
    as (_ & _ & H).
  rewrite H; [reflexivity | discriminate].
Defined.

(** ** The decision engine: what every decision looks like *)

(** X5: every plan holds from one to four actions, in order of
    non-increasing urgency (IMMEDIATE, HIGH, MEDIUM, LOW), and no other
    priority level occurs. *)
Theorem plan_sorted_by_priority :
  forall (record : EnergyRecord) (ratio : float) (anomaly : bool)
         (alert : string),
    let plan := actions_of (KeenAIBrain.decide record ratio anomaly alert) in
    (1 <= List.length plan <= 4)%nat
    /\ non_increasing (map (fun a => priority_rank (fst a)) plan) = true
    /\ forallb (fun a => mentions ["IMMEDIATE"; "HIGH"; "MEDIUM"; "LOW"]%string
                           (fst a)) plan = true.
Proof.
  intros record ratio anomaly alert plan. subst plan.
  rewrite decide_actions. unfold fired.
  destruct (String.eqb alert "CRITICAL"), (String.eqb alert "WARNING"),
    (sunlight record), (is_factory record || is_power_plant record);
    cbn; repeat split; lia.
Qed.

(** X6: the reasons start with the ratio line and are at most five; the
    spike line is among them exactly when [anomaly] holds; the confidence is
    30 plus 15 if the cooling line is among them, plus 20 for each of the
    sunlight, waste and grid lines among them, so it is one of 30, 45, 50,
    65, 70 and 85. *)
Theorem confidence_counts_the_reasons :
  forall (record : EnergyRecord) (ratio : float) (anomaly : bool)
         (alert : string),
    let d := KeenAIBrain.decide record ratio anomaly alert in
    hd_error (reasons_of d) = Some (KeenAIBrain.ratio_line ratio)
    /\ (1 <= List.length (reasons_of d) <= 5)%nat
    /\ mentions (reasons_of d) spike_line = anomaly
    /\ confidence_of d
       = (30 + weight (mentions (reasons_of d) cooling_line) 15
             + weight (mentions (reasons_of d) sunlight_line) 20
             + weight (mentions (reasons_of d) waste_line) 20
             + weight (mentions (reasons_of d) grid_line) 20)%Z
    /\ In (confidence_of d) [30; 45; 50; 65; 70; 85]%Z.
Proof.
  intros record ratio anomaly alert d. subst d.
  rewrite decide_reasons, decide_confidence.
  pose proof (factory_not_power_plant record) as Hx.
  unfold fired, weight, mentions.
  destruct anomaly, (hot record), (sunny_day record), (is_factory record),
    (is_power_plant record); try discriminate Hx;
    cbn; repeat split; try lia; tauto.
Qed.

(** X7: [decide] reads the record only through its four tests: two
    records that agree on [temperature > 30], on [sunlight], on
    [time == "Day"] and on the two sector tests get the same reasons, actions
    and confidence; usage and expected average play no part. *)
Theorem decide_reads_context_only :
  forall (r1 r2 : EnergyRecord) (ratio : float) (anomaly : bool)
         (alert : string),
    (30 <? temperature r1) = (30 <? temperature r2) ->
    sunlight r1 = sunlight r2 ->
    String.eqb (time r1) "Day" = String.eqb (time r2) "Day" ->
    String.eqb (sector r1) "Factory" = String.eqb (sector r2) "Factory" ->
    String.eqb (sector r1) "Power Plant"
    = String.eqb (sector r2) "Power Plant" ->
    KeenAIBrain.decide r1 ratio anomaly alert
    = KeenAIBrain.decide r2 ratio anomaly alert.
Proof.
  intros r1 r2 ratio anomaly alert Ht Hs Hd Hf Hp.
  rewrite !decide_closed_form.
  unfold hot, sunny_day, is_factory, is_power_plant.
  now rewrite Ht, Hs, Hd, Hf, Hp.
Qed.

Lemma decide_reads_context_only_witness :
  KeenAIBrain.decide (mkEnergyRecord 130 100 "Factory" "Day" true 35)
    1.3 false "WARNING"
  = KeenAIBrain.decide (mkEnergyRecord 7 (-3) "Factory" "Day" true 99)
      1.3 false "WARNING".
Proof.
  apply decide_reads_context_only; reflexivity.
Defined.

(** X8: for a finite ratio, zero of either sign included, the ratio line
    reads "Usage is ", a minus sign if the sign bit of the ratio is set, at
    least one digit, a point, two digits and "× expected level"; the digits
    read as an integer are a nearest integer to a hundred times the magnitude
    of the ratio. *)
Theorem ratio_line_two_decimals :
  forall ratio : float,
    finite_or_zero (Prim2SF ratio) = true ->
    exists (n : Z) (whole : string) (d1 d2 : ascii),
      KeenAIBrain.ratio_line ratio
      = ("Usage is " ++ (if negative (Prim2SF ratio) then "-" else "")
           ++ whole ++ "." ++ String d1 (String d2 "")
           ++ "× expected level")%string
      /\ whole <> EmptyString
      /\ all_digits (whole ++ String d1 (String d2 "")) = true
      /\ number_of (whole ++ String d1 (String d2 "")) = n
      /\ match Prim2SF ratio with
         | S754_finite _ m e =>
             if (0 <=? e)%Z then n = (Zpos m * 2 ^ e * 100)%Z
             else nearest_to n (Zpos m * 100) (2 ^ (- e))
         | _ => n = 0%Z
         end.
Proof.
  intros ratio Hfin.
  unfold KeenAIBrain.ratio_line, format_2f.
  destruct (Prim2SF ratio) as [s | s | | s m e]; try discriminate Hfin;
    cbn [negative].
  - destruct (fixed2_shape s 0 (Z.le_refl 0))
      as (whole & d1 & d2 & E & Hw & Ha & _ & Hv).
    exists 0%Z, whole, d1, d2. rewrite E, !string_app_assoc.
    repeat split; assumption.
  - destruct (fixed2_shape s (scaled_magnitude 2 m e))
      as (whole & d1 & d2 & E & Hw & Ha & _ & Hv);
      [apply scaled_magnitude_nonneg; lia|].
    exists (scaled_magnitude 2 m e), whole, d1, d2.
    rewrite E, !string_app_assoc.
    split; [reflexivity|]. split; [exact Hw|]. split; [exact Ha|].
    split; [exact Hv|].
    pose proof (scaled_magnitude_nearest 2 m e) as H.
    change (10 ^ 2)%Z with 100%Z in H.
    destruct (0 <=? e)%Z; apply H; lia.
Qed.

Lemma ratio_line_two_decimals_witness :
  (exists (n : Z) (whole : string) (d1 d2 : ascii),
     KeenAIBrain.ratio_line 1.005
     = ("Usage is " ++ whole ++ "." ++ String d1 (String d2 "")
          ++ "× expected level")%string
     /\ number_of (whole ++ String d1 (String d2 "")) = n
     /\ n = 100%Z)
  /\ (exists (n : Z) (whole : string) (d1 d2 : ascii),
        KeenAIBrain.ratio_line 0
        = ("Usage is " ++ whole ++ "." ++ String d1 (String d2 "")
             ++ "× expected level")%string
        /\ number_of (whole ++ String d1 (String d2 "")) = n
        /\ n = 0%Z)
  /\ (exists (n : Z) (whole : string) (d1 d2 : ascii),
        KeenAIBrain.ratio_line (-0)
        = ("Usage is -" ++ whole ++ "." ++ String d1 (String d2 "")
             ++ "× expected level")%string
        /\ number_of (whole ++ String d1 (String d2 "")) = n
        /\ n = 0%Z).
Proof.
  split; [|split].
  - destruct (ratio_line_two_decimals 1.005 eq_refl)
      as (n & whole & d1 & d2 & Hl & _ & _ & Hn & Hnear).
    exists n, whole, d1, d2. split; [exact Hl|]. split; [exact Hn|].
    cbn in Hnear. unfold nearest_to in Hnear. lia.
  - destruct (ratio_line_two_decimals 0 eq_refl)
      as (n & whole & d1 & d2 & Hl & _ & _ & Hn & Hz).
    exists n, whole, d1, d2. split; [exact Hl|]. split; [exact Hn | exact Hz].
  - destruct (ratio_line_two_decimals (-0) eq_refl)
      as (n & whole & d1 & d2 & Hl & _ & _ & Hn & Hz).
    exists n, whole, d1, d2. split; [exact Hl|]. split; [exact Hn | exact Hz].
Defined.

(** ** The answers typed at the console *)

Lemma str_eqb_eq : forall a b : str, str_eqb a b = true <-> a = b.
Proof.
  intros a b. unfold str_eqb.
  destruct (list_eq_dec N.eq_dec a b); split; congruence.
Qed.

Lemma same_letter_F : forall c : N, same_letter 0x46 0x66 0x61 c = true.
Proof.
  apply by_case_points; [vm_compute; reflexivity|].
  intros c Hl Ht _ _. unfold same_letter. rewrite Hl, Ht.
  destruct (N.eqb_spec c 0x46) as [-> | _];
    [vm_compute in Hl; discriminate Hl|].
  destruct (N.eqb_spec c 0x66) as [-> | _];
    [vm_compute in Ht; discriminate Ht|].
  reflexivity.
Qed.

Lemma same_letter_D : forall c : N, same_letter 0x44 0x64 0x61 c = true.
Proof.
  apply by_case_points; [vm_compute; reflexivity|].
  intros c Hl Ht _ _. unfold same_letter. rewrite Hl, Ht.
  destruct (N.eqb_spec c 0x44) as [-> | _];
    [vm_compute in Hl; discriminate Hl|].
  destruct (N.eqb_spec c 0x64) as [-> | _];
    [vm_compute in Ht; discriminate Ht|].
  reflexivity.
Qed.

Lemma space_not_y_all : forall c : N, space_not_y c = true.
Proof.
  apply by_case_points; [vm_compute; reflexivity|].
  intros c _ _ Hs _. unfold space_not_y. now rewrite Hs.
Qed.

(** A str is capitalized to a capital letter followed by [a :: w] exactly
    when it is lowered to the small letter followed by [a :: w]. *)
Lemma capitalize_iff_lower :
  forall (U u a : N) (w l : str),
    (forall c : N, same_letter U u a c = true) ->
    (u <? 0x80)%N = true ->
    capitalize l = U :: a :: w <-> lower l = u :: a :: w.
Proof.
  intros U u a w l Hsame Hu. apply N.ltb_lt in Hu.
  destruct l as [|c l]; [split; discriminate|].
  specialize (Hsame c). unfold same_letter in Hsame.
  apply andb_true_iff in Hsame. destruct Hsame as [Ht Hl].
  unfold lower. cbn [capitalize lower_from]. unfold lower_char at 1.
  split; intros E.
  - destruct (to_title_full c) as [|x [|y r]]; [discriminate Ht | |];
      cbn [app] in E.
    + injection E as -> E. rewrite N.eqb_refl in Ht.
      apply andb_true_iff in Ht. destruct Ht as [Ht Hc].
      apply str_eqb_eq in Ht. apply negb_true_iff in Hc.
      rewrite Hc, Ht, E. reflexivity.
    + injection E as -> -> _. rewrite !N.eqb_refl in Ht. discriminate Ht.
  - destruct (N.eqb_spec c 0x3A3) as [-> | _].
    + exfalso. cbn [app] in E. injection E as E _.
      destruct (final_sigma [] l); lia.
    + destruct (to_lower_full c) as [|x [|y r]]; [discriminate Hl | |];
        cbn [app] in E.
      * injection E as -> E. rewrite N.eqb_refl in Hl.
        apply str_eqb_eq in Hl. rewrite Hl, E. reflexivity.
      * injection E as -> -> _. rewrite !N.eqb_refl in Hl. discriminate Hl.
Qed.

(** Comparing the text of a str with an ASCII literal. *)
Lemma encode_utf8_eqb :
  forall (l : str) (s : string),
    is_ascii s = true ->
    String.eqb (encode_utf8 l) s = str_eqb l (code_points s).
Proof.
  intros l s Hs.
  destruct (String.eqb_spec (encode_utf8 l) s) as [E | E];
    destruct (str_eqb l (code_points s)) eqn:B; try reflexivity.
  - apply encode_utf8_ascii in E; [|exact Hs].
    apply str_eqb_eq in E. congruence.
  - apply str_eqb_eq in B. subst l.
    rewrite code_points_encode in E by exact Hs. contradiction.
Qed.

Lemma capitalize_eqb_lower :
  forall (U u a : N) (w l : str),
    (forall c : N, same_letter U u a c = true) ->
    (u <? 0x80)%N = true ->
    str_eqb (capitalize l) (U :: a :: w) = str_eqb (lower l) (u :: a :: w).
Proof.
  intros U u a w l Hsame Hu.
  pose proof (capitalize_iff_lower U u a w l Hsame Hu) as [H1 H2].
  destruct (str_eqb (capitalize l) _) eqn:B1;
    destruct (str_eqb (lower l) _) eqn:B2; try reflexivity.
  - apply str_eqb_eq, H1, str_eqb_eq in B1. congruence.
  - apply str_eqb_eq, H2, str_eqb_eq in B2. congruence.
Qed.

(** A str that begins with white space is not lowered to "yes". *)
Lemma lower_space_not_yes :
  forall (c : N) (rest : str),
    is_space c = true -> lower (c :: rest) <> code_points "yes".
Proof.
  intros c rest Hc E. unfold lower in E. cbn [lower_from] in E.
  unfold lower_char in E.
  destruct (N.eqb_spec c 0x3A3) as [-> | _];
    [vm_compute in Hc; discriminate Hc|].
  pose proof (space_not_y_all c) as H. unfold space_not_y in H.
  rewrite Hc in H. cbn [andb] in H.
  destruct (to_lower_full c) as [|x r]; [discriminate H|].
  cbn [app] in E. injection E as -> _. discriminate H.
Qed.

(** X9: the Factory rule fires exactly when the sector answer, stripped
    and lowered, is "factory", and the Day test holds exactly when the time
    answer, stripped and lowered, is "day"; the sunlight answer is lowered
    but not stripped, so an answer that starts with white space, Unicode
    white space included, counts as no. *)
Theorem answers_matched_without_case :
  forall inp : console_input,
    let record := read_record inp in
    String.eqb (sector record) "Factory"
    = String.eqb (encode_utf8 (lower (strip (input (sector_in inp)))))
        "factory"
    /\ String.eqb (time record) "Day"
       = String.eqb (encode_utf8 (lower (strip (input (time_in inp))))) "day"
    /\ sunlight record
       = String.eqb (encode_utf8 (lower (input (sunlight_in inp)))) "yes"
    /\ (forall (c : N) (rest : str),
          input (sunlight_in inp) = c :: rest -> is_space c = true ->
          sunlight record = false).
Proof.
  intros inp record. subst record. cbn [read_record sector time sunlight].
  split; [|split; [|split; [reflexivity|]]].
  3: { intros c rest E Hc. rewrite E.
       rewrite encode_utf8_eqb by reflexivity.
       destruct (str_eqb _ _) eqn:B; [|reflexivity].
       apply str_eqb_eq in B. now apply lower_space_not_yes in B. }
  - rewrite !encode_utf8_eqb by reflexivity.
    apply (capitalize_eqb_lower 0x46 0x66 0x61 (code_points "ctory"));
      [apply same_letter_F | reflexivity].
  - rewrite !encode_utf8_eqb by reflexivity.
    apply (capitalize_eqb_lower 0x44 0x64 0x61 (code_points "y"));
      [apply same_letter_D | reflexivity].
Qed.

Lemma answers_matched_without_case_witness :
  String.eqb (sector (read_record (mkInput 1 1 "  fAcToRy " "DAY" " yes" 1)))
    "Factory" = true
  /\ sunlight (read_record (mkInput 1 1 "  fAcToRy " "DAY" " yes" 1)) = false
  /\ String.eqb
       (sector (read_record (mkInput 1 1 " factory " "day" "YES" 1)))
       "Factory" = true
  /\ sunlight (read_record (mkInput 1 1 "factory" "day" " yes" 1)) = false.
Proof.
  destruct (answers_matched_without_case
              (mkInput 1 1 "  fAcToRy " "DAY" " yes" 1)) as (Hs & _ & _ & Hy).
  destruct (answers_matched_without_case
              (mkInput 1 1 " factory " "day" "YES" 1)) as (Hs' & _).
  destruct (answers_matched_without_case
              (mkInput 1 1 "factory" "day" " yes" 1)) as (_ & _ & _ & Hy').
  split; [|split; [|split]].
  - rewrite Hs. vm_compute. reflexivity.
  - apply (Hy 0x20%N (code_points "yes")); vm_compute; reflexivity.
  - rewrite Hs'. vm_compute. reflexivity.
  - apply (Hy' 0xA0%N (code_points "yes")); vm_compute; reflexivity.
Defined.

(** ** Normalizing twice *)

Lemma settled_all : forall c : N, settled c = true.
Proof.
  apply by_case_points; [vm_compute; reflexivity|].
  intros c Hl Ht Hs _. unfold settled, lowered.
  rewrite Hl, Ht, Hs. cbn [app forallb orb andb].
  rewrite Hs, Hl, Ht. cbn [negb andb].
  destruct (N.eqb_spec c 0x3A3) as [-> | _];
    [vm_compute in Hl; discriminate Hl|].
  assert (E : str_eqb [c] [c] = true) by now apply str_eqb_eq.
  rewrite E. cbn [negb andb]. now rewrite orb_true_r.
Qed.

(** *** Stripping *)

Lemma lstrip_app_single :
  forall (a : str) (c : N),
    lstrip (a ++ [c])
    = match lstrip a with
      | [] => if is_space c then [] else [c]
      | l => l ++ [c]
      end.
Proof.
  induction a as [|x a IH]; intros c; cbn [app lstrip]; [reflexivity|].
  destruct (is_space x); [apply IH | reflexivity].
Qed.

(** [rstrip], from the first character on. *)
Lemma rstrip_cons :
  forall (c : N) (r : str),
    rstrip (c :: r)
    = match rstrip r with
      | [] => if is_space c then [] else [c]
      | l => c :: l
      end.
Proof.
  intros c r. unfold rstrip. cbn [rev]. rewrite lstrip_app_single.
  destruct (lstrip (rev r)) as [|y l]; [now destruct (is_space c)|].
  rewrite rev_app_distr. cbn [rev app].
  destruct (rev l ++ [y]) eqn:E; [|reflexivity].
  now destruct (rev l).
Qed.

Lemma rstrip_rstrip : forall s : str, rstrip (rstrip s) = rstrip s.
Proof.
  induction s as [|c s IH]; [reflexivity|].
  rewrite rstrip_cons.
  destruct (rstrip s) as [|d r] eqn:E.
  - destruct (is_space c) eqn:Hc; [reflexivity|].
    rewrite rstrip_cons. change (rstrip []) with (@nil N). now rewrite Hc.
  - rewrite rstrip_cons, IH. reflexivity.
Qed.

Lemma lstrip_head :
  forall s : str,
    lstrip s = []
    \/ exists c r, lstrip s = c :: r /\ is_space c = false.
Proof.
  induction s as [|c s IH]; cbn [lstrip]; [now left|].
  destruct (is_space c) eqn:Hc; [exact IH|].
  right. exists c, s. now split.
Qed.

(** Stripping on the right keeps a first character that is not a space. *)
Lemma rstrip_keeps_head :
  forall (c : N) (s : str),
    is_space c = false -> exists r, rstrip (c :: s) = c :: r.
Proof.
  intros c s Hc. rewrite rstrip_cons, Hc.
  destruct (rstrip s); eexists; reflexivity.
Qed.

Lemma strip_trimmed : forall s : str, trimmed (strip s).
Proof.
  intros s. unfold trimmed, strip. split; [|apply rstrip_rstrip].
  destruct (lstrip_head s) as [-> | (c & r & -> & Hc)]; [reflexivity|].
  destruct (rstrip_keeps_head c r Hc) as (r' & ->).
  cbn [lstrip]. now rewrite Hc.
Qed.

Lemma trimmed_strip : forall s : str, trimmed s -> strip s = s.
Proof. intros s [Hl Hr]. unfold strip. now rewrite Hl, Hr. Qed.

(** A str without white space is stripped to itself on the right, and so
    is a str that ends with a str that is, and is not empty. *)
Lemma rstrip_no_space :
  forall s : str,
    forallb (fun x => negb (is_space x)) s = true -> rstrip s = s.
Proof.
  induction s as [|c s IH]; intros H; [reflexivity|].
  cbn [forallb] in H. apply andb_true_iff in H. destruct H as [Hc Hs].
  apply negb_true_iff in Hc.
  rewrite rstrip_cons, (IH Hs), Hc. now destruct s.
Qed.

Lemma rstrip_app :
  forall a b : str, b <> [] -> rstrip b = b -> rstrip (a ++ b) = a ++ b.
Proof.
  induction a as [|x a IH]; intros b Hb E; [exact E|].
  cbn [app]. rewrite rstrip_cons, (IH b Hb E).
  destruct (a ++ b) eqn:Eab; [|reflexivity].
  apply app_eq_nil in Eab. destruct Eab as [_ ->]. contradiction.
Qed.

(** *** What lowering and capitalizing keep *)

Lemma lower_char_settled :
  forall (before : str) (c : N) (after : str),
    lower_char before c after <> []
    /\ forallb lowered (lower_char before c after) = true
    /\ (is_space c = false ->
        forallb (fun x => negb (is_space x)) (lower_char before c after)
        = true).
Proof.
  intros before c after. unfold lower_char.
  destruct (N.eqb_spec c 0x3A3) as [-> | _].
  - destruct (final_sigma before after);
      (split; [discriminate|split; [|intros _]]; vm_compute; reflexivity).
  - pose proof (settled_all c) as H. unfold settled in H.
    apply andb_true_iff in H. destruct H as [H _].
    apply andb_true_iff in H. destruct H as [H Hne].
    apply andb_true_iff in H. destruct H as [Hsp Hlow].
    split; [now destruct (to_lower_full c)|]. split; [exact Hlow|].
    intros Hc. rewrite Hc in Hsp. cbn [orb] in Hsp.
    rewrite forallb_app in Hsp. now apply andb_true_iff in Hsp.
Qed.

Lemma lower_from_lowered :
  forall (l before : str), forallb lowered (lower_from before l) = true.
Proof.
  induction l as [|c l IH]; intros before; cbn [lower_from]; [reflexivity|].
  rewrite forallb_app, IH.
  now destruct (lower_char_settled before c l) as (_ & -> & _).
Qed.

(** Lowering leaves lowered characters as they are. *)
Lemma lower_from_fixed :
  forall (l before : str),
    forallb lowered l = true -> lower_from before l = l.
Proof.
  induction l as [|x l IH]; intros before H; [reflexivity|].
  cbn [forallb] in H. apply andb_true_iff in H. destruct H as [Hx Hl].
  unfold lowered in Hx. apply andb_true_iff in Hx. destruct Hx as [Hs Hx].
  apply negb_true_iff in Hs. apply str_eqb_eq in Hx.
  cbn [lower_from]. unfold lower_char. rewrite Hs, Hx, (IH _ Hl).
  reflexivity.
Qed.

Lemma lower_from_nonempty :
  forall (c : N) (l before : str), lower_from before (c :: l) <> [].
Proof.
  intros c l before E. cbn [lower_from] in E.
  apply app_eq_nil in E. destruct E as [E _].
  now destruct (lower_char_settled before c l) as (Hne & _).
Qed.

Lemma lower_from_rstrip :
  forall (l before : str),
    rstrip l = l -> rstrip (lower_from before l) = lower_from before l.
Proof.
  induction l as [|c l IH]; intros before H; [reflexivity|].
  rewrite rstrip_cons in H. cbn [lower_from].
  destruct (rstrip l) as [|y r] eqn:E.
  - destruct (is_space c) eqn:Hc; [discriminate H|].
    injection H as <-. cbn [lower_from]. rewrite app_nil_r.
    apply rstrip_no_space.
    now destruct (lower_char_settled before c []) as (_ & _ & Hn); auto.
  - injection H as H.
    apply rstrip_app; [rewrite <- H; apply lower_from_nonempty|].
    apply IH. exact H.
Qed.

Lemma trimmed_cons :
  forall (c : N) (l : str),
    trimmed (c :: l) -> is_space c = false /\ rstrip l = l.
Proof.
  intros c l [Hl Hr]. assert (Hc : is_space c = false).
  { cbn [lstrip] in Hl. destruct (is_space c) eqn:Hc; [|reflexivity].
    exfalso. destruct (lstrip_head l) as [E | (d & r & E & Hd)];
      rewrite E in Hl; [discriminate Hl|].
    injection Hl as -> _. congruence. }
  split; [exact Hc|].
  rewrite rstrip_cons, Hc in Hr.
  destruct (rstrip l) as [|d r] eqn:E; injection Hr as <-; reflexivity.
Qed.

Lemma capitalize_trimmed :
  forall t : str, trimmed t -> trimmed (capitalize t).
Proof.
  intros [|c l] Ht; [split; reflexivity|].
  destruct (trimmed_cons c l Ht) as [Hc Hl].
  pose proof (settled_all c) as H. unfold settled in H.
  apply andb_true_iff in H. destruct H as [H Htitle].
  apply andb_true_iff in H. destruct H as [H _].
  apply andb_true_iff in H. destruct H as [Hsp _].
  rewrite Hc in Hsp. cbn [orb] in Hsp.
  rewrite forallb_app in Hsp. apply andb_true_iff in Hsp.
  destruct Hsp as [_ Hsp].
  cbn [capitalize]. split.
  - destruct (to_title_full c) as [|x r]; [discriminate Htitle|].
    cbn [forallb] in Hsp. apply andb_true_iff in Hsp.
    destruct Hsp as [Hx _]. apply negb_true_iff in Hx.
    cbn [app lstrip]. now rewrite Hx.
  - destruct l as [|d l].
    + cbn [lower_from]. rewrite app_nil_r. now apply rstrip_no_space.
    + apply rstrip_app; [apply lower_from_nonempty|].
      now apply lower_from_rstrip.
Qed.

Lemma capitalize_capitalize :
  forall t : str,
    hd_error t <> Some 0x149%N -> capitalize (capitalize t) = capitalize t.
Proof.
  intros [|c l] Hc; [reflexivity|]. cbn [hd_error] in Hc.
  pose proof (settled_all c) as H. unfold settled in H.
  apply andb_true_iff in H. destruct H as [_ Htitle].
  cbn [capitalize].
  destruct (to_title_full c) as [|x r]; [discriminate Htitle|].
  apply andb_true_iff in Htitle. destruct Htitle as [Hx Hr].
  apply str_eqb_eq in Hx.
  destruct (N.eqb_spec c 0x149) as [-> | _]; [now contradiction Hc|].
  cbn [orb] in Hr. cbn [app capitalize]. rewrite Hx. cbn [app]. f_equal.
  apply lower_from_fixed. now rewrite forallb_app, Hr, lower_from_lowered.
Qed.

(** X10: stripping an answer twice, or stripping a normalized answer, changes
    nothing; normalizing a second time changes nothing either, unless the
    stripped answer begins with U+0149, whose title case holds a capital
    N that the second pass lowers. *)
Theorem normalize_twice :
  forall s : str,
    strip (strip s) = strip s
    /\ strip (normalize s) = normalize s
    /\ (hd_error (strip s) <> Some 0x149%N ->
        normalize (normalize s) = normalize s)
    /\ normalize (decode_utf8 "ŉa") = decode_utf8 "ʼNa"
    /\ normalize (decode_utf8 "ʼNa") = decode_utf8 "ʼna".
Proof.
  intros s. unfold normalize.
  pose proof (strip_trimmed s) as Ht.
  pose proof (trimmed_strip _ (capitalize_trimmed _ Ht)) as Hs.
  split; [now apply trimmed_strip|]. split; [exact Hs|].
  split; [|split; vm_compute; reflexivity].
  intros Hc. rewrite Hs. now apply capitalize_capitalize.
Qed.

Lemma normalize_twice_witness :
  normalize (normalize (decode_utf8 "  fAcToRy "))
  = decode_utf8 "Factory".
Proof.
  destruct (normalize_twice (decode_utf8 "  fAcToRy ")) as (_ & _ & H & _).
  rewrite H; [vm_compute; reflexivity|].
  vm_compute. discriminate.
Defined.

(** ** One run of [main] *)

(** X11: a run of [main] leaves a history of exactly the record read,
    whose trend average is unavailable; when it returns, the anomaly flag is
    false, the spike line is not among the reasons, the ratio is the quotient
    of the two numbers typed, and the alert follows from the ratio alone. *)
Theorem main_alert_from_ratio_alone :
  forall inp : console_input,
    EnergyHistory.records (fst (main inp)) = [read_record inp]
    /\ EnergyHistory.trend_average (fst (main inp)) = None
    /\ forall o : outcome,
         snd (main inp) = Return o ->
         out_anomaly o = false
         /\ mentions (out_reasons o) spike_line = false
         /\ out_ratio o = usage_in inp / expected_in inp
         /\ out_alert o
            = if 1.35 <=? out_ratio o then "CRITICAL"%string
              else if 1.15 <=? out_ratio o then "WARNING"%string
              else "NORMAL"%string.
Proof.
  intros inp. split; [reflexivity|]. split; [reflexivity|].
  intros o Ho. unfold main in Ho.
  destruct (evaluate_returns _ _ _ Ho) as (_ & ->).
  cbn [out_anomaly out_reasons out_ratio out_alert].
  change (EnergyAnalytics.anomaly_detected (read_record inp) EnergyHistory.init)
    with false.
  split; [reflexivity|]. split; [|split; [reflexivity|]].
  - rewrite decide_reasons. unfold mentions, fired.
    destruct (hot _), (sunny_day _), (is_factory _), (is_power_plant _);
      reflexivity.
  - unfold EnergyAnalytics.alert_level. now rewrite orb_false_r.
Qed.

Lemma main_alert_from_ratio_alone_witness :
  exists o,
    snd (main (mkInput 140 100 "home" "night" "no" 20)) = Return o
    /\ out_anomaly o = false
    /\ out_alert o = "CRITICAL"%string.
Proof.
  eexists. split; [reflexivity|].
  destruct (main_alert_from_ratio_alone
              (mkInput 140 100 "home" "night" "no" 20))
    as (_ & _ & H).
  destruct (H _ eq_refl) as (Ha & _ & _ & Hal).
  split; [exact Ha | rewrite Hal; reflexivity].
Defined.

(** X12: a reading whose usage is NaN, with a baseline that is not zero, is
    reported as NORMAL with an efficiency score of 100, a ratio line that
    reads "nan" and the single LOW action, whatever the history holds. *)
Theorem nan_usage_reported_normal :
  forall (history : EnergyHistory.t) (record : EnergyRecord),
    is_nan (usage record) = true ->
    (expected_avg record =? 0) = false ->
    exists o : outcome,
      snd (evaluate history record) = Return o
      /\ out_anomaly o = false
      /\ out_alert o = "NORMAL"%string
      /\ out_score o = PInt 100
      /\ hd_error (out_reasons o) = Some "Usage is nan× expected level"%string
      /\ out_actions o = [no_action].
Proof.
  intros history record Hnan Hexp.
  pose proof (anomaly_detected_nan_usage record history Hnan) as Ha.
  apply is_nan_eq in Hnan.
  unfold evaluate, EnergyAnalytics.usage_ratio, EnergyAnalytics.float_truediv.
  cbn [snd]. rewrite Hexp, Ha, Hnan, div_nan_l. cbn [bind].
  change (EnergyAnalytics.alert_level nan false) with "NORMAL"%string.
  change (EnergyAnalytics.efficiency_score nan) with (PInt 100).
  pose proof (decide_reasons record nan false "NORMAL") as Hr.
  pose proof (decide_actions record nan false "NORMAL") as Hp.
  unfold reasons_of, actions_of in Hr, Hp.
  destruct (KeenAIBrain.decide record nan false "NORMAL") as [[rs acts] c].
  cbn [fst snd] in Hr, Hp. subst rs acts.
  eexists. split; [reflexivity|]. repeat split.
Qed.

Lemma nan_usage_reported_normal_witness :
  exists o : outcome,
    snd (evaluate (EnergyHistory.mk [reading 50]) (reading nan)) = Return o
    /\ out_alert o = "NORMAL"%string
    /\ out_score o = PInt 100.
Proof.
  destruct (nan_usage_reported_normal (EnergyHistory.mk [reading 50])
              (reading nan) eq_refl eq_refl)
    as (o & Ho & _ & Hal & Hs & _).
  exists o. repeat split; assumption.
Defined.

(** ** What a run prints *)

(** X13: [show] prints three texts, and its banner agrees with the plan of
    the same evaluation: the CRITICAL banner with a plan from the load
    reduction to the geothermal shift, the WARNING banner with a plan that
    starts with the schedule optimization, the NORMAL banner with the single
    LOW action. *)
Theorem banner_matches_plan :
  forall (repr_float : float -> string) (history : EnergyHistory.t)
         (record : EnergyRecord) (o : outcome),
    snd (evaluate history record) = Return o ->
    let shown := AlertDisplay.show repr_float (out_alert o) (out_score o) in
    List.length shown = 3%nat
    /\ ((nth_error shown 1 = Some critical_banner
         /\ hd_error (out_actions o) = Some reduce_load
         /\ last (out_actions o) no_action = geothermal_shift)
        \/ (nth_error shown 1 = Some warning_banner
            /\ hd_error (out_actions o) = Some optimize_schedule)
        \/ (nth_error shown 1 = Some normal_banner
            /\ out_actions o = [no_action])).
Proof.
  intros repr_float history record o Ho shown. subst shown.
  destruct (evaluate_returns _ _ _ Ho) as (_ & ->).
  cbn [out_alert out_score out_actions]. rewrite decide_actions.
  unfold EnergyAnalytics.alert_level, fired.
  destruct ((1.35 <=? _) || _).
  - split; [reflexivity|]. left.
    destruct (sunlight record), (is_factory record || is_power_plant record);
      repeat split.
  - destruct (1.15 <=? _).
    + split; [reflexivity|]. right. left.
      destruct (sunlight record); repeat split.
    + split; [reflexivity|]. right. right. repeat split.
Qed.

Lemma banner_matches_plan_witness :
  nth_error
    (AlertDisplay.show (fun _ => "77.5"%string) "WARNING" (PFloat 77.5)) 1
  = Some warning_banner
  /\ List.length
       (AlertDisplay.show (fun _ => "77.5"%string) "WARNING" (PFloat 77.5))
     = 3%nat.
Proof.
  split; [reflexivity|].
  exact (proj1 (banner_matches_plan (fun _ => "77.5"%string)
                  EnergyHistory.init hot_factory_day
                  _ eq_refl)).
Defined.

Lemma main_outcome :
  forall inp : console_input,
    (expected_in inp =? 0) = false ->
    exists o : outcome,
      snd (main inp) = Return o
      /\ (1 <= List.length (out_reasons o) <= 4)%nat
      /\ (1 <= List.length (out_actions o) <= 4)%nat.
Proof.
  intros inp He. unfold main.
  pose proof (evaluate_outcome_anomaly EnergyHistory.init (read_record inp))
    as H.
  destruct (snd (evaluate EnergyHistory.init (read_record inp)))
    as [o | e] eqn:Ho.
  - exists o. split; [reflexivity|].
    destruct (evaluate_returns _ _ _ Ho) as (_ & ->).
    cbn [out_reasons out_actions]. rewrite decide_reasons, decide_actions.
    change (EnergyAnalytics.anomaly_detected (read_record inp)
              EnergyHistory.init) with false.
    pose proof (factory_not_power_plant (read_record inp)) as Hx.
    generalize (EnergyAnalytics.alert_level
                  (usage (read_record inp) / expected_avg (read_record inp))
                  false).
    generalize dependent (read_record inp). intros r _ _ Hx alert.
    unfold fired. split.
    + destruct (hot r), (sunny_day r), (is_factory r), (is_power_plant r);
        try discriminate Hx; cbn; lia.
    + destruct (String.eqb alert "CRITICAL"), (String.eqb alert "WARNING"),
        (sunlight r), (is_factory r || is_power_plant r); cbn; lia.
  - cbn [read_record expected_avg] in H. congruence.
Qed.

Lemma report_length :
  forall (repr_float : float -> string) (o : outcome),
    List.length (report repr_float o)
    = (7 + List.length (out_reasons o) + List.length (out_actions o))%nat
    /\ last (report repr_float o) EmptyString = ready_text.
Proof.
  intros repr_float o. unfold report, AlertDisplay.show. split.
  - destruct (String.eqb (out_alert o) "CRITICAL"),
      (String.eqb (out_alert o) "WARNING");
      rewrite !length_app, !length_map; cbn [List.length]; lia.
  - rewrite !app_assoc.
    change [?a; ?b] with ([a] ++ [b]).
    rewrite app_assoc. apply last_last.
Qed.

(** X14: with a zero baseline [main] prints its title and nothing more
    before [ZeroDivisionError] ends it; otherwise it prints the title, then
    the report, from 10 to 16 texts in all, the last one being the ready
    line. *)
Theorem main_prints_title_then_report :
  forall (repr_float : float -> string) (inp : console_input),
    ((expected_in inp =? 0) = true ->
     main_printed repr_float inp = ([title_text], Raise ZeroDivisionError))
    /\ ((expected_in inp =? 0) = false ->
        exists o : outcome,
          main_printed repr_float inp
          = (title_text :: report repr_float o, Return o)
          /\ last (fst (main_printed repr_float inp)) EmptyString = ready_text
          /\ (10 <= List.length (fst (main_printed repr_float inp)) <= 16)%nat).
Proof.
  intros repr_float inp. split; intros He.
  - unfold main_printed, main, evaluate, EnergyAnalytics.usage_ratio,
      EnergyAnalytics.float_truediv.
    cbn [snd read_record expected_avg]. rewrite He. reflexivity.
  - destruct (main_outcome inp He) as (o & Ho & Hr & Ha).
    exists o. unfold main_printed. rewrite Ho. cbn [fst app].
    destruct (report_length repr_float o) as [Hlen Hlast].
    split; [reflexivity|]. split.
    + change (title_text :: report repr_float o)
        with ([title_text] ++ report repr_float o).
      destruct (report repr_float o) as [|l ls] eqn:E; [discriminate Hlen|].
      rewrite <- Hlast. cbn [app]. reflexivity.
    + cbn [List.length]. rewrite Hlen. lia.
Qed.

Lemma main_prints_title_then_report_witness :
  main_printed (fun _ => "?"%string) (mkInput 130 0 "factory" "day" "yes" 35)
  = ([title_text], Raise ZeroDivisionError)
  /\ (10 <= List.length
             (fst (main_printed (fun _ => "?"%string)
                     (mkInput 130 100 "factory" "day" "yes" 35)))
      <= 16)%nat.
Proof.
  destruct (main_prints_title_then_report (fun _ => "?"%string)
              (mkInput 130 0 "factory" "day" "yes" 35)) as (H0 & _).
  destruct (main_prints_title_then_report (fun _ => "?"%string)
              (mkInput 130 100 "factory" "day" "yes" 35)) as (_ & H1).
  split; [apply H0; reflexivity|].
  destruct (H1 eq_refl) as (o & _ & _ & Hlen). exact Hlen.
Defined.

(** X15: the last text but one of the report is the confidence line, made
    of decimal digits that read back as the confidence, a number from 30 to
    85. *)
Theorem confidence_line_reads_back :
  forall (repr_float : float -> string) (history : EnergyHistory.t)
         (record : EnergyRecord) (o : outcome),
    snd (evaluate history record) = Return o ->
    exists digits : string,
      nth_error (rev (report repr_float o)) 1
      = Some (nl ++ "AI Decision Confidence: " ++ digits ++ "%")%string
      /\ all_digits digits = true
      /\ number_of digits = out_confidence o
      /\ (30 <= number_of digits <= 85)%Z.
Proof.
  intros repr_float history record o Ho.
  destruct (evaluate_returns _ _ _ Ho) as (_ & Eo).
  assert (Hc : (30 <= out_confidence o <= 85)%Z).
  { rewrite Eo. cbn [out_confidence]. rewrite decide_confidence.
    pose proof (factory_not_power_plant record) as Hx. unfold weight.
    destruct (hot record), (sunny_day record), (is_factory record),
      (is_power_plant record); try discriminate Hx; cbn; lia. }
  exists (decimal (out_confidence o)).
  destruct (decimal_reads_back (out_confidence o)) as [Hv Ha]; [lia|].
  rewrite Hv. split; [|split; [exact Ha | split; [reflexivity | exact Hc]]].
  unfold report. rewrite !app_assoc, rev_app_distr. cbn [rev app nth_error].
  unfold str_int. destruct (out_confidence o); try reflexivity. lia.
Qed.

Lemma confidence_line_reads_back_witness :
  exists (o : outcome) (digits : string),
    snd (evaluate EnergyHistory.init hot_factory_day) = Return o
    /\ nth_error (rev (report (fun _ => "77.5"%string) o)) 1
       = Some (nl ++ "AI Decision Confidence: " ++ digits ++ "%")%string
    /\ number_of digits = 85%Z.
Proof.
  destruct (confidence_line_reads_back (fun _ => "77.5"%string)
              EnergyHistory.init hot_factory_day _ eq_refl)
    as (digits & Hl & _ & Hn & _).
  eexists. exists digits. split; [reflexivity|]. split; [exact Hl|].
  rewrite Hn. reflexivity.
Defined.
